(** * The shopping-cart portfolio programs, embedded and verified

    Source files: [Module6-Portfolio.py] (the first cart program) and
    [Module8-Portfolio.py] (the consolidated final one).  Both define the
    dataclasses [ItemToPurchase] and [ShoppingCart]; they differ in
    [ItemToPurchase.update] (where [float(price)] is taken), in
    [ItemToPurchase.print_item_cost] and [ShoppingCart.print_total]
    (integer rendering against [money_str]).

    Python values are modelled as follows.
    - [int] is [Z]; [float] is the kernel's binary64 [float], whose
      operations follow IEEE 754 as Python's do;
    - [str] is the [string] of its UTF-8 bytes; [strip] and [lower], which
      go by the Unicode tables, are the methods of a class ([Str.Methods])
      that says what is used of them, and they are written out for ASCII
      text, on which the samples run;
    - an [int] is rendered as text only up to 4300 digits, as CPython does;
    - objects live in a store indexed by references, so that two entries of a
      cart holding the same object stay one object;
    - a method is a function from the state it mutates to an outcome and the
      state it leaves: a raised exception keeps every mutation made so far;
    - [print] appends a line to the session's output;
    - [input] takes its line from a list of keyboard entries, a typed line
      or Ctrl+C, the end of the list being the end of the input; [int] and
      [float] of a typed string are parameters of the prompt helpers. *)

From Stdlib Require Import ZArith Lia List Bool String Ascii Floats.
From Stdlib Require Import Decimal DecimalString.
Import ListNotations.

#[local] Open Scope string_scope.
#[local] Open Scope Z_scope.

(** ** Python strings *)

Module Str.

(** [str.isspace] on the ASCII range: tab, line feed, vertical tab, form
    feed, carriage return, the four separators 28..31 and the space. *)
Definition is_space (c : ascii) : bool :=
  let n := nat_of_ascii c in
  ((9 <=? n) && (n <=? 13) || (28 <=? n) && (n <=? 32))%nat.

Definition is_upper (c : ascii) : bool :=
  let n := nat_of_ascii c in ((65 <=? n) && (n <=? 90))%nat.

Definition lower_char (c : ascii) : ascii :=
  if is_upper c then ascii_of_nat (nat_of_ascii c + 32) else c.

(** [s.lower()] for ASCII text. *)
Fixpoint ascii_lower (s : string) : string :=
  match s with
  | EmptyString => EmptyString
  | String c r => String (lower_char c) (ascii_lower r)
  end.

Fixpoint ascii_lstrip (s : string) : string :=
  match s with
  | EmptyString => EmptyString
  | String c r => if is_space c then ascii_lstrip r else s
  end.

Fixpoint ascii_rstrip (s : string) : string :=
  match s with
  | EmptyString => EmptyString
  | String c r =>
      match ascii_rstrip r with
      | EmptyString => if is_space c then EmptyString else String c EmptyString
      | r' => String c r'
      end
  end.

(** [s.strip()] for ASCII text. *)
Definition ascii_strip (s : string) : string := ascii_rstrip (ascii_lstrip s).

(** Every byte is below 128: the text is ASCII. *)
Fixpoint is_ascii (s : string) : bool :=
  match s with
  | EmptyString => true
  | String c r => (nat_of_ascii c <? 128)%nat && is_ascii r
  end.

(** [s.strip()] and [s.lower()].  What the programs rely on: stripping
    twice is stripping once; on ASCII text the two methods are the ones
    written out above. *)
Class Methods : Type := {
  strip : string -> string;
  lower : string -> string;
  strip_strip : forall s, strip (strip s) = strip s;
  strip_ascii : forall s, is_ascii s = true -> strip s = ascii_strip s;
  lower_ascii : forall s, is_ascii s = true -> lower s = ascii_lower s
}.

(** The truth value of a string: [not s] holds of the empty string only. *)
Definition is_empty (s : string) : bool :=
  match s with EmptyString => true | _ => false end.

(** The decimal digits of an [int], with its sign. *)
Definition of_int (z : Z) : string := NilZero.string_of_int (Z.to_int z).

(** [a == b] after lowering both sides. *)
Definition ci_equal {text : Methods} (a b : string) : bool :=
  String.eqb (lower a) (lower b).

End Str.

(** ** Exceptions and outcomes *)

Inductive exn : Type :=
| ValueError (msg : string)
| OverflowError (msg : string).

(** [str(e)] *)
Definition exn_message (e : exn) : string :=
  match e with ValueError m => m | OverflowError m => m end.

Inductive outcome (A : Type) : Type :=
| Returned (a : A)
| Raised (e : exn).
Arguments Returned {A} a.
Arguments Raised {A} e.

(** A method over a mutable state [S]: the state is threaded through and
    survives a raise. *)
Definition M (S A : Type) : Type := S -> outcome A * S.

Definition ret {S A} (a : A) : M S A := fun s => (Returned a, s).

Definition bind {S A B} (m : M S A) (k : A -> M S B) : M S B :=
  fun s =>
    match m s with
    | (Returned a, s') => k a s'
    | (Raised e, s') => (Raised e, s')
    end.

Definition raise {S A} (e : exn) : M S A := fun s => (Raised e, s).

Definition get {S} : M S S := fun s => (Returned s, s).

Definition modify {S} (f : S -> S) : M S unit := fun s => (Returned tt, f s).

(** [try: m  except ValueError as e: h e] *)
Definition try_except_ValueError {S A} (m : M S A) (h : exn -> M S A) : M S A :=
  fun s =>
    match m s with
    | (Raised (ValueError msg), s') => h (ValueError msg) s'
    | r => r
    end.

(** [try: m  except Exception: h] *)
Definition try_except_Exception {S A} (m : M S A) (h : exn -> M S A) : M S A :=
  fun s =>
    match m s with
    | (Raised e, s') => h e s'
    | r => r
    end.

(** A computation that touches no state. *)
Definition pure_outcome {S A} (o : outcome A) : M S A := fun s => (o, s).

Declare Scope py_scope.
Delimit Scope py_scope with py.
Notation "x <- m ;; k" := (bind m (fun x => k))
  (at level 100, m at next level, right associativity) : py_scope.
Notation "m ;; k" := (bind m (fun _ => k))
  (at level 100, right associativity) : py_scope.
#[local] Open Scope py_scope.

(** [if c: body] with no [else]. *)
Definition when {S} (c : bool) (body : M S unit) : M S unit :=
  if c then body else ret tt.

(** [if x is not None: body x] *)
Definition if_not_None {S A} (x : option A) (body : A -> M S unit) : M S unit :=
  match x with Some a => body a | None => ret tt end.

(** ** Python numbers *)

Module Num.

(** A value that is an [int] or a [float]. *)
Inductive number : Type :=
| Int (z : Z)
| Float (f : float).

(** [float(z)] for an [int]: the nearest binary64, ties to even;
    [OverflowError] when that is beyond the largest finite float. *)
Definition float_of_int (z : Z) : outcome float :=
  let f := SF2Prim (binary_normalize prec emax z 0 false) in
  match Prim2SF f with
  | S754_infinity _ => Raised (OverflowError "int too large to convert to float")
  | _ => Returned f
  end.

(** [p * q] for a [float] and an [int]: the [int] is converted first. *)
Definition mul_float_int (p : float) (q : Z) : outcome float :=
  match float_of_int q with
  | Returned fq => Returned (PrimFloat.mul p fq)
  | Raised e => Raised e
  end.

(** [a + b] as [sum] meets it: the running total is the [int] 0 at first
    and a [float] once a float was added. *)
Definition add_number_float (a : number) (b : float) : outcome float :=
  match a with
  | Float fa => Returned (PrimFloat.add fa b)
  | Int z =>
      match float_of_int z with
      | Returned fz => Returned (PrimFloat.add fz b)
      | Raised e => Raised e
      end
  end.

(** [num / den] rounded to the nearest integer, ties to even; [den > 0]. *)
Definition round_half_even_div (num den : Z) : Z :=
  let q := num / den in
  let r := num mod den in
  match 2 * r ?= den with
  | Lt => q
  | Gt => q + 1
  | Eq => if Z.even q then q else q + 1
  end.

(** [x.is_integer()] *)
Definition is_integer (x : float) : bool :=
  match Prim2SF x with
  | S754_zero _ => true
  | S754_finite _ m e =>
      if 0 <=? e then true else Z.pos m mod 2 ^ (- e) =? 0
  | _ => false
  end.

(** [round(x)] with one argument: the nearest [int], ties to even. *)
Definition round (x : float) : outcome Z :=
  match Prim2SF x with
  | S754_zero _ => Returned 0
  | S754_finite s m e =>
      let a := if 0 <=? e then Z.pos m * 2 ^ e
               else round_half_even_div (Z.pos m) (2 ^ (- e)) in
      Returned (if s then - a else a)
  | S754_infinity _ => Raised (OverflowError "cannot convert float infinity to integer")
  | S754_nan => Raised (ValueError "cannot convert float NaN to integer")
  end.

(** [int(x)] for a [float]: truncation toward zero. *)
Definition int_of_float (x : float) : outcome Z :=
  match Prim2SF x with
  | S754_zero _ => Returned 0
  | S754_finite s m e =>
      let a := if 0 <=? e then Z.pos m * 2 ^ e else Z.pos m / 2 ^ (- e) in
      Returned (if s then - a else a)
  | S754_infinity _ => Raised (OverflowError "cannot convert float infinity to integer")
  | S754_nan => Raised (ValueError "cannot convert float NaN to integer")
  end.

(** Two decimal digits, [0 <= n < 100]. *)
Definition two_digits (n : Z) : string :=
  ((if (n <? 10)%Z then "0" else EmptyString) ++ Str.of_int n)%string.

(** [f"{x:.2f}"]: the exact value of [x] rounded to hundredths, ties to
    even; the sign is kept even when the digits are all zero. *)
Definition format_2f (x : float) : string :=
  match Prim2SF x with
  | S754_nan => "nan"
  | S754_infinity s => if s then "-inf" else "inf"
  | S754_zero s => if s then "-0.00" else "0.00"
  | S754_finite s m e =>
      let n := if 0 <=? e then Z.pos m * 2 ^ e * 100
               else round_half_even_div (Z.pos m * 100) (2 ^ (- e)) in
      ((if s then "-" else EmptyString) ++ Str.of_int (n / 100)%Z ++ "." ++ two_digits (n mod 100)%Z)%string
  end.

(** [float(x)], [round(x)] and [int(x)] for a value of either kind. *)
Definition float_of_number (x : number) : outcome float :=
  match x with Int z => float_of_int z | Float f => Returned f end.

Definition round_number (x : number) : outcome Z :=
  match x with Int z => Returned z | Float f => round f end.

Definition int_of_number (x : number) : outcome Z :=
  match x with Int z => Returned z | Float f => int_of_float f end.

(** [x < 0] and [x == 0] for a value of either kind; an [int] is compared
    as it is, without a conversion. *)
Definition is_negative (x : number) : bool :=
  match x with Int z => z <? 0 | Float f => PrimFloat.ltb f 0%float end.

Definition is_zero (x : number) : bool :=
  match x with Int z => z =? 0 | Float f => PrimFloat.eqb f 0%float end.

(** The first [int] with more than 4300 digits, 10 ^ 4300. *)
Definition int_str_limit : Z := Eval vm_compute in 10 ^ 4300.

(** [str(n)], [f"{n}"] for an [int]: CPython gives the digits of an [int] of
    at most 4300 digits (the default of [sys.get_int_max_str_digits()]) and
    raises [ValueError] beyond. *)
Definition format_int (z : Z) : outcome string :=
  if int_str_limit <=? Z.abs z
  then Raised (ValueError
                 ("Exceeds the limit (4300 digits) for integer string conversion; "
                  ++ "use sys.set_int_max_str_digits() to increase the limit"))
  else Returned (Str.of_int z).

End Num.
Import Num.

Arguments int_str_limit : simpl never.

(** ** ItemToPurchase *)

Record ItemToPurchase : Type := mkItem {
  item_name : string;
  item_price : float;
  item_quantity : Z;
  item_description : string
}.

(** The dataclass defaults. *)
Definition default_item : ItemToPurchase := mkItem "none" 0%float 0 "none".

Definition set_item_name (v : string) (it : ItemToPurchase) : ItemToPurchase :=
  mkItem v (item_price it) (item_quantity it) (item_description it).
Definition set_item_price (v : float) (it : ItemToPurchase) : ItemToPurchase :=
  mkItem (item_name it) v (item_quantity it) (item_description it).
Definition set_item_quantity (v : Z) (it : ItemToPurchase) : ItemToPurchase :=
  mkItem (item_name it) (item_price it) v (item_description it).
Definition set_item_description (v : string) (it : ItemToPurchase) : ItemToPurchase :=
  mkItem (item_name it) (item_price it) (item_quantity it) v.

(** An [ItemToPurchase] as a caller hands it to [modify_item].  Python checks
    no annotation: the price and the quantity of such an object can be an
    [int] or a [float], and [modify_item] and [update] convert them.  The
    objects of the session have the declared types. *)
Record Given : Type := mkGiven {
  given_name : string;
  given_price : number;
  given_quantity : number;
  given_description : string
}.

Definition as_given (it : ItemToPurchase) : Given :=
  mkGiven (item_name it) (Float (item_price it)) (Int (item_quantity it))
    (item_description it).
Coercion as_given : ItemToPurchase >-> Given.

(** [total_cost]: the same text in both programs. *)
Definition total_cost (self : ItemToPurchase) : outcome float :=
  let price := if PrimFloat.leb 0%float (item_price self) then item_price self else 0%float in
  let qty := if 0 <=? item_quantity self then item_quantity self else 0 in
  mul_float_int price qty.

(** ** The session: objects, the cart and the output

    An [ItemToPurchase] object is named by a reference; [objects] gives the
    object behind every reference and [next_ref] is the first one not yet
    handed out.  [cart_items] lists references, as a Python list does. *)

Definition ref : Type := nat.

Record ShoppingCart : Type := mkCart {
  customer_name : string;
  current_date : string;
  cart_items : list ref
}.

Record Session : Type := mkSession {
  objects : ref -> ItemToPurchase;
  next_ref : ref;
  cart : ShoppingCart;
  stdout : list string
}.

Definition set_objects (f : ref -> ItemToPurchase) (s : Session) : Session :=
  mkSession f (next_ref s) (cart s) (stdout s).
Definition set_cart_items (l : list ref) (s : Session) : Session :=
  mkSession (objects s) (next_ref s)
    (mkCart (customer_name (cart s)) (current_date (cart s)) l) (stdout s).

Definition assign (r : ref) (it : ItemToPurchase) (f : ref -> ItemToPurchase)
    : ref -> ItemToPurchase :=
  fun r' => if Nat.eqb r' r then it else f r'.

(** [print(line)] *)
Definition print (line : string) : M Session unit :=
  modify (fun s => mkSession (objects s) (next_ref s) (cart s) (stdout s ++ [line])%list).

(** A method of the object behind [r], run on that object in place. *)
Definition on_object {A} (r : ref) (m : M ItemToPurchase A) : M Session A :=
  fun s =>
    let '(o, it') := m (objects s r) in
    (o, set_objects (assign r it' (objects s)) s).

(** [ItemToPurchase(item_name=.., item_price=.., item_quantity=..,
    item_description=..)]: the dataclass constructor stores its arguments in
    a new object. *)
Definition new_ItemToPurchase (name : string) (price : float) (quantity : Z)
    (description : string) : M Session ref :=
  fun s =>
    let r := next_ref s in
    (Returned r,
     mkSession (assign r (mkItem name price quantity description) (objects s))
       (S r) (cart s) (stdout s)).

(** [for x in xs: body x] *)
Fixpoint for_each {S A} (xs : list A) (body : A -> M S unit) : M S unit :=
  match xs with
  | [] => ret tt
  | x :: rest => body x ;; for_each rest body
  end.

(** *** Methods with the same text in both programs *)

Definition print_item_description (self : ref) : M Session unit :=
  s <- get ;;
  let it := objects s self in
  print (item_name it ++ ": " ++ item_description it).

Definition add_item (item_to_purchase : ref) : M Session unit :=
  modify (fun s => set_cart_items (cart_items (cart s) ++ [item_to_purchase])%list s).

(** [del xs[i]] for an index in range. *)
Definition del_index {A} (i : nat) (xs : list A) : list A :=
  (firstn i xs ++ skipn (S i) xs)%list.

Section Search.

Context {text : Str.Methods}.

(** The loop of [remove_item] from index [i] on, [rest] being the entries
    not yet visited; the [print] after the loop is reached when it runs out. *)
Fixpoint remove_item_loop (name : string) (i : nat) (rest : list ref)
    : M Session unit :=
  match rest with
  | [] => print "Item not found in cart. Nothing removed."
  | it :: rest' =>
      s <- get ;;
      if String.eqb (Str.lower (item_name (objects s it))) name
      then modify (fun s => set_cart_items (del_index i (cart_items (cart s))) s)
      else remove_item_loop name (S i) rest'
  end.

Definition remove_item (item_name : string) : M Session unit :=
  let name := Str.lower (Str.strip item_name) in
  s <- get ;;
  remove_item_loop name 0%nat (cart_items (cart s)).

(** The search loop of [modify_item]: the first entry whose lowered name is
    [name], or [None]. *)
Fixpoint find_target (objs : ref -> ItemToPurchase) (name : string)
    (items : list ref) : option ref :=
  match items with
  | [] => None
  | it :: rest =>
      if String.eqb (Str.lower (item_name (objs it))) name then Some it
      else find_target objs name rest
  end.

End Search.

(** [sum(max(0, it.item_quantity) for it in self.cart_items)] *)
Definition get_num_items_in_cart (s : Session) : Z :=
  fold_left (fun acc it => acc + Z.max 0 (item_quantity (objects s it)))
    (cart_items (cart s)) 0.

(** [sum(it.total_cost() for it in self.cart_items)]: the total starts as the
    [int] 0 and each cost is added from the left (the plain summation of
    CPython up to 3.11; later versions compensate the float additions, which
    can change the last bits of the total only). *)
Fixpoint sum_costs (objs : ref -> ItemToPurchase) (acc : number)
    (items : list ref) : outcome number :=
  match items with
  | [] => Returned acc
  | it :: rest =>
      match total_cost (objs it) with
      | Raised e => Raised e
      | Returned c =>
          match add_number_float acc c with
          | Raised e => Raised e
          | Returned acc' => sum_costs objs (Float acc') rest
          end
      end
  end.

Definition get_cost_of_cart (s : Session) : outcome number :=
  sum_costs (objects s) (Int 0) (cart_items (cart s)).

Definition print_descriptions : M Session unit :=
  s <- get ;;
  print (customer_name (cart s) ++ "'s Shopping Cart - " ++ current_date (cart s)) ;;
  print "Item Descriptions" ;;
  for_each (cart_items (cart s)) print_item_description.

(** ** The console

    [input] shows its prompt and reads one line from the keyboard.  What the
    user does is a list of entries, a typed line or Ctrl+C; at the end of the
    list the input is closed, and every later [input] meets the end again.
    The prompts shown are kept with the number of [print] calls made before
    each, since a prompt is followed by no newline on the screen. *)

Inductive keyboard : Type :=
| Typed (line : string)
| CtrlC.

Record Console : Type := mkConsole {
  session : Session;
  stdin : list keyboard;
  prompted : list (nat * string)
}.

(** How a call of [input] ends. *)
Inductive entered : Type :=
| Line (raw : string)
| EOFError
| KeyboardInterrupt.

Definition newline : string := String (ascii_of_nat 10) EmptyString.

(** A method of the session, run at the console. *)
Definition in_session {A} (m : M Session A) : M Console A :=
  fun c =>
    let '(o, s') := m (session c) in
    (o, mkConsole s' (stdin c) (prompted c)).

(** [print(line)] at the console. *)
Definition say (line : string) (c : Console) : Console :=
  snd (in_session (print line) c).

(** The console once [input(message)] has shown its prompt and the keyboard
    is left with [rest]. *)
Definition key_taken (rest : list keyboard) (message : string) (c : Console) : Console :=
  mkConsole (session c) rest
    (prompted c ++ [(List.length (stdout (session c)), message)])%list.

(** [input(message)] *)
Definition input (message : string) (c : Console) : entered * Console :=
  match stdin c with
  | [] => (EOFError, key_taken [] message c)
  | Typed line :: rest => (Line line, key_taken rest message c)
  | CtrlC :: rest => (KeyboardInterrupt, key_taken rest message c)
  end.

(** [name in text] for a single character. *)
Fixpoint contains (ch : ascii) (text : string) : bool :=
  match text with
  | EmptyString => false
  | String c r => Ascii.eqb c ch || contains ch r
  end.

(** [type(e).__name__] *)
Definition exn_name (e : exn) : string :=
  match e with
  | ValueError _ => "ValueError"
  | OverflowError _ => "OverflowError"
  end.

(** *** The prompt helpers, the same text in both programs

    Each helper loops until a line is accepted or the input is cancelled; a
    turn of the loop reads one entry of the keyboard, so the loop is written
    by recursion on the entries left, [keys], the three cases being the three
    ways [input] can end. *)

Section Prompts.

Context {text : Str.Methods}.

(** [int(raw)] and [float(raw)] for a string, [None] for [ValueError]. *)
Variable int_of_str : string -> option Z.
Variable float_of_str : string -> option float.

Fixpoint prompt_nonempty_string_loop (message default : string)
    (keys : list keyboard) (c : Console) : string * Console :=
  match keys with
  | Typed line :: rest =>
      let c := key_taken rest message c in
      let s := Str.strip line in
      if negb (Str.is_empty s) then (s, c)
      else prompt_nonempty_string_loop message default rest
             (say "Input cannot be empty. Please try again." c)
  | CtrlC :: rest =>
      (default, say (newline ++ "Input cancelled. Using default.")
                  (key_taken rest message c))
  | [] =>
      (default, say (newline ++ "Input cancelled. Using default.")
                  (key_taken [] message c))
  end.

Definition prompt_nonempty_string (message default : string) (c : Console)
    : string * Console :=
  prompt_nonempty_string_loop message default (stdin c) c.

Fixpoint prompt_nonnegative_int_loop (message : string) (default : Z)
    (keys : list keyboard) (c : Console) : Z * Console :=
  match keys with
  | Typed line :: rest =>
      let c := key_taken rest message c in
      let raw := Str.strip line in
      if String.eqb raw EmptyString
      then prompt_nonnegative_int_loop message default rest
             (say "Please enter a whole number." c)
      else
        match (if contains "." raw then None else int_of_str raw) with
        | None =>
            prompt_nonnegative_int_loop message default rest
              (say "Invalid input. Enter a whole number such as 0, 1, 2." c)
        | Some n =>
            if n <? 0
            then prompt_nonnegative_int_loop message default rest
                   (say "Value must be nonnegative." c)
            else (n, c)
        end
  | CtrlC :: rest =>
      (default, say (newline ++ "Input cancelled. Using default.")
                  (key_taken rest message c))
  | [] =>
      (default, say (newline ++ "Input cancelled. Using default.")
                  (key_taken [] message c))
  end.

Definition prompt_nonnegative_int (message : string) (default : Z) (c : Console)
    : Z * Console :=
  prompt_nonnegative_int_loop message default (stdin c) c.

Fixpoint prompt_nonnegative_float_loop (message : string) (default : float)
    (keys : list keyboard) (c : Console) : float * Console :=
  match keys with
  | Typed line :: rest =>
      let c := key_taken rest message c in
      let raw := Str.strip line in
      match float_of_str raw with
      | None =>
          prompt_nonnegative_float_loop message default rest
            (say "Invalid input. Enter a number such as 3 or 3.5." c)
      | Some x =>
          if PrimFloat.ltb x 0%float
          then prompt_nonnegative_float_loop message default rest
                 (say "Value must be nonnegative." c)
          else (x, c)
      end
  | CtrlC :: rest =>
      (default, say (newline ++ "Input cancelled. Using default.")
                  (key_taken rest message c))
  | [] =>
      (default, say (newline ++ "Input cancelled. Using default.")
                  (key_taken [] message c))
  end.

Definition prompt_nonnegative_float (message : string) (default : float)
    (c : Console) : float * Console :=
  prompt_nonnegative_float_loop message default (stdin c) c.

End Prompts.

(** [ShoppingCart(customer_name=.., current_date=..)]: the cart of the
    session, with no item yet. *)
Definition new_ShoppingCart (name date : string) (c : Console) : Console :=
  mkConsole (mkSession (objects (session c)) (next_ref (session c))
               (mkCart name date []) (stdout (session c)))
    (stdin c) (prompted c).

(** A turn of the menu loop went through: go on with [next], or pass the
    exception on. *)
Definition and_then (r : outcome unit * Console)
    (next : Console -> option (outcome unit * Console))
    : option (outcome unit * Console) :=
  match r with
  | (Returned _, c) => next c
  | (Raised e, c) => Some (Raised e, c)
  end.

(** ** The methods that differ between the two programs

    [ItemToPurchase.update]:
    [self] is the state.  The keyword arguments default to [None]; [price]
    and [quantity] range over ints and floats: [float(price)] converts an
    [int] and can raise on it, [isinstance(quantity, int)] tells the two
    kinds apart. *)

Module Module8.

Section Methods.

Context {text : Str.Methods}.

Definition update (name description : option string) (price quantity : option number)
    : M ItemToPurchase unit :=
  if_not_None name (fun name =>
    let name := Str.strip name in
    if Str.is_empty name
    then raise (ValueError "Item name cannot be empty.")
    else modify (set_item_name name)) ;;
  if_not_None description (fun description =>
    let description := Str.strip description in
    if Str.is_empty description
    then raise (ValueError "Item description cannot be empty.")
    else modify (set_item_description description)) ;;
  if_not_None price (fun price =>
    price <- try_except_Exception (pure_outcome (float_of_number price))
               (fun _ => raise (ValueError "Item price must be a number.")) ;;
    if PrimFloat.ltb price 0%float
    then raise (ValueError "Item price cannot be negative.")
    else modify (set_item_price price)) ;;
  if_not_None quantity (fun quantity =>
    match quantity with
    | Float _ => raise (ValueError "Item quantity must be a whole number.")
    | Int quantity =>
        if quantity <? 0
        then raise (ValueError "Item quantity cannot be negative.")
        else modify (set_item_quantity quantity)
    end).

(** [modify_item].  Each field of the patch is read before any update could
    have written it, so the patch is passed by value even when it is the
    target object itself. *)
Definition modify_item (item_to_purchase : Given) : M Session unit :=
  let name := Str.lower (Str.strip (given_name item_to_purchase)) in
  s <- get ;;
  match find_target (objects s) name (cart_items (cart s)) with
  | None => print "Item not found in cart. Nothing modified."
  | Some target =>
      try_except_ValueError
        (when (negb (String.eqb (given_description item_to_purchase) "none"))
           (on_object target
              (update None (Some (given_description item_to_purchase)) None None)) ;;
         when (negb (is_zero (given_price item_to_purchase)))
           (on_object target
              (update None None (Some (given_price item_to_purchase)) None)) ;;
         when (negb (is_zero (given_quantity item_to_purchase)))
           (quantity <- pure_outcome (int_of_number (given_quantity item_to_purchase)) ;;
            on_object target (update None None None (Some (Int quantity)))))
        (fun e => print ("Modification rejected: " ++ exn_message e))
  end.

End Methods.

Section Rendering.

(** [f"{x}"] for a float, the shortest decimal text that reads back as
    [x]; it stands in the handler of [money_str] only. *)
Variable repr_float : float -> string.

(** The [try] block of [money_str]. *)
Definition money_str_try (x : number) : outcome string :=
  match float_of_number x with
  | Raised e => Raised e
  | Returned fx =>
      if is_integer fx then
        match round_number x with
        | Raised e => Raised e
        | Returned n => format_int n
        end
      else Returned (format_2f fx)
  end.

(** [money_str]: whatever the [try] block raises, the handler renders [x]
    plainly, which for an [int] can raise in its turn. *)
Definition money_str (x : number) : outcome string :=
  match money_str_try x with
  | Returned text => Returned text
  | Raised _ =>
      match x with Int z => format_int z | Float f => Returned (repr_float f) end
  end.

(** The fields of the f-string are rendered from left to right. *)
Definition print_item_cost (self : ref) : M Session unit :=
  s <- get ;;
  let it := objects s self in
  total <- pure_outcome (total_cost it) ;;
  quantity_text <- pure_outcome (format_int (item_quantity it)) ;;
  price_text <- pure_outcome (money_str (Float (item_price it))) ;;
  total_text <- pure_outcome (money_str (Float total)) ;;
  print (item_name it ++ " " ++ quantity_text ++ " @ $"
         ++ price_text ++ " = $" ++ total_text).

Definition print_total : M Session unit :=
  s <- get ;;
  print (customer_name (cart s) ++ "'s Shopping Cart - " ++ current_date (cart s)) ;;
  let num_items := get_num_items_in_cart s in
  num_items_text <- pure_outcome (format_int num_items) ;;
  print ("Number of Items: " ++ num_items_text) ;;
  if num_items =? 0 then print "SHOPPING CART IS EMPTY"
  else
    for_each (cart_items (cart s)) print_item_cost ;;
    cost <- pure_outcome (get_cost_of_cart s) ;;
    cost_text <- pure_outcome (money_str cost) ;;
    print ("Total: $" ++ cost_text).

End Rendering.

Section Menu.

Context {text : Str.Methods}.

Variable repr_float : float -> string.
Variable int_of_str : string -> option Z.
Variable float_of_str : string -> option float.

Definition MENU_TEXT : string :=
  "MENU" ++ newline
  ++ "a - Add item to cart" ++ newline
  ++ "r - Remove item from cart" ++ newline
  ++ "c - Change item quantity" ++ newline
  ++ "i - Output items' descriptions" ++ newline
  ++ "o - Output shopping cart" ++ newline
  ++ "q - Quit" ++ newline.

(** The branches of [print_menu] other than [q], for a choice already
    trimmed and lowered. *)
Definition print_menu_branch (choice : string) (c : Console) : outcome unit * Console :=
  if String.eqb choice "a" then
    let c := say (newline ++ "ADD ITEM TO CART") c in
    let '(name, c) := prompt_nonempty_string "Enter the item name: " "none" c in
    let '(desc, c) := prompt_nonempty_string "Enter the item description: " "none" c in
    let '(price, c) :=
      prompt_nonnegative_float float_of_str "Enter the item price: " 0%float c in
    let '(qty, c) := prompt_nonnegative_int int_of_str "Enter the item quantity: " 0 c in
    in_session (item <- new_ItemToPurchase name price qty desc ;; add_item item) c
  else if String.eqb choice "r" then
    let c := say (newline ++ "REMOVE ITEM FROM CART") c in
    let '(name, c) := prompt_nonempty_string "Enter name of item to remove: " "none" c in
    in_session (remove_item name) c
  else if String.eqb choice "c" then
    let c := say (newline ++ "CHANGE ITEM QUANTITY") c in
    let '(name, c) := prompt_nonempty_string "Enter the item name: " "none" c in
    let '(qty, c) := prompt_nonnegative_int int_of_str "Enter the new quantity: " 0 c in
    in_session (stub <- new_ItemToPurchase name 0%float qty "none" ;;
                s <- get ;;
                modify_item (objects s stub)) c
  else if String.eqb choice "i" then
    in_session (print (newline ++ "OUTPUT ITEMS' DESCRIPTIONS") ;;
                print_descriptions ;;
                print EmptyString) c
  else if String.eqb choice "o" then
    in_session (print (newline ++ "OUTPUT SHOPPING CART") ;;
                print_total repr_float ;;
                print EmptyString) c
  else (Returned tt, say "Invalid choice. Please select a valid option." c).

(** [print_menu]: the loop runs for as long as [fuel] lasts; [None] is a loop
    cut short, which a [fuel] above the number of keyboard entries rules out
    (lemma [print_menu_returns]). *)
Fixpoint print_menu (fuel : nat) (c : Console) : option (outcome unit * Console) :=
  match fuel with
  | O => None
  | S fuel =>
      match input "Choose an option: " (say MENU_TEXT c) with
      | (Line raw, c) =>
          let choice := Str.lower (Str.strip raw) in
          if String.eqb choice "q" then Some (Returned tt, c)
          else and_then (print_menu_branch choice c) (print_menu fuel)
      | (_, c) => Some (Returned tt, say (newline ++ "Session ended.") c)
      end
  end.

(** [main], the menu being given the fuel that always suffices. *)
Definition main (c : Console) : option (outcome unit * Console) :=
  let c := say "Shopping Cart Program" c in
  let '(customer_name, c) := prompt_nonempty_string "Enter customer's name: " "none" c in
  let '(current_date, c) := prompt_nonempty_string "Enter today's date: " "none" c in
  let c := say ("Customer name: " ++ customer_name) c in
  let c := say ("Today's date: " ++ current_date) c in
  let c := new_ShoppingCart customer_name current_date c in
  match print_menu (S (List.length (stdin c))) c with
  | None => None
  | Some (Raised e, c) =>
      Some (Returned tt,
            say (newline ++ "An unexpected error occurred: " ++ exn_name e ++ ": "
                 ++ exn_message e) c)
  | Some r => Some r
  end.

End Menu.

End Module8.

Module Module6.

Section Methods.

Context {text : Str.Methods}.

(** [update]: the price is compared with 0 as it is given and converted
    when it is stored, outside any handler. *)
Definition update (name description : option string) (price quantity : option number)
    : M ItemToPurchase unit :=
  if_not_None name (fun name =>
    let name := Str.strip name in
    if Str.is_empty name
    then raise (ValueError "Item name cannot be empty.")
    else modify (set_item_name name)) ;;
  if_not_None description (fun description =>
    let description := Str.strip description in
    if Str.is_empty description
    then raise (ValueError "Item description cannot be empty.")
    else modify (set_item_description description)) ;;
  if_not_None price (fun price =>
    if is_negative price
    then raise (ValueError "Item price cannot be negative.")
    else (price <- pure_outcome (float_of_number price) ;;
          modify (set_item_price price))) ;;
  if_not_None quantity (fun quantity =>
    match quantity with
    | Float _ => raise (ValueError "Item quantity must be a whole number.")
    | Int quantity =>
        if quantity <? 0
        then raise (ValueError "Item quantity cannot be negative.")
        else modify (set_item_quantity quantity)
    end).

(** [modify_item].  Each field of the patch is read before any update could
    have written it, so the patch is passed by value even when it is the
    target object itself. *)
Definition modify_item (item_to_purchase : Given) : M Session unit :=
  let name := Str.lower (Str.strip (given_name item_to_purchase)) in
  s <- get ;;
  match find_target (objects s) name (cart_items (cart s)) with
  | None => print "Item not found in cart. Nothing modified."
  | Some target =>
      try_except_ValueError
        (when (negb (String.eqb (given_description item_to_purchase) "none"))
           (on_object target
              (update None (Some (given_description item_to_purchase)) None None)) ;;
         when (negb (is_zero (given_price item_to_purchase)))
           (on_object target
              (update None None (Some (given_price item_to_purchase)) None)) ;;
         when (negb (is_zero (given_quantity item_to_purchase)))
           (quantity <- pure_outcome (int_of_number (given_quantity item_to_purchase)) ;;
            on_object target (update None None None (Some (Int quantity)))))
        (fun e => print ("Modification rejected: " ++ exn_message e))
  end.

End Methods.

(** The fields of the f-string are rendered from left to right, [int(..)]
    being taken when its field is reached. *)
Definition print_item_cost (self : ref) : M Session unit :=
  s <- get ;;
  let it := objects s self in
  total <- pure_outcome (total_cost it) ;;
  quantity_text <- pure_outcome (format_int (item_quantity it)) ;;
  price_int <- pure_outcome (int_of_float (item_price it)) ;;
  price_text <- pure_outcome (format_int price_int) ;;
  total_int <- pure_outcome (int_of_float total) ;;
  total_text <- pure_outcome (format_int total_int) ;;
  print (item_name it ++ " " ++ quantity_text ++ " @ $"
         ++ price_text ++ " = $" ++ total_text).

Definition print_total : M Session unit :=
  s <- get ;;
  print (customer_name (cart s) ++ "'s Shopping Cart - " ++ current_date (cart s)) ;;
  let num_items := get_num_items_in_cart s in
  num_items_text <- pure_outcome (format_int num_items) ;;
  print ("Number of Items: " ++ num_items_text) ;;
  if num_items =? 0 then print "SHOPPING CART IS EMPTY"
  else
    for_each (cart_items (cart s)) print_item_cost ;;
    cost <- pure_outcome (get_cost_of_cart s) ;;
    cost_int <- pure_outcome (int_of_number cost) ;;
    cost_text <- pure_outcome (format_int cost_int) ;;
    print ("Total: $" ++ cost_text).

Section Menu.

Context {text : Str.Methods}.

Variable int_of_str : string -> option Z.
Variable float_of_str : string -> option float.

Definition MENU_TEXT : string :=
  "MENU" ++ newline
  ++ "a - Add item to cart" ++ newline
  ++ "r - Remove item from cart" ++ newline
  ++ "c - Change item quantity" ++ newline
  ++ "i - Output items' descriptions" ++ newline
  ++ "o - Output shopping cart" ++ newline
  ++ "q - Quit" ++ newline.

(** The branches of [print_menu] other than [q], for a choice already
    trimmed and lowered. *)
Definition print_menu_branch (choice : string) (c : Console) : outcome unit * Console :=
  if String.eqb choice "a" then
    let '(name, c) := prompt_nonempty_string "Enter the item name: " "none" c in
    let '(desc, c) := prompt_nonempty_string "Enter the item description: " "none" c in
    let '(price, c) :=
      prompt_nonnegative_float float_of_str "Enter the item price: " 0%float c in
    let '(qty, c) := prompt_nonnegative_int int_of_str "Enter the item quantity: " 0 c in
    in_session (item <- new_ItemToPurchase name price qty desc ;; add_item item) c
  else if String.eqb choice "r" then
    let '(name, c) := prompt_nonempty_string "Enter name of item to remove: " "none" c in
    in_session (remove_item name) c
  else if String.eqb choice "c" then
    let '(name, c) := prompt_nonempty_string "Enter the item name to modify: " "none" c in
    let '(qty, c) := prompt_nonnegative_int int_of_str "Enter the new quantity: " 0 c in
    in_session (stub <- new_ItemToPurchase name 0%float qty "none" ;;
                s <- get ;;
                modify_item (objects s stub)) c
  else if String.eqb choice "i" then
    in_session (print (newline ++ "OUTPUT ITEMS' DESCRIPTIONS") ;;
                print_descriptions ;;
                print EmptyString) c
  else if String.eqb choice "o" then
    in_session (print (newline ++ "OUTPUT SHOPPING CART") ;;
                print_total ;;
                print EmptyString) c
  else (Returned tt, say "Invalid choice. Please select a valid option." c).

(** [print_menu]: the loop runs for as long as [fuel] lasts; [None] is a loop
    cut short, which a [fuel] above the number of keyboard entries rules out
    (lemma [print_menu_first_program_returns]). *)
Fixpoint print_menu (fuel : nat) (c : Console) : option (outcome unit * Console) :=
  match fuel with
  | O => None
  | S fuel =>
      match input "Choose an option: " (say MENU_TEXT c) with
      | (Line raw, c) =>
          let choice := Str.lower (Str.strip raw) in
          if String.eqb choice "q" then Some (Returned tt, c)
          else and_then (print_menu_branch choice c) (print_menu fuel)
      | (_, c) => Some (Returned tt, say (newline ++ "Session ended.") c)
      end
  end.

(** [main], the menu being given the fuel that always suffices. *)
Definition main (c : Console) : option (outcome unit * Console) :=
  let c := say "Shopping Cart Program" c in
  let '(customer_name, c) := prompt_nonempty_string "Enter customer's name: " "none" c in
  let '(current_date, c) := prompt_nonempty_string "Enter today's date: " "none" c in
  let c := new_ShoppingCart customer_name current_date c in
  print_menu (S (List.length (stdin c))) c.

End Menu.

End Module6.

(** ** Vocabulary of the specification *)

Section Vocabulary.

Context {text : Str.Methods}.

(** A supplied text is valid when something is left after trimming. *)
Definition text_ok (v : option string) : bool :=
  match v with
  | None => true
  | Some t => negb (Str.is_empty (Str.strip t))
  end.

(** A supplied price is valid when [float] converts it and the float is not
    below zero. *)
Definition price_ok (v : option number) : bool :=
  match v with
  | None => true
  | Some x =>
      match float_of_number x with
      | Returned f => negb (PrimFloat.ltb f 0%float)
      | Raised _ => false
      end
  end.

(** [float] converts the price: always for a float, and for an [int] that is
    not beyond the floats. *)
Definition converts (v : option number) : bool :=
  match v with
  | None => true
  | Some x => match float_of_number x with Returned _ => true | Raised _ => false end
  end.

(** What each program raises for an invalid price [x]. *)
Definition price_error8 (x : number) : exn :=
  match float_of_number x with
  | Raised _ => ValueError "Item price must be a number."
  | Returned _ => ValueError "Item price cannot be negative."
  end.

Definition price_error6 (x : number) : exn :=
  if is_negative x then ValueError "Item price cannot be negative."
  else OverflowError "int too large to convert to float".

(** A supplied quantity is invalid when it is not an [int] or is negative. *)
Definition quantity_ok (v : option number) : bool :=
  match v with
  | None => true
  | Some (Int q) => negb (q <? 0)
  | Some (Float _) => false
  end.

(** The assignment each supplied field amounts to. *)
Definition with_name (v : option string) (it : ItemToPurchase) : ItemToPurchase :=
  match v with None => it | Some t => set_item_name (Str.strip t) it end.
Definition with_description (v : option string) (it : ItemToPurchase) : ItemToPurchase :=
  match v with None => it | Some t => set_item_description (Str.strip t) it end.
Definition with_price (v : option number) (it : ItemToPurchase) : ItemToPurchase :=
  match v with
  | None => it
  | Some x =>
      match float_of_number x with
      | Returned f => set_item_price f it
      | Raised _ => it
      end
  end.
Definition with_quantity (v : option number) (it : ItemToPurchase) : ItemToPurchase :=
  match v with Some (Int q) => set_item_quantity q it | _ => it end.

(** The last step of [update], the same in both programs. *)
Definition update_quantity (v : option number) (it : ItemToPurchase)
    : outcome unit * ItemToPurchase :=
  match v with
  | Some (Float _) => (Raised (ValueError "Item quantity must be a whole number."), it)
  | Some (Int q) =>
      if q <? 0 then (Raised (ValueError "Item quantity cannot be negative."), it)
      else (Returned tt, set_item_quantity q it)
  | None => (Returned tt, it)
  end.

(** What is left of the item when a supplied field is invalid. *)
Definition left_by (name description : option string) (price : option number)
    (it : ItemToPurchase) : ItemToPurchase :=
  if negb (text_ok name) then it
  else if negb (text_ok description) then with_name name it
  else if negb (price_ok price)
  then with_description description (with_name name it)
  else with_price price (with_description description (with_name name it)).

(** [update] in closed form: the checks run in the order name, description,
    price, quantity, and each valid field is assigned before the next check;
    [price_error] is what the program raises for an invalid price. *)
Definition update_run (price_error : number -> exn) (name description : option string)
    (price quantity : option number) (it : ItemToPurchase)
    : outcome unit * ItemToPurchase :=
  if negb (text_ok name)
  then (Raised (ValueError "Item name cannot be empty."), it)
  else if negb (text_ok description)
  then (Raised (ValueError "Item description cannot be empty."), with_name name it)
  else
    let it2 := with_description description (with_name name it) in
    match price with
    | Some x =>
        if price_ok price then update_quantity quantity (with_price price it2)
        else (Raised (price_error x), it2)
    | None => update_quantity quantity it2
    end.

(** The fields of a patch that [modify_item] passes on, the others being the
    sentinels. *)
Definition patch_description (patch : Given) : option string :=
  if String.eqb (given_description patch) "none" then None
  else Some (given_description patch).
Definition patch_price (patch : Given) : option number :=
  if is_zero (given_price patch) then None
  else Some (given_price patch).
Definition patch_quantity (patch : Given) : option number :=
  if is_zero (given_quantity patch) then None
  else Some (given_quantity patch).

(** [int(quantity)], which [modify_item] takes of a quantity it passes on. *)
Definition as_int (v : option number) : outcome (option number) :=
  match v with
  | None => Returned None
  | Some x =>
      match int_of_number x with
      | Returned n => Returned (Some (Int n))
      | Raised e => Raised e
      end
  end.

(** What [modify_item] does to its target, in closed form: one [update] with
    the fields the patch passes on when [int] converts the quantity; when it
    does not, the [update] of the description and the price, then the
    exception of [int]. *)
Definition patch_run (price_error : number -> exn) (patch : Given) (it : ItemToPurchase)
    : outcome unit * ItemToPurchase :=
  match as_int (patch_quantity patch) with
  | Returned quantity =>
      update_run price_error None (patch_description patch) (patch_price patch)
        quantity it
  | Raised e =>
      match update_run price_error None (patch_description patch) (patch_price patch)
              None it with
      | (Returned _, it') => (Raised e, it')
      | r => r
      end
  end.

(** The stored name of [r] equals [name] when case is ignored. *)
Definition name_is (objs : ref -> ItemToPurchase) (name : string) (r : ref) : bool :=
  Str.ci_equal (item_name (objs r)) name.

(** The invariant of the data model, on one item and on the whole cart. *)
Definition item_in_range (it : ItemToPurchase) : bool :=
  PrimFloat.leb 0%float (item_price it) && (0 <=? item_quantity it).

Definition cart_in_range (s : Session) : bool :=
  forallb (fun r => item_in_range (objects s r)) (cart_items (cart s)).

(** What the code does keep: no price below zero, no quantity below zero. *)
Definition item_not_negative (it : ItemToPurchase) : bool :=
  negb (PrimFloat.ltb (item_price it) 0%float) && (0 <=? item_quantity it).

Definition cart_not_negative (s : Session) : bool :=
  forallb (fun r => item_not_negative (objects s r)) (cart_items (cart s)).

(** The sum of the quantities, each one clamped below at zero. *)
Fixpoint sum_clamped_quantities (objs : ref -> ItemToPurchase) (items : list ref) : Z :=
  match items with
  | [] => 0
  | r :: rest => Z.max 0 (item_quantity (objs r)) + sum_clamped_quantities objs rest
  end.

(** [print] as a function on sessions. *)
Definition printed (lines : list string) (s : Session) : Session :=
  mkSession (objects s) (next_ref s) (cart s) (stdout s ++ lines)%list.

(** What [modify_item] makes of the outcome on its target: a [ValueError] is
    reported, any other exception is raised on. *)
Definition reported (o : outcome unit) (s1 : Session) : outcome unit * Session :=
  match o with
  | Returned _ => (Returned tt, s1)
  | Raised (ValueError msg) => (Returned tt, printed ["Modification rejected: " ++ msg] s1)
  | Raised e => (Raised e, s1)
  end.

(** [s1] is [s] except that the object behind [target] is now [it']. *)
Definition same_but (target : ref) (it' : ItemToPurchase) (s s1 : Session) : Prop :=
  next_ref s1 = next_ref s /\ cart s1 = cart s /\ stdout s1 = stdout s
  /\ objects s1 target = it'
  /\ forall r, r <> target -> objects s1 r = objects s r.

(** The [try] block of [modify_item] as a method of the target: the calls
    of [update] that the patch asks for, one after the other. *)
Definition try_block
    (update : option string -> option string -> option number -> option number
              -> M ItemToPurchase unit)
    (patch : Given) : M ItemToPurchase unit :=
  when (negb (String.eqb (given_description patch) "none"))
    (update None (Some (given_description patch)) None None) ;;
  when (negb (is_zero (given_price patch)))
    (update None None (Some (given_price patch)) None) ;;
  when (negb (is_zero (given_quantity patch)))
    (quantity <- pure_outcome (int_of_number (given_quantity patch)) ;;
     update None None None (Some (Int quantity))).

(** The method [m] of the cart does to the session what the method [mi] does
    to the object behind [target], and nothing else. *)
Definition runs_on {A} (target : ref) (m : M Session A) (mi : M ItemToPurchase A)
    : Prop :=
  forall s, exists s1,
    same_but target (snd (mi (objects s target))) s s1
    /\ m s = (fst (mi (objects s target)), s1).

(** The key [modify_item] searches with. *)
Definition patch_key (patch : Given) : string :=
  Str.lower (Str.strip (given_name patch)).

(** [target] is the first entry of [items] whose stored name is [name] when
    case is ignored. *)
Definition first_match (objs : ref -> ItemToPurchase) (name : string)
    (items : list ref) (target : ref) : Prop :=
  exists before after,
    items = (before ++ target :: after)%list
    /\ name_is objs name target = true
    /\ Forall (fun r => name_is objs name r = false) before.

(** No entry of [items] has the stored name [name] when case is ignored. *)
Definition no_match (objs : ref -> ItemToPurchase) (name : string)
    (items : list ref) : Prop :=
  Forall (fun r => name_is objs name r = false) items.

(** *** The console and what the menu keeps *)

(** The items, the references handed out and the cart are those of [s]; the
    output may have grown. *)
Definition same_cart (s s' : Session) : Prop :=
  objects s' = objects s /\ next_ref s' = next_ref s /\ cart s' = cart s.

(** Every entry of the cart is a reference that was handed out. *)
Definition refs_allocated (s : Session) : Prop :=
  Forall (fun r => (r < next_ref s)%nat) (cart_items (cart s)).

(** A text that is not empty and has no whitespace around it. *)
Definition text_kept (t : string) : bool :=
  negb (Str.is_empty t) && String.eqb (Str.strip t) t.

(** An item as the menu enters it: texts kept, nothing below zero. *)
Definition item_entered (it : ItemToPurchase) : bool :=
  item_not_negative it && text_kept (item_name it) && text_kept (item_description it).

Definition cart_entered (s : Session) : bool :=
  forallb (fun r => item_entered (objects s r)) (cart_items (cart s)).

Definition console_ok (c : Console) : Prop :=
  refs_allocated (session c) /\ cart_entered (session c) = true.

(** A line that is blank once trimmed. *)
Definition blank (line : string) : bool := Str.is_empty (Str.strip line).

(** What each prompt helper makes of one typed line: the value it returns,
    or [None] when the line is turned down and the prompt shown again. *)
Definition accepted_text (line : string) : option string :=
  if blank line then None else Some (Str.strip line).

Definition accepted_int (int_of_str : string -> option Z) (line : string) : option Z :=
  let raw := Str.strip line in
  if String.eqb raw EmptyString then None
  else if contains "." raw then None
  else match int_of_str raw with
       | Some n => if n <? 0 then None else Some n
       | None => None
       end.

Definition accepted_float (float_of_str : string -> option float) (line : string)
    : option float :=
  match float_of_str (Str.strip line) with
  | Some x => if PrimFloat.ltb x 0 then None else Some x
  | None => None
  end.

(** What is left of the keyboard starts with Ctrl+C or is at its end. *)
Definition cancelled (tail : list keyboard) : Prop :=
  match tail with Typed _ :: _ => False | _ => True end.

Definition cancel_line : string := newline ++ "Input cancelled. Using default.".

(** The lines a prompt helper prints when it turns a line down. *)
Definition int_complaints : list string :=
  ["Please enter a whole number.";
   "Invalid input. Enter a whole number such as 0, 1, 2.";
   "Value must be nonnegative."].

Definition float_complaints : list string :=
  ["Invalid input. Enter a number such as 3 or 3.5."; "Value must be nonnegative."].

(** The console [c1] is [c] after [n] lines were turned down with [lines]:
    as many prompts shown, nothing else touched in the session. *)
Definition turned_down (n : nat) (lines : list string) (c c1 : Console) : Prop :=
  session c1 = printed lines (session c)
  /\ List.length lines = n
  /\ List.length (prompted c1) = (List.length (prompted c) + n)%nat.

End Vocabulary.

(** A method that does nothing to the session but print. *)
Definition only_prints {A} (m : M Session A) : Prop :=
  forall s, exists lines, snd (m s) = printed lines s.

(** The exception of [float * int] and [int + float] at an [int] beyond the
    floats. *)
Definition too_large : exn := OverflowError "int too large to convert to float".

(** The exception of rendering an [int] of more than 4300 digits. *)
Definition too_many_digits : exn :=
  ValueError ("Exceeds the limit (4300 digits) for integer string conversion; "
              ++ "use sys.set_int_max_str_digits() to increase the limit").

(** The exception of [int(x)] for an infinite [x]. *)
Definition infinite_int : exn :=
  OverflowError "cannot convert float infinity to integer".

(** An [int] that is rendered: it has at most 4300 digits. *)
Definition renders (z : Z) : bool := Z.abs z <? int_str_limit.

(** A method that raises nothing but one of [errors]. *)
Definition raises_among {A} (errors : list exn) (m : M Session A) : Prop :=
  forall s e, fst (m s) = Raised e -> In e errors.

(** The line [print_item_description] prints. *)
Definition description_line (it : ItemToPurchase) : string :=
  item_name it ++ ": " ++ item_description it.

(** *** Floats *)

(** [x] is neither an infinity nor a NaN. *)
Definition is_finite (x : float) : bool :=
  match Prim2SF x with
  | S754_zero _ | S754_finite _ _ _ => true
  | _ => false
  end.

(** [x] is not a NaN and carries the sign [s]. *)
Definition sf_signed (s : bool) (x : spec_float) : Prop :=
  match x with
  | S754_zero s' | S754_infinity s' | S754_finite s' _ _ => s' = s
  | S754_nan => False
  end.

(** Zero, a positive finite float or +infinity: what [0 <= x] holds of. *)
Definition sf_not_below_zero (x : spec_float) : Prop :=
  match x with
  | S754_zero _ | S754_finite false _ _ | S754_infinity false => True
  | _ => False
  end.

(** A valid finite float or an infinity, of the sign [s]. *)
Definition finite_or_infinity (s : bool) (x : spec_float) : Prop :=
  match x with
  | S754_finite s' m e => s' = s /\ valid_binary (S754_finite s' m e) = true
  | S754_infinity s' => s' = s
  | _ => False
  end.

(** *** The shape of a rendered amount *)

Definition is_digit (c : ascii) : bool :=
  let n := nat_of_ascii c in ((48 <=? n) && (n <=? 57))%nat.

Fixpoint all_digits (t : string) : bool :=
  match t with
  | EmptyString => true
  | String c r => is_digit c && all_digits r
  end.

(** One digit or more, and nothing else. *)
Definition digits (t : string) : bool :=
  match t with
  | EmptyString => false
  | String c r => is_digit c && all_digits r
  end.

(** The text after a leading minus sign, if there is one. *)
Definition unsigned_part (t : string) : string :=
  match t with
  | String "-" r => r
  | _ => t
  end.

(** A bare integer: digits, after an optional minus sign. *)
Definition bare_integer (t : string) : bool := digits (unsigned_part t).

Fixpoint skip_digits (t : string) : string :=
  match t with
  | EmptyString => EmptyString
  | String c r => if is_digit c then skip_digits r else t
  end.

(** Exactly two decimal places: digits, a point and two digits, after an
    optional minus sign. *)
Definition two_decimals (t : string) : bool :=
  let u := unsigned_part t in
  match u with
  | EmptyString => false
  | String c _ =>
      is_digit c &&
      match skip_digits u with
      | String "." (String a (String b EmptyString)) => is_digit a && is_digit b
      | _ => false
      end
  end.

(** Two digits and nothing else. *)
Definition two_digit_text (t : string) : bool :=
  match t with
  | String a (String b EmptyString) => is_digit a && is_digit b
  | _ => false
  end.

(** What [money_str] makes of a float: the rounded [int] of a whole number,
    two decimals otherwise. *)
Definition amount_text (x : float) : string :=
  if is_integer x
  then match round x with Returned n => Str.of_int n | Raised _ => EmptyString end
  else format_2f x.

(** The item-cost line of the final program for an item and its total. *)
Definition cost_line (it : ItemToPurchase) (total : float) : string :=
  item_name it ++ " " ++ Str.of_int (item_quantity it) ++ " @ $"
  ++ amount_text (item_price it) ++ " = $" ++ amount_text total.

(** The item-cost line of the first program, from the truncated amounts. *)
Definition cost_line_truncated (it : ItemToPurchase) (price total : Z) : string :=
  item_name it ++ " " ++ Str.of_int (item_quantity it) ++ " @ $"
  ++ Str.of_int price ++ " = $" ++ Str.of_int total.

(** *** Sample sessions *)

(** A cart of a pencil and a pen. *)
Definition pencil_and_pen : Session :=
  mkSession
    (fun r => match r with
              | 0%nat => mkItem "Pencil" 1%float 12 "wooden"
              | 1%nat => mkItem "Pen" 2.5%float 4 "blue"
              | _ => default_item
              end)
    2%nat (mkCart "Ann" "February 1, 2020" [0%nat; 1%nat]) [].

(** A cart whose only item has a name that starts with a space. *)
Definition spaced_name : Session :=
  mkSession (fun _ => mkItem " a" 1%float 2 "spaced") 1%nat
    (mkCart "Ann" "February 1, 2020" [0%nat]) [].

(** A cart with one item of quantity 5 and another of quantity 3. *)
Definition five_and_three : Session :=
  mkSession
    (fun r => match r with
              | 0%nat => mkItem "Pencil" 1%float 5 "wooden"
              | _ => mkItem "Pen" 2.5%float 3 "blue"
              end)
    2%nat (mkCart "Ann" "February 1, 2020" [0%nat; 1%nat]) [].

(** A cart that holds items, none with a positive quantity. *)
Definition nothing_to_buy : Session :=
  mkSession
    (fun r => match r with
              | 0%nat => mkItem "Pencil" 1%float 0 "wooden"
              | _ => mkItem "Pen" 2.5%float (-3) "blue"
              end)
    2%nat (mkCart "Ann" "February 1, 2020" [0%nat; 1%nat]) [].

(** A cart with one pack of gum at 2.55, the float nearest to it. *)
Definition gum : Session :=
  mkSession (fun _ => mkItem "Gum" 0x1.4666666666666p+1%float 1 "mint") 1%nat
    (mkCart "Ann" "February 1, 2020" [0%nat]) [].

(** A cart whose only item has a NaN price. *)
Definition nan_priced : Session :=
  mkSession (fun _ => mkItem "Gold" nan 1 "bar") 1%nat
    (mkCart "Ann" "February 1, 2020" [0%nat]) [].

(** Parsers of plain decimal numerals, for the sample runs. *)
Definition plain_int_of_str (t : string) : option Z :=
  option_map Z.of_int (NilZero.int_of_string t).

Definition plain_float_of_str (t : string) : option float :=
  match plain_int_of_str t with
  | Some z => match float_of_int z with Returned f => Some f | Raised _ => None end
  | None => None
  end.

(** The console of a program that starts, with [keys] to be typed. *)
Definition fresh_console (keys : list keyboard) : Console :=
  mkConsole (mkSession (fun _ => default_item) 0%nat
               (mkCart "none" "January 1, 2020" []) [])
    keys [].

(** The answers that add two bottles of ink, and a [q]. *)
Definition ink_keys : list keyboard :=
  [Typed "Ink"; Typed "black"; Typed "3"; Typed "2"; Typed "q"].

(** ** The string methods on ASCII text

    [ascii_strip] leaves nothing to strip, so the methods written out for
    ASCII text are an instance of the class; the samples run on it. *)

Lemma lstrip_head s :
  match Str.ascii_lstrip s with
  | EmptyString => True
  | String c _ => Str.is_space c = false
  end.
Proof.
  induction s as [|c s IH]; cbn [Str.ascii_lstrip]; [exact I|].
  destruct (Str.is_space c) eqn:E; [exact IH | exact E].
Qed.

Lemma lstrip_fixed c s :
  Str.is_space c = false -> Str.ascii_lstrip (String c s) = String c s.
Proof. intros H. cbn [Str.ascii_lstrip]. now rewrite H. Qed.

Lemma rstrip_head c s :
  Str.is_space c = false -> exists r, Str.ascii_rstrip (String c s) = String c r.
Proof.
  intros H. cbn [Str.ascii_rstrip]. destruct (Str.ascii_rstrip s); [rewrite H|]; eauto.
Qed.

Lemma rstrip_idempotent s : Str.ascii_rstrip (Str.ascii_rstrip s) = Str.ascii_rstrip s.
Proof.
  induction s as [|c s IH]; [reflexivity|].
  cbn [Str.ascii_rstrip]. destruct (Str.ascii_rstrip s) as [|c' r] eqn:E.
  - destruct (Str.is_space c) eqn:Ec; [reflexivity|]. cbn [Str.ascii_rstrip]. now rewrite Ec.
  - cbn [Str.ascii_rstrip]. cbn [Str.ascii_rstrip] in IH. now rewrite IH.
Qed.

Lemma strip_idempotent s : Str.ascii_strip (Str.ascii_strip s) = Str.ascii_strip s.
Proof.
  unfold Str.ascii_strip. pose proof (lstrip_head s) as H.
  destruct (Str.ascii_lstrip s) as [|c r] eqn:E; [reflexivity|].
  destruct (rstrip_head c r H) as [r' Hr]. rewrite Hr.
  rewrite (lstrip_fixed c r' H), <- Hr. apply rstrip_idempotent.
Qed.

#[global] Instance ascii_text : Str.Methods := {|
  Str.strip := Str.ascii_strip;
  Str.lower := Str.ascii_lower;
  Str.strip_strip := strip_idempotent;
  Str.strip_ascii := fun s _ => eq_refl;
  Str.lower_ascii := fun s _ => eq_refl
|}.

(** ** Floats: rounding keeps the sign, and an [int] converts to a float of
    its sign *)

Lemma iter_pos_inv {A} (P : A -> Prop) (f : A -> A) :
  (forall x, P x -> P (f x)) -> forall n x, P x -> P (iter_pos f n x).
Proof.
  intros Hf. induction n as [n IH|n IH|]; intros x Hx; cbn; auto.
Qed.

Lemma shr_1_nonneg mrs : 0 <= shr_m mrs -> 0 <= shr_m (shr_1 mrs).
Proof.
  destruct mrs as [m r s]. cbn. destruct m as [|[p|p|]|[p|p|]]; cbn; lia.
Qed.

Lemma shr_nonneg mrs e n : 0 <= shr_m mrs -> 0 <= shr_m (fst (shr mrs e n)).
Proof.
  intros H. destruct n; cbn; auto.
  apply (iter_pos_inv (fun x => 0 <= shr_m x)); auto using shr_1_nonneg.
Qed.

Lemma shr_record_of_loc_m m l : shr_m (shr_record_of_loc m l) = m.
Proof. destruct l as [|[]]; reflexivity. Qed.

Lemma shr_fexp_nonneg m e l : 0 <= m -> 0 <= shr_m (fst (shr_fexp prec emax m e l)).
Proof.
  intros H. unfold shr_fexp. apply shr_nonneg. now rewrite shr_record_of_loc_m.
Qed.

Lemma round_nearest_even_nonneg m l : 0 <= m -> 0 <= round_nearest_even m l.
Proof.
  intros H. destruct l as [|[]]; cbn; try lia. destruct (Z.even m); lia.
Qed.

(** Rounding keeps the sign and yields no NaN. *)
Lemma binary_round_aux_signed s m e l :
  0 <= m -> sf_signed s (binary_round_aux prec emax s m e l).
Proof.
  intros H. unfold binary_round_aux.
  pose proof (shr_fexp_nonneg m e l H) as H1.
  destruct (shr_fexp prec emax m e l) as [mrs' e']. cbn [fst] in H1.
  pose proof (shr_fexp_nonneg _ e' loc_Exact
                (round_nearest_even_nonneg _ (loc_of_shr_record mrs') H1)) as H2.
  destruct (shr_fexp prec emax _ e' loc_Exact) as [mrs'' e'']. cbn [fst] in H2.
  destruct (shr_m mrs'') as [|p|p] eqn:E; cbn; try lia; auto.
  destruct (e'' <=? 971); cbn; auto.
Qed.

Lemma binary_round_signed s m e : sf_signed s (binary_round prec emax s m e).
Proof.
  unfold binary_round. destruct (shl_align m e _) as [mz ez].
  apply binary_round_aux_signed. lia.
Qed.

Lemma binary_normalize_signed z e :
  0 <= z -> sf_signed false (binary_normalize prec emax z e false).
Proof.
  intros H. destruct z as [|p|p]; cbn; auto; try lia. apply binary_round_signed.
Qed.

Lemma SFldexp_signed s x e : sf_signed s x -> sf_signed s (SFldexp prec emax x e).
Proof.
  destruct x; cbn; auto. intros ->. apply binary_round_signed.
Qed.

Lemma Prim2SF_SF2Prim_signed x :
  sf_signed false x -> sf_signed false (Prim2SF (SF2Prim x)).
Proof.
  destruct x as [s|s| |s m e]; cbn [sf_signed]; try intros ->; try easy.
  cbn [SF2Prim]. rewrite Z_ldexp_spec. apply SFldexp_signed.
  rewrite of_uint63_spec. apply binary_normalize_signed.
  apply Uint63.to_Z_bounded.
Qed.

Lemma Prim2SF_zero : Prim2SF 0%float = S754_zero false.
Proof. reflexivity. Qed.

Lemma float_of_int_zero : float_of_int 0 = Returned 0%float.
Proof. reflexivity. Qed.

(** A converted non-negative [int] is [+0.0] or a positive finite float. *)
Lemma float_of_int_class z fq :
  0 <= z -> float_of_int z = Returned fq ->
  match Prim2SF fq with
  | S754_zero false | S754_finite false _ _ => True
  | _ => False
  end.
Proof.
  intros Hz. unfold float_of_int.
  pose proof (Prim2SF_SF2Prim_signed _ (binary_normalize_signed z 0 Hz)) as Hs.
  destruct (Prim2SF (SF2Prim (binary_normalize prec emax z 0 false))) as [s|s| |s m e] eqn:E;
    cbn [sf_signed] in Hs; try discriminate; try contradiction;
    intros [= <-]; rewrite E; now subst s.
Qed.

Lemma leb_zero_class p :
  PrimFloat.leb 0 p = true ->
  match Prim2SF p with
  | S754_zero _ | S754_finite false _ _ | S754_infinity false => True
  | _ => False
  end.
Proof.
  rewrite leb_spec, Prim2SF_zero.
  destruct (Prim2SF p) as [s|[]| |[] m e]; cbn; auto; discriminate.
Qed.

Lemma ltb_zero_not_leb p : PrimFloat.ltb p 0 = true -> PrimFloat.leb 0 p = false.
Proof.
  rewrite leb_spec, ltb_spec, Prim2SF_zero.
  destruct (Prim2SF p) as [s|[]| |[] m e]; cbn; auto; discriminate.
Qed.

Lemma Prim2SF_not_infinity p :
  PrimFloat.eqb p infinity = false -> Prim2SF p <> S754_infinity false.
Proof.
  rewrite FloatAxioms.eqb_spec. intros Hp E. rewrite E in Hp. discriminate Hp.
Qed.

Lemma clamp_max q : (if 0 <=? q then q else 0) = Z.max 0 q.
Proof. destruct (Z.leb_spec 0 q); lia. Qed.

(** *** The digits of a mantissa *)
Lemma digits2_pos_bounds p :
  2 ^ (Z.pos (digits2_pos p) - 1) <= Z.pos p < 2 ^ Z.pos (digits2_pos p).
Proof.
  induction p as [p IH|p IH|]; cbn [digits2_pos].
  - rewrite Pos2Z.inj_succ. replace (Z.succ (Z.pos (digits2_pos p)) - 1) with (Z.succ (Z.pos (digits2_pos p) - 1)) by lia.
    rewrite !Z.pow_succ_r by lia. lia.
  - rewrite Pos2Z.inj_succ. replace (Z.succ (Z.pos (digits2_pos p)) - 1) with (Z.succ (Z.pos (digits2_pos p) - 1)) by lia.
    rewrite !Z.pow_succ_r by lia. lia.
  - cbn. lia.
Qed.

Lemma Zdigits2_bounds m :
  0 < m -> 2 ^ (Zdigits2 m - 1) <= m < 2 ^ Zdigits2 m.
Proof. destruct m as [|p|p]; try lia. intros _. apply digits2_pos_bounds. Qed.

Lemma Zdigits2_pos m : 0 < m -> 0 < Zdigits2 m.
Proof. destruct m; cbn; lia. Qed.

Lemma Zdigits2_unique m k :
  0 < m -> 2 ^ (k - 1) <= m < 2 ^ k -> Zdigits2 m = k.
Proof.
  intros Hm [Hlo Hhi]. pose proof (Zdigits2_bounds m Hm) as [Dlo Dhi].
  pose proof (Zdigits2_pos m Hm) as Dpos.
  assert (0 < k).
  { destruct (Z.ltb_spec 0 k) as [|Hk]; [assumption|].
    destruct (Z.eq_dec k 0) as [->|Hne]; [cbn in Hhi; lia|].
    rewrite Z.pow_neg_r in Hhi by lia. lia. }
  destruct (Z.lt_total (Zdigits2 m) k) as [Hlt | [Heq | Hgt]]; [|exact Heq|].
  - assert (2 ^ Zdigits2 m <= 2 ^ (k - 1)) by (apply Z.pow_le_mono_r; lia). lia.
  - assert (2 ^ k <= 2 ^ (Zdigits2 m - 1)) by (apply Z.pow_le_mono_r; lia). lia.
Qed.

Lemma Zdigits2_mono a b : 0 < a -> a <= b -> Zdigits2 a <= Zdigits2 b.
Proof.
  intros Ha Hab. pose proof (Zdigits2_bounds a Ha) as [Alo _].
  pose proof (Zdigits2_bounds b ltac:(lia)) as [_ Bhi].
  destruct (Z.leb_spec (Zdigits2 a) (Zdigits2 b)); [assumption|].
  assert (2 ^ Zdigits2 b <= 2 ^ (Zdigits2 a - 1)) by (apply Z.pow_le_mono_r; lia). lia.
Qed.

(** *** Shifting a mantissa right *)
Lemma shr_1_m mrs : 0 <= shr_m mrs -> shr_m (shr_1 mrs) = shr_m mrs / 2.
Proof.
  destruct mrs as [m r s]. cbn [shr_m shr_1]. intros Hm.
  destruct m as [|[p|p|]|p]; try lia; cbn [shr_m].
  - reflexivity.
  - rewrite Pos2Z.inj_xI. apply Z.div_unique with 1; lia.
  - rewrite Pos2Z.inj_xO. apply Z.div_unique with 0; lia.
  - reflexivity.
Qed.

Lemma iter_shr_1_m n :
  forall mrs, 0 <= shr_m mrs ->
  shr_m (iter_pos shr_1 n mrs) = shr_m mrs / 2 ^ Z.pos n.
Proof.
  induction n as [n IH|n IH|]; intros mrs H; cbn [iter_pos].
  - assert (H1 : 0 <= shr_m (shr_1 mrs)) by (rewrite shr_1_m by lia; apply Z.div_pos; lia).
    assert (H2 : 0 <= shr_m (iter_pos shr_1 n (shr_1 mrs)))
      by (rewrite IH by lia; apply Z.div_pos; [lia | apply Z.pow_pos_nonneg; lia]).
    rewrite IH, IH, shr_1_m by lia.
    rewrite !Z.div_div by (try apply Z.pow_pos_nonneg; lia).
    f_equal. rewrite Pos2Z.inj_xI. rewrite <- Z.pow_add_r, <- Z.pow_succ_r by lia. f_equal. lia.
  - assert (H2 : 0 <= shr_m (iter_pos shr_1 n mrs))
      by (rewrite IH by lia; apply Z.div_pos; [lia | apply Z.pow_pos_nonneg; lia]).
    rewrite IH, IH by lia.
    rewrite !Z.div_div by (try apply Z.pow_pos_nonneg; lia).
    f_equal. rewrite Pos2Z.inj_xO. rewrite <- Z.pow_add_r by lia. f_equal. lia.
  - rewrite shr_1_m by lia. reflexivity.
Qed.

Lemma fexp_mono a b : a <= b -> fexp prec emax a <= fexp prec emax b.
Proof. unfold fexp. lia. Qed.

(** One alignment step: from a positive mantissa whose exponent is not above
    its canonical one, and not so low that the mantissa is shifted out. *)
Lemma shr_fexp_canonical m e l :
  0 < m -> e <= fexp prec emax (Zdigits2 m + e) -> SpecFloat.emin prec emax < Zdigits2 m + e ->
  let r := shr_fexp prec emax m e l in
  0 < shr_m (fst r)
  /\ fexp prec emax (Zdigits2 (shr_m (fst r)) + snd r) = snd r
  /\ SpecFloat.emin prec emax < Zdigits2 (shr_m (fst r)) + snd r.
Proof.
  intros Hm He Hlow. cbn zeta. unfold shr_fexp, shr.
  pose proof (Zdigits2_bounds m Hm) as [Dlo Dhi].
  pose proof (Zdigits2_pos m Hm) as Dpos.
  set (d := Zdigits2 m) in *.
  destruct (fexp prec emax (d + e) - e) as [|n|n] eqn:En; cbn [fst snd].
  - rewrite shr_record_of_loc_m. fold d. split; [lia|]. split; lia.
  - rewrite iter_shr_1_m by (rewrite shr_record_of_loc_m; lia).
    rewrite shr_record_of_loc_m.
    assert (Hn : Z.pos n < d).
    { unfold fexp, SpecFloat.emin in *. change prec with 53 in *. change emax with 1024 in *. lia. }
    assert (Hq : 2 ^ (d - Z.pos n - 1) <= m / 2 ^ Z.pos n < 2 ^ (d - Z.pos n)).
    { split.
      - apply Z.div_le_lower_bound; [apply Z.pow_pos_nonneg; lia|].
        rewrite <- Z.pow_add_r by lia. replace (Z.pos n + (d - Z.pos n - 1)) with (d - 1) by lia.
        exact Dlo.
      - apply Z.div_lt_upper_bound; [apply Z.pow_pos_nonneg; lia|].
        rewrite <- Z.pow_add_r by lia. replace (Z.pos n + (d - Z.pos n)) with d by lia.
        exact Dhi. }
    assert (Hpos : 0 < m / 2 ^ Z.pos n).
    { assert (0 < 2 ^ (d - Z.pos n - 1)) by (apply Z.pow_pos_nonneg; lia). lia. }
    rewrite (Zdigits2_unique _ (d - Z.pos n) Hpos Hq).
    replace (d - Z.pos n + (e + Z.pos n)) with (d + e) by lia.
    split; [exact Hpos|]. split; lia.
  - lia.
Qed.

Lemma round_nearest_even_ge m l : m <= round_nearest_even m l.
Proof. destruct l as [|[]]; cbn; try lia. destruct (Z.even m); lia. Qed.

(** Rounding a positive mantissa from a canonical-or-lower exponent gives a
    valid finite float or an infinity, of the sign asked for. *)
Lemma binary_round_aux_finite s m e l :
  0 < m -> e <= fexp prec emax (Zdigits2 m + e) -> SpecFloat.emin prec emax < Zdigits2 m + e ->
  finite_or_infinity s (binary_round_aux prec emax s m e l).
Proof.
  intros Hm He Hlow. unfold binary_round_aux.
  destruct (shr_fexp_canonical m e l Hm He Hlow) as (H1 & H2 & H3).
  destruct (shr_fexp prec emax m e l) as [mrs' e']. cbn [fst snd] in *.
  set (r := round_nearest_even (shr_m mrs') (loc_of_shr_record mrs')).
  assert (Hr : shr_m mrs' <= r) by apply round_nearest_even_ge.
  assert (Hd : Zdigits2 (shr_m mrs') <= Zdigits2 r) by (apply Zdigits2_mono; lia).
  destruct (shr_fexp_canonical r e' loc_Exact) as (K1 & K2 & K3); [lia| | lia |].
  { rewrite <- H2 at 1. apply fexp_mono. lia. }
  destruct (shr_fexp prec emax r e' loc_Exact) as [mrs'' e'']. cbn [fst snd] in *.
  destruct (shr_m mrs'') as [|p|p]; try lia.
  destruct (e'' <=? emax - prec) eqn:E; cbn [finite_or_infinity]; [|reflexivity].
  split; [reflexivity|]. cbn [valid_binary]. unfold bounded, canonical_mantissa.
  cbn [Zdigits2] in K2. rewrite K2, Z.eqb_refl, E. reflexivity.
Qed.

Lemma iter_xO m d : Z.pos (Pos.iter xO m d) = Z.pos m * 2 ^ Z.pos d.
Proof.
  revert m. induction d as [|d IH] using Pos.peano_ind; intros m.
  - cbn. lia.
  - rewrite Pos.iter_succ, Pos2Z.inj_xO, IH, Pos2Z.inj_succ, Z.pow_succ_r by lia. lia.
Qed.

Lemma binary_round_finite s m e :
  SpecFloat.emin prec emax < Z.pos (digits2_pos m) + e ->
  finite_or_infinity s (binary_round prec emax s m e).
Proof.
  intros Hlow. unfold binary_round, shl_align.
  pose proof (digits2_pos_bounds m) as [Dlo Dhi].
  set (d := Z.pos (digits2_pos m)) in *.
  destruct (fexp prec emax (d + e) - e) as [|n|n] eqn:En.
  - apply binary_round_aux_finite; cbn [Zdigits2]; fold d; lia.
  - apply binary_round_aux_finite; cbn [Zdigits2]; fold d; lia.
  - assert (Hq : 2 ^ (d + Z.pos n - 1) <= Z.pos (Pos.iter xO m n) < 2 ^ (d + Z.pos n)).
    { rewrite iter_xO. replace (d + Z.pos n - 1) with (d - 1 + Z.pos n) by lia.
      rewrite !Z.pow_add_r by lia.
      assert (0 < 2 ^ Z.pos n) by (apply Z.pow_pos_nonneg; lia). nia. }
    assert (Hdig : Zdigits2 (Z.pos (Pos.iter xO m n)) = d + Z.pos n)
      by (apply Zdigits2_unique; [lia | exact Hq]).
    apply binary_round_aux_finite; rewrite ?Hdig; try lia.
    replace (d + Z.pos n + fexp prec emax (d + e)) with (d + e) by lia. lia.
Qed.

(** *** [float(z)] *)

(** An [int] other than 0 converts to a finite float other than zero, of the
    sign of the [int], when it converts at all. *)
Lemma float_of_int_finite z f :
  z <> 0 -> float_of_int z = Returned f ->
  exists m e, Prim2SF f = S754_finite (z <? 0) m e.
Proof.
  intros Hz. unfold float_of_int.
  assert (H : finite_or_infinity (z <? 0) (binary_normalize prec emax z 0 false)).
  { destruct z as [|p|p]; [lia | |]; cbn [binary_normalize Z.ltb Z.compare];
      apply binary_round_finite; unfold SpecFloat.emin;
      change prec with 53; change emax with 1024; lia. }
  destruct (binary_normalize prec emax z 0 false) as [s|s| |s m e];
    cbn [finite_or_infinity] in H; try contradiction.
  - cbv zeta. rewrite (Prim2SF_SF2Prim (S754_infinity s) eq_refl). discriminate.
  - destruct H as [-> Hv]. cbv zeta. rewrite (Prim2SF_SF2Prim _ Hv).
    intros Hr. exists m, e.
    replace f with (SF2Prim (S754_finite (z <? 0) m e)) by congruence.
    now apply Prim2SF_SF2Prim.
Qed.

Lemma float_of_int_negative z f :
  z < 0 -> float_of_int z = Returned f -> PrimFloat.ltb f 0 = true.
Proof.
  intros Hz Hf. destruct (float_of_int_finite z f ltac:(lia) Hf) as (m & e & E).
  rewrite ltb_spec, E, Prim2SF_zero. apply Z.ltb_lt in Hz. rewrite Hz. reflexivity.
Qed.

Lemma float_of_int_positive z f :
  0 < z -> float_of_int z = Returned f ->
  exists m e, Prim2SF f = S754_finite false m e.
Proof.
  intros Hz Hf. destruct (float_of_int_finite z f ltac:(lia) Hf) as (m & e & E).
  assert (Hs : (z <? 0) = false) by (apply Z.ltb_ge; lia). rewrite Hs in E. eauto.
Qed.

Lemma float_of_int_not_negative z f :
  0 <= z -> float_of_int z = Returned f -> PrimFloat.ltb f 0 = false.
Proof.
  intros Hz Hf. pose proof (float_of_int_class z f Hz Hf) as C.
  rewrite ltb_spec, Prim2SF_zero.
  destruct (Prim2SF f) as [[]|[]| |[] m e]; try contradiction; reflexivity.
Qed.

(** [x < 0] for a value that converts is [float(x) < 0]. *)
Lemma is_negative_float x f :
  float_of_number x = Returned f -> is_negative x = PrimFloat.ltb f 0.
Proof.
  destruct x as [z|g]; cbn [float_of_number is_negative].
  - intros Hf. destruct (Z.ltb_spec z 0).
    + symmetry. now apply (float_of_int_negative z).
    + symmetry. now apply (float_of_int_not_negative z).
  - now intros [= ->].
Qed.

(** *** The digits of a float turned into an [int] *)

Lemma valid_mantissa x s m e :
  Prim2SF x = S754_finite s m e -> Z.pos m < 2 ^ 53 /\ e <= 971.
Proof.
  intros E. pose proof (Prim2SF_valid x) as V. rewrite E in V.
  cbn [valid_binary] in V. unfold bounded, canonical_mantissa in V.
  apply andb_true_iff in V as [Vc Ve]. apply Z.eqb_eq in Vc. apply Z.leb_le in Ve.
  change (emax - prec) with 971 in Ve. split; [|exact Ve].
  pose proof (digits2_pos_bounds m) as [_ Hhi].
  assert (Hd : Z.pos (digits2_pos m) <= 53).
  { unfold fexp, SpecFloat.emin in Vc. change prec with 53 in Vc. lia. }
  eapply Z.lt_le_trans; [exact Hhi|]. apply Z.pow_le_mono_r; lia.
Qed.

Lemma two_to_1024_renders : 2 ^ 53 * 2 ^ 971 < int_str_limit.
Proof. vm_compute. reflexivity. Qed.

Lemma finite_int_bound m e a :
  Z.pos m < 2 ^ 53 -> e <= 971 ->
  0 <= a -> (0 <= e -> a = Z.pos m * 2 ^ e) -> (e < 0 -> a <= Z.pos m + 1) ->
  a < int_str_limit.
Proof.
  intros Hm He Ha Hpos Hneg. pose proof two_to_1024_renders as L.
  destruct (Z.leb_spec 0 e) as [H|H].
  - rewrite (Hpos H).
    assert (2 ^ e <= 2 ^ 971) by (apply Z.pow_le_mono_r; lia).
    assert (0 < 2 ^ e) by (apply Z.pow_pos_nonneg; lia). nia.
  - specialize (Hneg H). assert (1 <= 2 ^ 971) by (apply Z.pow_le_mono_r with (b := 0); lia || idtac).
    nia.
Qed.

Lemma round_half_even_div_nonneg num den :
  0 <= num -> 0 < den -> 0 <= round_half_even_div num den.
Proof.
  intros Hn Hd. unfold round_half_even_div.
  pose proof (Z.div_pos num den Hn Hd).
  destruct (2 * (num mod den) ?= den); try lia. destruct (Z.even _); lia.
Qed.

Lemma round_half_even_div_le num den :
  0 <= num -> 0 < den -> round_half_even_div num den <= num + 1.
Proof.
  intros Hn Hd. unfold round_half_even_div.
  assert (num / den <= num) by (apply Z.div_le_upper_bound; nia).
  destruct (2 * (num mod den) ?= den); try lia. destruct (Z.even _); lia.
Qed.

Lemma small_renders a (s : bool) :
  0 <= a < int_str_limit ->
  format_int (if s then - a else a) = Returned (Str.of_int (if s then - a else a)).
Proof.
  intros Ha. unfold format_int.
  assert (Hl : (int_str_limit <=? Z.abs (if s then - a else a)) = false).
  { apply Z.leb_gt. destruct s; lia. }
  now rewrite Hl.
Qed.

(** [round(x)] and [int(x)] of a float have at most 309 digits: they are
    rendered. *)
Lemma round_renders x n : round x = Returned n -> format_int n = Returned (Str.of_int n).
Proof.
  unfold round. destruct (Prim2SF x) as [s|s| |s m e] eqn:E; try discriminate; intros Hr.
  - replace n with 0 by congruence. reflexivity.
  - destruct (valid_mantissa x s m e E) as [Hm He].
    set (a := if 0 <=? e then Z.pos m * 2 ^ e
              else round_half_even_div (Z.pos m) (2 ^ (- e))) in Hr.
    replace n with (if s then - a else a) by congruence.
    apply small_renders.
    assert (A0 : 0 <= a).
    { subst a. destruct (Z.leb_spec 0 e).
      - apply Z.mul_nonneg_nonneg; [lia | apply Z.pow_nonneg; lia].
      - apply round_half_even_div_nonneg; [lia | apply Z.pow_pos_nonneg; lia]. }
    split; [exact A0|]. apply (finite_int_bound m e a Hm He A0); subst a.
    + intros H. apply Z.leb_le in H. now rewrite H.
    + intros H. assert (H' : (0 <=? e) = false) by (apply Z.leb_gt; lia). rewrite H'.
      apply round_half_even_div_le; [lia | apply Z.pow_pos_nonneg; lia].
Qed.

Lemma int_of_float_renders x n :
  int_of_float x = Returned n -> format_int n = Returned (Str.of_int n).
Proof.
  unfold int_of_float.
  destruct (Prim2SF x) as [s|s| |s m e] eqn:E; try discriminate; intros Hr.
  - replace n with 0 by congruence. reflexivity.
  - destruct (valid_mantissa x s m e E) as [Hm He].
    set (a := if 0 <=? e then Z.pos m * 2 ^ e else Z.pos m / 2 ^ (- e)) in Hr.
    replace n with (if s then - a else a) by congruence.
    apply small_renders.
    assert (A0 : 0 <= a).
    { subst a. destruct (Z.leb_spec 0 e).
      - apply Z.mul_nonneg_nonneg; [lia | apply Z.pow_nonneg; lia].
      - apply Z.div_pos; [lia | apply Z.pow_pos_nonneg; lia]. }
    split; [exact A0|]. apply (finite_int_bound m e a Hm He A0); subst a.
    + intros H. apply Z.leb_le in H. now rewrite H.
    + intros H. assert (H' : (0 <=? e) = false) by (apply Z.leb_gt; lia). rewrite H'.
      assert (P : 0 < 2 ^ (- e)) by (apply Z.pow_pos_nonneg; lia).
      assert (Z.pos m / 2 ^ (- e) <= Z.pos m) by (apply Z.div_le_upper_bound; nia).
      lia.
Qed.

Lemma format_int_renders z : renders z = true -> format_int z = Returned (Str.of_int z).
Proof.
  unfold renders, format_int. intros H. apply Z.ltb_lt in H.
  assert (Hl : (int_str_limit <=? Z.abs z) = false) by (apply Z.leb_gt; lia).
  now rewrite Hl.
Qed.

Lemma format_int_raises z e : format_int z = Raised e -> e = too_many_digits.
Proof. unfold format_int. destruct (int_str_limit <=? Z.abs z); now intros [= <-]. Qed.

Lemma format_int_cases z :
  (renders z = true /\ format_int z = Returned (Str.of_int z))
  \/ (renders z = false /\ format_int z = Raised too_many_digits).
Proof.
  unfold renders, format_int. destruct (Z.leb_spec int_str_limit (Z.abs z)).
  - right. split; [apply Z.ltb_ge; lia | reflexivity].
  - left. split; [apply Z.ltb_lt; lia | reflexivity].
Qed.
(** ** ItemToPurchase.update *)

Section Update.

Context {text : Str.Methods}.

(** The two programs in closed form. *)
Lemma update_closed_form name description price quantity it :
  Module8.update name description price quantity it
  = update_run price_error8 name description price quantity it.
Proof.
  unfold Module8.update, update_run, update_quantity, bind, if_not_None, text_ok, price_ok,
    price_error8, with_price, try_except_Exception, pure_outcome, ret, raise, modify.
  destruct name as [n|]; cbn [with_name negb];
    [destruct (Str.is_empty (Str.strip n)); cbn [negb]; [reflexivity|]|];
    (destruct description as [d|]; cbn [with_description negb];
     [destruct (Str.is_empty (Str.strip d)); cbn [negb]; [reflexivity|]|]);
    (destruct price as [x|];
     [destruct (float_of_number x) as [f|e]; [destruct (PrimFloat.ltb f 0)|];
      cbn [negb]; try reflexivity|]);
    (destruct quantity as [[q|f']|]; [destruct (q <? 0)| |]); reflexivity.
Qed.

Lemma update_first_closed_form name description price quantity it :
  Module6.update name description price quantity it
  = update_run price_error6 name description price quantity it.
Proof.
  assert (Hp : forall x (it2 : ItemToPurchase),
    (if is_negative x
     then (Raised (ValueError "Item price cannot be negative."), it2)
     else match float_of_number x with
          | Returned f => update_quantity quantity (set_item_price f it2)
          | Raised e => (Raised e, it2)
          end)
    = if price_ok (Some x) then update_quantity quantity (with_price (Some x) it2)
      else (Raised (price_error6 x), it2)).
  { intros x it2. unfold price_ok, price_error6, with_price.
    destruct (float_of_number x) as [f|e] eqn:Ef.
    - rewrite (is_negative_float x f Ef). now destruct (PrimFloat.ltb f 0).
    - destruct (is_negative x); [reflexivity|].
      destruct x as [z|g]; [|discriminate Ef]. cbn [float_of_number] in Ef.
      unfold float_of_int in Ef. destruct (Prim2SF _); now inversion Ef. }
  unfold update_run, Module6.update, bind, if_not_None, text_ok,
    pure_outcome, ret, raise, modify.
  destruct name as [n|]; cbn [with_name negb];
    [destruct (Str.is_empty (Str.strip n)); cbn [negb]; [reflexivity|]|];
    (destruct description as [d|]; cbn [with_description negb];
     [destruct (Str.is_empty (Str.strip d)); cbn [negb]; [reflexivity|]|]);
    (destruct price as [x|];
     [cbv zeta; rewrite <- Hp; destruct (is_negative x); [reflexivity|];
      destruct (float_of_number x) as [f|e]; [|reflexivity]|]);
    unfold update_quantity;
    (destruct quantity as [[q|f']|]; [destruct (q <? 0)| |]); reflexivity.
Qed.

(** On a price that [float] converts the two programs are one. *)
Lemma update_run_converts name description price quantity it :
  converts price = true ->
  update_run price_error6 name description price quantity it
  = update_run price_error8 name description price quantity it.
Proof.
  intros Hc. unfold update_run.
  destruct (text_ok name), (text_ok description); cbn [negb]; try reflexivity.
  destruct price as [x|]; [|reflexivity].
  unfold price_ok, price_error6, price_error8, converts in *.
  destruct (float_of_number x) as [f|e] eqn:Ef; [|discriminate].
  rewrite (is_negative_float x f Ef). now destruct (PrimFloat.ltb f 0).
Qed.

Lemma update_converts name description price quantity it :
  converts price = true ->
  Module6.update name description price quantity it
  = Module8.update name description price quantity it.
Proof.
  intros Hc. rewrite update_closed_form, update_first_closed_form.
  now apply update_run_converts.
Qed.

Lemma converts_float (price : option float) : converts (option_map Float price) = true.
Proof. now destruct price. Qed.

Lemma price_ok_converts price : price_ok price = true -> converts price = true.
Proof.
  unfold price_ok, converts. destruct price as [x|]; [|reflexivity].
  now destruct (float_of_number x).
Qed.

(** An invalid supplied field makes [update] raise with the state that the
    valid fields before it have produced; the exception is a [ValueError]
    unless it is the one of the price. *)
Lemma update_run_invalid price_error name description price quantity it :
  text_ok name && text_ok description && price_ok price && quantity_ok quantity = false ->
  exists e,
    update_run price_error name description price quantity it
    = (Raised e, left_by name description price it)
    /\ ((exists msg, e = ValueError msg)
        \/ exists x, price = Some x /\ price_ok price = false /\ e = price_error x).
Proof.
  intros Hbad. unfold update_run, left_by.
  destruct (text_ok name); cbn [negb andb] in *; [|eauto 6].
  destruct (text_ok description); cbn [negb andb] in *; [|eauto 6].
  destruct price as [x|].
  - destruct (price_ok (Some x)) eqn:Hp; cbn [negb andb] in *; [|eauto 8].
    unfold update_quantity.
    destruct quantity as [[q|f]|]; cbn [quantity_ok] in Hbad; try discriminate.
    + destruct (q <? 0); [eauto 6 | discriminate].
    + eauto 6.
  - cbn [price_ok negb andb] in *. unfold update_quantity.
    destruct quantity as [[q|f]|]; cbn [quantity_ok] in Hbad; try discriminate.
    + destruct (q <? 0); [eauto 6 | discriminate].
    + eauto 6.
Qed.

(** The final program raises nothing but [ValueError]. *)
Lemma update_run_invalid_final name description price quantity it :
  text_ok name && text_ok description && price_ok price && quantity_ok quantity = false ->
  exists msg,
    update_run price_error8 name description price quantity it
    = (Raised (ValueError msg), left_by name description price it).
Proof.
  intros Hbad.
  destruct (update_run_invalid price_error8 name description price quantity it Hbad)
    as (e & H & [(msg & ->) | (x & -> & Hp & ->)]); [eauto|].
  unfold price_error8 in *. destruct (float_of_number x); eauto.
Qed.

(** When every supplied field is valid [update] returns, and exactly the
    supplied fields have been assigned. *)
Lemma update_run_valid price_error name description price quantity it :
  text_ok name && text_ok description && price_ok price && quantity_ok quantity = true ->
  update_run price_error name description price quantity it
  = (Returned tt,
     with_quantity quantity
       (with_price price (with_description description (with_name name it)))).
Proof.
  intros Hok. unfold update_run.
  destruct (text_ok name); [|discriminate].
  destruct (text_ok description); [|discriminate].
  destruct (price_ok price) eqn:Hp; [|discriminate].
  cbn [negb andb] in *. unfold update_quantity.
  destruct price as [x|]; destruct quantity as [[q|f]|]; cbn [quantity_ok] in Hok;
    try discriminate; try reflexivity; now destruct (q <? 0).
Qed.

Lemma update_valid_run name description price quantity it :
  text_ok name && text_ok description && price_ok price && quantity_ok quantity = true ->
  Module8.update name description price quantity it
  = (Returned tt,
     with_quantity quantity
       (with_price price (with_description description (with_name name it)))).
Proof. intros H. rewrite update_closed_form. now apply update_run_valid. Qed.

Lemma update_first_valid_run name description price quantity it :
  text_ok name && text_ok description && price_ok price && quantity_ok quantity = true ->
  Module6.update name description price quantity it
  = (Returned tt,
     with_quantity quantity
       (with_price price (with_description description (with_name name it)))).
Proof. intros H. rewrite update_first_closed_form. now apply update_run_valid. Qed.

(** An invalid price is refused with the same exception by the two programs
    unless it is an [int] that [float] does not convert. *)
Lemma price_errors x :
  price_ok (Some x) = false ->
  (exists msg, price_error8 x = ValueError msg)
  /\ (price_error6 x = price_error8 x
      \/ exists z, x = Int z /\ float_of_int z = Raised too_large
                   /\ (z < 0 -> price_error6 x = ValueError "Item price cannot be negative.")
                   /\ (0 <= z -> price_error6 x = too_large)).
Proof.
  unfold price_ok, price_error8, price_error6. intros Hp.
  destruct (float_of_number x) as [f|e] eqn:Ef.
  - split; [eauto|]. left. rewrite (is_negative_float x f Ef).
    now destruct (PrimFloat.ltb f 0).
  - split; [eauto|]. right. destruct x as [z|g]; [|discriminate Ef].
    cbn [float_of_number is_negative] in *. exists z.
    assert (E : float_of_int z = Raised too_large).
    { unfold float_of_int in *. destruct (Prim2SF _); now inversion Ef. }
    split; [reflexivity|]. split; [exact E|]. split; intros Hz.
    + apply Z.ltb_lt in Hz. now rewrite Hz.
    + apply Z.ltb_ge in Hz. now rewrite Hz.
Qed.

(** The fields before the quantity leave the quantity alone. *)
Lemma quantity_kept name description price it :
  item_quantity (left_by name description price it) = item_quantity it.
Proof.
  unfold left_by, with_price.
  destruct (text_ok name), (text_ok description), (price_ok price); cbn [negb];
    destruct name, description, price as [x|]; try reflexivity;
    destruct (float_of_number x); reflexivity.
Qed.

(** C1, as amended.  When a supplied field is invalid the call raises; the
    first invalid field, in the order name, description, price, quantity,
    and every field after it keep their values, while the valid supplied
    fields before it have been assigned.  The final program raises
    [ValueError]; so does the first program, with the same message, unless
    the price is an [int] that [float] does not convert, at which the first
    program raises [ValueError] when that [int] is negative and
    [OverflowError] otherwise. *)
Theorem update_fails_in_order name description price quantity it :
  text_ok name && text_ok description && price_ok price && quantity_ok quantity = false ->
  exists e8 e6,
    let left :=
      if negb (text_ok name) then it
      else if negb (text_ok description) then with_name name it
      else if negb (price_ok price)
      then with_description description (with_name name it)
      else with_price price (with_description description (with_name name it)) in
    Module8.update name description price quantity it = (Raised e8, left)
    /\ Module6.update name description price quantity it = (Raised e6, left)
    /\ (exists msg, e8 = ValueError msg)
    /\ (e6 = e8
        \/ exists z, price = Some (Int z) /\ float_of_int z = Raised too_large
                     /\ (z < 0 -> e6 = ValueError "Item price cannot be negative.")
                     /\ (0 <= z -> e6 = too_large))
    /\ item_quantity left = item_quantity it.
Proof.
  intros Hbad.
  destruct (update_run_invalid price_error8 name description price quantity it Hbad)
    as (e8 & H8 & C8).
  destruct (update_run_invalid price_error6 name description price quantity it Hbad)
    as (e6 & H6 & C6).
  exists e8, e6. cbn zeta. fold (left_by name description price it).
  rewrite update_closed_form, update_first_closed_form.
  split; [exact H8|]. split; [exact H6|].
  assert (E : e6 = e8
              \/ exists x, price = Some x /\ price_ok price = false
                           /\ e8 = price_error8 x /\ e6 = price_error6 x).
  { unfold update_run in H8, H6.
    destruct (text_ok name); cbn [negb] in *; [|left; congruence].
    destruct (text_ok description); cbn [negb] in *; [|left; congruence].
    destruct price as [x|]; [|left; congruence].
    destruct (price_ok (Some x)) eqn:Hp; [left; congruence|].
    right. exists x. repeat split; congruence. }
  split; [|split; [|apply quantity_kept]].
  - destruct E as [E | (x & -> & Hp & -> & _)].
    + destruct C8 as [C8 | (x & -> & Hp & ->)]; [exact C8|].
      apply (price_errors x Hp).
    + apply (price_errors x Hp).
  - destruct E as [E | (x & -> & Hp & -> & ->)]; [now left|].
    destruct (price_errors x Hp) as [_ [Hsame | (z & -> & Hz)]]; [now left | right].
    exists z. split; [reflexivity | exact Hz].
Qed.

End Update.

Lemma update_fails_in_order_witness :
  text_ok (Some "x") && text_ok None && price_ok (Some (Float (-1))) && quantity_ok None
  = false
  /\ exists e8 e6,
       Module8.update (Some "x") None (Some (Float (-1))) None default_item
         = (Raised e8, set_item_name "x" default_item)
       /\ Module6.update (Some "x") None (Some (Float (-1))) None default_item
         = (Raised e6, set_item_name "x" default_item)
       /\ (exists msg, e8 = ValueError msg)
       /\ (e6 = e8
           \/ exists z, Some (Float (-1)) = Some (Int z) /\ float_of_int z = Raised too_large
                        /\ (z < 0 -> e6 = ValueError "Item price cannot be negative.")
                        /\ (0 <= z -> e6 = too_large))
       /\ item_quantity (set_item_name "x" default_item) = item_quantity default_item.
Proof.
  split; [reflexivity|].
  exact (update_fails_in_order (Some "x") None (Some (Float (-1))) None default_item eq_refl).
Defined.

(** C1 as stated fails: [update(name="x", price=-1)] on a default item raises
    for the price after the name was already replaced. *)
Lemma update_not_atomic :
  price_ok (Some (Float (-1))) = false
  /\ Module8.update (Some "x") None (Some (Float (-1))) None default_item
       = (Raised (ValueError "Item price cannot be negative."),
          mkItem "x" 0%float 0 "none")
  /\ Module6.update (Some "x") None (Some (Float (-1))) None default_item
       = (Raised (ValueError "Item price cannot be negative."),
          mkItem "x" 0%float 0 "none")
  /\ item_name (mkItem "x" 0%float 0 "none") <> item_name default_item.
Proof.
  repeat split; try reflexivity. discriminate.
Qed.

(** ** ShoppingCart.modify_item *)

Lemma assign_same r it f : assign r it f r = it.
Proof. unfold assign. now rewrite Nat.eqb_refl. Qed.

Lemma assign_other r it f r' : r' <> r -> assign r it f r' = f r'.
Proof. unfold assign. intros H. apply Nat.eqb_neq in H. now rewrite H. Qed.

Lemma print_run line s : print line s = (Returned tt, printed [line] s).
Proof. reflexivity. Qed.

(** The patch of an object of the declared types. *)
Lemma as_int_typed (patch : ItemToPurchase) :
  as_int (patch_quantity patch) = Returned (patch_quantity patch).
Proof.
  unfold patch_quantity. cbn [as_given given_quantity is_zero].
  now destruct (item_quantity patch =? 0).
Qed.

Lemma patch_price_typed (patch : ItemToPurchase) :
  patch_price patch
  = option_map Float (if PrimFloat.eqb (item_price patch) 0 then None
                      else Some (item_price patch)).
Proof.
  unfold patch_price. cbn [as_given given_price is_zero].
  now destruct (PrimFloat.eqb (item_price patch) 0).
Qed.

Section Modify.

Context {text : Str.Methods}.

(** The search loop finds the first match, and fails only when none exists. *)
Lemma find_target_first_match objs name items target :
  find_target objs (Str.lower name) items = Some target <->
  first_match objs name items target.
Proof.
  unfold first_match, name_is, Str.ci_equal. split.
  - induction items as [|r items IH]; cbn [find_target]; [discriminate|].
    destruct (String.eqb (Str.lower (item_name (objs r))) (Str.lower name)) eqn:E.
    + intros [= <-]. exists [], items. auto.
    + intros H. destruct (IH H) as (before & after & -> & Hm & Hb).
      exists (r :: before), after. auto.
  - intros (before & after & -> & Hm & Hb).
    induction Hb as [|r before Hr Hb IH]; simpl.
    + now rewrite Hm.
    + now rewrite Hr.
Qed.

Lemma find_target_no_match objs name items :
  find_target objs (Str.lower name) items = None <-> no_match objs name items.
Proof.
  unfold no_match, name_is, Str.ci_equal.
  induction items as [|r items IH]; cbn [find_target].
  - split; auto.
  - destruct (String.eqb (Str.lower (item_name (objs r))) (Str.lower name)) eqn:E.
    + split; [discriminate|]. intros H. inversion H; congruence.
    + rewrite IH. split; [auto|]. intros H. now inversion H.
Qed.

Lemma on_object_run {A} target (m : M ItemToPurchase A) s :
  on_object target m s
  = (fst (m (objects s target)),
     set_objects (assign target (snd (m (objects s target))) (objects s)) s).
Proof. unfold on_object. now destruct (m (objects s target)). Qed.

Lemma same_but_set target it' s objs :
  objs target = it' ->
  (forall r, r <> target -> objs r = objects s r) ->
  same_but target it' s (set_objects objs s).
Proof. unfold same_but. cbn [objects cart stdout next_ref set_objects]. auto. Qed.

Lemma same_but_refl target s : same_but target (objects s target) s s.
Proof. unfold same_but. auto. Qed.

Lemma same_but_trans target a b s s1 s2 :
  same_but target a s s1 -> same_but target b s1 s2 -> same_but target b s s2.
Proof.
  unfold same_but. intros (H1 & H2 & H3 & H4 & H5) (K1 & K2 & K3 & K4 & K5).
  repeat split; try congruence. intros r Hr. rewrite K5, H5; auto.
Qed.

(** A method of the cart that is a sequence of methods of one object. *)
Lemma runs_on_on_object {A} target (m : M ItemToPurchase A) :
  runs_on target (on_object target m) m.
Proof.
  intros s. rewrite on_object_run. eexists. split; [|reflexivity].
  apply same_but_set; [apply assign_same | intros r Hr; now apply assign_other].
Qed.

Lemma runs_on_ret {A} target (a : A) : runs_on target (ret a) (ret a).
Proof. intros s. exists s. split; [apply same_but_refl | reflexivity]. Qed.

Lemma runs_on_when target c m mi :
  runs_on target m mi -> runs_on target (when c m) (when c mi).
Proof. intros H. destruct c; [exact H | apply runs_on_ret]. Qed.

Lemma runs_on_bind {A B} target (m : M Session A) mi (k : A -> M Session B) ki :
  runs_on target m mi -> (forall a, runs_on target (k a) (ki a)) ->
  runs_on target (bind m k) (bind mi ki).
Proof.
  intros Hm Hk s. destruct (Hm s) as (s1 & Hs1 & E1). unfold bind. rewrite E1.
  destruct (mi (objects s target)) as [[a|e] it1]; cbn [fst snd] in *.
  - destruct (Hk a s1) as (s2 & Hs2 & E2).
    assert (Eo : objects s1 target = it1) by apply Hs1.
    rewrite Eo in Hs2, E2. exists s2. split; [|exact E2].
    exact (same_but_trans _ _ _ _ _ _ Hs1 Hs2).
  - exists s1. now split.
Qed.

Lemma runs_on_pure {A} target (o : outcome A) :
  runs_on target (pure_outcome o) (pure_outcome o).
Proof. intros s. exists s. split; [apply same_but_refl | reflexivity]. Qed.

Lemma runs_on_try_block update target patch :
  runs_on target
    (when (negb (String.eqb (given_description patch) "none"))
       (on_object target (update None (Some (given_description patch)) None None)) ;;
     when (negb (is_zero (given_price patch)))
       (on_object target (update None None (Some (given_price patch)) None)) ;;
     when (negb (is_zero (given_quantity patch)))
       (quantity <- pure_outcome (int_of_number (given_quantity patch)) ;;
        on_object target (update None None None (Some (Int quantity)))))
    (try_block update patch).
Proof.
  unfold try_block.
  repeat first [ apply runs_on_bind; [|intros ?] | apply runs_on_when
               | apply runs_on_on_object | apply runs_on_pure ].
Qed.

(** Three calls of [update] with one field each are one call with the
    three fields. *)
Lemma update_run_one_by_one price_error description price
    (quantity : outcome (option number)) it :
  match update_run price_error None description None None it with
  | (Returned _, it1) =>
      match update_run price_error None None price None it1 with
      | (Returned _, it2) =>
          match quantity with
          | Returned q => update_run price_error None None None q it2
          | Raised e => (Raised e, it2)
          end
      | (Raised e, it2) => (Raised e, it2)
      end
  | (Raised e, it1) => (Raised e, it1)
  end
  = match quantity with
    | Returned q => update_run price_error None description price q it
    | Raised e =>
        match update_run price_error None description price None it with
        | (Returned _, it') => (Raised e, it')
        | r => r
        end
    end.
Proof.
  unfold update_run, update_quantity. cbn [text_ok with_name with_description negb].
  destruct (text_ok description); cbn [negb];
    [|destruct quantity as [[[z|f]|]|]; reflexivity].
  destruct price as [x|]; [destruct (price_ok (Some x))|];
    destruct quantity as [[[z|f]|]|]; try destruct (z <? 0); reflexivity.
Qed.

(** The [try] block in closed form, for an [update] in closed form. *)
Lemma try_block_run update price_error patch it :
  (forall name description price quantity it,
     update name description price quantity it
     = update_run price_error name description price quantity it) ->
  try_block update patch it = patch_run price_error patch it.
Proof.
  intros Hu.
  assert (Hnone : forall it0, update_run price_error None None None None it0
                              = (Returned tt, it0)) by reflexivity.
  unfold patch_run. rewrite <- update_run_one_by_one.
  unfold try_block, bind.
  assert (E1 : when (negb (String.eqb (given_description patch) "none"))
                 (update None (Some (given_description patch)) None None) it
               = update_run price_error None (patch_description patch) None None it).
  { unfold patch_description, when.
    destruct (String.eqb (given_description patch) "none"); cbn [negb];
      [reflexivity | apply Hu]. }
  rewrite E1. destruct (update_run price_error None _ None None it) as [[[]|e] it1];
    [|reflexivity].
  assert (E2 : when (negb (is_zero (given_price patch)))
                 (update None None (Some (given_price patch)) None) it1
               = update_run price_error None None (patch_price patch) None it1).
  { unfold patch_price, when.
    destruct (is_zero (given_price patch)); cbn [negb]; [reflexivity | apply Hu]. }
  rewrite E2. destruct (update_run price_error None None _ None it1) as [[[]|e] it2];
    [|reflexivity].
  unfold patch_quantity, as_int, when, pure_outcome.
  destruct (is_zero (given_quantity patch)); cbn [negb]; [reflexivity|].
  destruct (int_of_number (given_quantity patch)) as [n|e]; [apply Hu | reflexivity].
Qed.

Lemma try_except_reported (m : M Session unit) s o s1 :
  m s = (o, s1) ->
  try_except_ValueError m (fun e => print ("Modification rejected: " ++ exn_message e)) s
  = reported o s1.
Proof.
  intros E. unfold try_except_ValueError. rewrite E.
  destruct o as [[]|[msg|msg]]; reflexivity.
Qed.

(** When the target is found, [modify_item] runs [patch_run] on the target
    and reports a [ValueError]. *)
Lemma modify_item_found patch target s :
  find_target (objects s) (patch_key patch) (cart_items (cart s)) = Some target ->
  exists s1,
    same_but target (snd (patch_run price_error8 patch (objects s target))) s s1
    /\ Module8.modify_item patch s
       = reported (fst (patch_run price_error8 patch (objects s target))) s1.
Proof.
  intros Hfind. unfold Module8.modify_item. fold (patch_key patch).
  unfold bind at 1. unfold get at 1. cbn iota beta. rewrite Hfind.
  destruct (runs_on_try_block Module8.update target patch s) as (s1 & Hs1 & E).
  rewrite (try_block_run _ price_error8) in Hs1, E by apply update_closed_form.
  exists s1. split; [exact Hs1|]. now apply try_except_reported.
Qed.

Lemma modify_item_first_found patch target s :
  find_target (objects s) (patch_key patch) (cart_items (cart s)) = Some target ->
  exists s1,
    same_but target (snd (patch_run price_error6 patch (objects s target))) s s1
    /\ Module6.modify_item patch s
       = reported (fst (patch_run price_error6 patch (objects s target))) s1.
Proof.
  intros Hfind. unfold Module6.modify_item. fold (patch_key patch).
  unfold bind at 1. unfold get at 1. cbn iota beta. rewrite Hfind.
  destruct (runs_on_try_block Module6.update target patch s) as (s1 & Hs1 & E).
  rewrite (try_block_run _ price_error6) in Hs1, E by apply update_first_closed_form.
  exists s1. split; [exact Hs1|]. now apply try_except_reported.
Qed.

Lemma modify_item_not_found patch s :
  find_target (objects s) (patch_key patch) (cart_items (cart s)) = None ->
  Module8.modify_item patch s
  = (Returned tt, printed ["Item not found in cart. Nothing modified."] s)
  /\ Module6.modify_item patch s
  = (Returned tt, printed ["Item not found in cart. Nothing modified."] s).
Proof.
  intros Hfind. unfold Module8.modify_item, Module6.modify_item. fold (patch_key patch).
  unfold bind, get. now rewrite Hfind.
Qed.

Lemma modify_item_absent patch s :
  no_match (objects s) (Str.strip (given_name patch)) (cart_items (cart s)) ->
  Module8.modify_item patch s
  = (Returned tt, printed ["Item not found in cart. Nothing modified."] s)
  /\ Module6.modify_item patch s
  = (Returned tt, printed ["Item not found in cart. Nothing modified."] s).
Proof.
  intros H. now apply modify_item_not_found, find_target_no_match.
Qed.

Lemma bind_ext {S A B} (m m' : M S A) (k k' : A -> M S B) s :
  m s = m' s -> (forall a s', k a s' = k' a s') -> bind m k s = bind m' k' s.
Proof. intros Hm Hk. unfold bind. rewrite Hm. destruct (m' s) as [[a|e] s']; auto. Qed.

Lemma on_object_ext {A} target (m m' : M ItemToPurchase A) s :
  (forall it, m it = m' it) -> on_object target m s = on_object target m' s.
Proof. intros H. unfold on_object. now rewrite H. Qed.

(** For a patch whose price [float] converts the two programs are one. *)
Lemma modify_item_converts patch s :
  converts (patch_price patch) = true ->
  Module6.modify_item patch s = Module8.modify_item patch s.
Proof.
  intros Hc. unfold Module6.modify_item, Module8.modify_item.
  apply bind_ext; [reflexivity|]. intros s0 s'.
  destruct (find_target _ _ _) as [target|]; [|reflexivity].
  unfold try_except_ValueError.
  match goal with
  | |- match ?a with _ => _ end = match ?b with _ => _ end =>
      assert (E : a = b); [|now rewrite E]
  end.
  apply bind_ext; [reflexivity|]. intros _ s1.
  apply bind_ext; [|reflexivity].
  unfold patch_price in Hc. unfold when.
  destruct (is_zero (given_price patch)); cbn [negb]; [reflexivity|].
  apply on_object_ext. intros it. now apply update_converts.
Qed.

(** A patch of the declared types passes on a float price and an [int]
    quantity. *)
Lemma converts_typed (patch : ItemToPurchase) : converts (patch_price patch) = true.
Proof. rewrite patch_price_typed. apply converts_float. Qed.

Lemma modify_item_typed (patch : ItemToPurchase) s :
  Module6.modify_item patch s = Module8.modify_item patch s.
Proof. apply modify_item_converts, converts_typed. Qed.

(** The closed form for a patch of the declared types: one [update] with
    the fields the patch passes on. *)
Lemma modify_item_typed_found (patch : ItemToPurchase) target s :
  find_target (objects s) (patch_key patch) (cart_items (cart s)) = Some target ->
  exists s1,
    same_but target
      (snd (update_run price_error8 None (patch_description patch) (patch_price patch)
              (patch_quantity patch) (objects s target))) s s1
    /\ Module8.modify_item patch s
       = reported (fst (update_run price_error8 None (patch_description patch)
                          (patch_price patch) (patch_quantity patch)
                          (objects s target))) s1.
Proof.
  intros Hfind. destruct (modify_item_found patch target s Hfind) as (s1 & Hs1 & E).
  unfold patch_run in Hs1, E. rewrite as_int_typed in Hs1, E. eauto.
Qed.

(** The closed form when [int] converts the quantity. *)
Lemma modify_item_found_int patch quantity target s :
  find_target (objects s) (patch_key patch) (cart_items (cart s)) = Some target ->
  as_int (patch_quantity patch) = Returned quantity ->
  exists s1,
    same_but target
      (snd (update_run price_error8 None (patch_description patch) (patch_price patch)
              quantity (objects s target))) s s1
    /\ Module8.modify_item patch s
       = reported (fst (update_run price_error8 None (patch_description patch)
                          (patch_price patch) quantity (objects s target))) s1.
Proof.
  intros Hfind Hq. destruct (modify_item_found patch target s Hfind) as (s1 & Hs1 & E).
  unfold patch_run in Hs1, E. rewrite Hq in Hs1, E. eauto.
Qed.

(** What the [try] block can raise. *)
Lemma update_run_raises price_error name description price quantity it :
  fst (update_run price_error name description price quantity it) = Returned tt
  \/ (exists msg,
        fst (update_run price_error name description price quantity it)
        = Raised (ValueError msg))
  \/ exists x,
       price = Some x /\ price_ok price = false
       /\ fst (update_run price_error name description price quantity it)
          = Raised (price_error x).
Proof.
  destruct (text_ok name && text_ok description && price_ok price && quantity_ok quantity)
    eqn:Hok.
  - left. now rewrite update_run_valid.
  - right. destruct (update_run_invalid price_error name description price quantity it Hok)
      as (e & He & [(msg & ->) | (x & -> & Hp & ->)]); rewrite He; cbn [fst]; eauto 8.
Qed.

Lemma as_int_raises v e :
  as_int v = Raised e ->
  e = infinite_int \/ e = ValueError "cannot convert float NaN to integer".
Proof.
  unfold as_int. destruct v as [[z|f]|]; try discriminate. cbn [int_of_number].
  unfold int_of_float. destruct (Prim2SF f); intros [= <-]; auto.
Qed.

Lemma patch_run_raises price_error patch it :
  fst (patch_run price_error patch it) = Returned tt
  \/ (exists msg, fst (patch_run price_error patch it) = Raised (ValueError msg))
  \/ fst (patch_run price_error patch it) = Raised infinite_int
  \/ exists x,
       patch_price patch = Some x /\ price_ok (Some x) = false
       /\ fst (patch_run price_error patch it) = Raised (price_error x).
Proof.
  unfold patch_run. destruct (as_int (patch_quantity patch)) as [q|e] eqn:Eq.
  - destruct (update_run_raises price_error None (patch_description patch)
                (patch_price patch) q it) as [H | [H | (x & Hx & Hp & H)]]; auto.
    right. right. right. exists x. rewrite <- Hx. auto.
  - destruct (update_run_raises price_error None (patch_description patch)
                (patch_price patch) None it) as [H | [H | (x & Hx & Hp & H)]].
    + destruct (update_run _ _ _ _ _ _) as [[[]|e'] it']; [|discriminate].
      cbn [fst]. destruct (as_int_raises _ _ Eq) as [-> | ->]; eauto.
    + destruct (update_run _ _ _ _ _ _) as [[[]|e'] it']; [destruct H; discriminate|].
      cbn [fst] in *. auto.
    + destruct (update_run _ _ _ _ _ _) as [[[]|e'] it']; [discriminate|].
      cbn [fst] in *. right. right. right. exists x. rewrite <- Hx. auto.
Qed.

Lemma price_error8_ValueError x : exists msg, price_error8 x = ValueError msg.
Proof. unfold price_error8. destruct (float_of_number x); eauto. Qed.

Lemma price_error6_cases x :
  (exists msg, price_error6 x = ValueError msg) \/ price_error6 x = too_large.
Proof. unfold price_error6. destruct (is_negative x); eauto. Qed.

Lemma reported_frame o s1 :
  objects (snd (reported o s1)) = objects s1
  /\ next_ref (snd (reported o s1)) = next_ref s1
  /\ cart (snd (reported o s1)) = cart s1.
Proof. destruct o as [[]|[msg|msg]]; repeat split. Qed.

Lemma find_target_In objs key items target :
  find_target objs key items = Some target -> In target items.
Proof.
  induction items as [|r items IH]; cbn [find_target]; [discriminate|].
  destruct (String.eqb _ _); [intros [= ->]; now left | intros H; right; auto].
Qed.

(** What [modify_item] returns or raises, and what it leaves alone. *)
Lemma modify_item_outcome patch s :
  fst (Module8.modify_item patch s) = Returned tt
  \/ fst (Module8.modify_item patch s) = Raised infinite_int.
Proof.
  destruct (find_target (objects s) (patch_key patch) (cart_items (cart s)))
    as [target|] eqn:Hfind.
  - destruct (modify_item_found patch target s Hfind) as (s1 & _ & ->).
    destruct (patch_run_raises price_error8 patch (objects s target))
      as [-> | [(msg & ->) | [-> | (x & _ & _ & ->)]]]; cbn; auto.
    destruct (price_error8_ValueError x) as (msg & ->). cbn. auto.
  - rewrite (proj1 (modify_item_not_found patch s Hfind)). now left.
Qed.

Lemma modify_item_first_outcome patch s :
  fst (Module6.modify_item patch s) = Returned tt
  \/ fst (Module6.modify_item patch s) = Raised infinite_int
  \/ fst (Module6.modify_item patch s) = Raised too_large.
Proof.
  destruct (find_target (objects s) (patch_key patch) (cart_items (cart s)))
    as [target|] eqn:Hfind.
  - destruct (modify_item_first_found patch target s Hfind) as (s1 & _ & ->).
    destruct (patch_run_raises price_error6 patch (objects s target))
      as [-> | [(msg & ->) | [-> | (x & _ & _ & ->)]]]; cbn; auto.
    destruct (price_error6_cases x) as [(msg & ->) | ->]; cbn; auto.
  - rewrite (proj2 (modify_item_not_found patch s Hfind)). now left.
Qed.

Lemma modify_item_returns (patch : ItemToPurchase) s :
  fst (Module8.modify_item patch s) = Returned tt.
Proof.
  destruct (find_target (objects s) (patch_key patch) (cart_items (cart s)))
    as [target|] eqn:Hfind.
  - destruct (modify_item_typed_found patch target s Hfind) as (s1 & _ & ->).
    destruct (update_run_raises price_error8 None (patch_description patch)
                (patch_price patch) (patch_quantity patch) (objects s target))
      as [-> | [(msg & ->) | (x & _ & _ & ->)]]; cbn; auto.
    destruct (price_error8_ValueError x) as (msg & ->). reflexivity.
  - now rewrite (proj1 (modify_item_not_found patch s Hfind)).
Qed.

Lemma modify_item_frame patch s :
  next_ref (snd (Module8.modify_item patch s)) = next_ref s
  /\ cart (snd (Module8.modify_item patch s)) = cart s
  /\ forall r, ~ In r (cart_items (cart s)) ->
               objects (snd (Module8.modify_item patch s)) r = objects s r.
Proof.
  destruct (find_target (objects s) (patch_key patch) (cart_items (cart s)))
    as [target|] eqn:Hfind.
  - destruct (modify_item_found patch target s Hfind)
      as (s1 & (Hn & Hc & _ & _ & Ho) & ->).
    destruct (reported_frame (fst (patch_run price_error8 patch (objects s target))) s1)
      as (-> & -> & ->).
    repeat split; try assumption. intros r Hr. apply Ho. intros ->. apply Hr.
    eapply find_target_In, Hfind.
  - rewrite (proj1 (modify_item_not_found patch s Hfind)). repeat split.
Qed.

Lemma modify_item_first_frame patch s :
  next_ref (snd (Module6.modify_item patch s)) = next_ref s
  /\ cart (snd (Module6.modify_item patch s)) = cart s
  /\ forall r, ~ In r (cart_items (cart s)) ->
               objects (snd (Module6.modify_item patch s)) r = objects s r.
Proof.
  destruct (find_target (objects s) (patch_key patch) (cart_items (cart s)))
    as [target|] eqn:Hfind.
  - destruct (modify_item_first_found patch target s Hfind)
      as (s1 & (Hn & Hc & _ & _ & Ho) & ->).
    destruct (reported_frame (fst (patch_run price_error6 patch (objects s target))) s1)
      as (-> & -> & ->).
    repeat split; try assumption. intros r Hr. apply Ho. intros ->. apply Hr.
    eapply find_target_In, Hfind.
  - rewrite (proj2 (modify_item_not_found patch s Hfind)). repeat split.
Qed.

(** C2, as amended.  The patch is an object of the declared types: its
    price is a float and its quantity an [int].  When the cart holds an item
    whose name is the patch's trimmed name, case ignored, and a non-sentinel
    field of the patch is invalid, [modify_item] returns after printing a
    rejection; the name of the target, the invalid field (the first one in
    the order description, price, quantity) and the fields after it keep
    their values, while the non-sentinel fields before it have been applied.
    The cart's list and every other object are as before.  Both programs,
    whatever [str.strip] and [str.lower] do to text that is not ASCII. *)
Theorem modify_item_rejection (patch : ItemToPurchase) target s :
  first_match (objects s) (Str.strip (item_name patch)) (cart_items (cart s)) target ->
  text_ok (patch_description patch) && price_ok (patch_price patch)
    && quantity_ok (patch_quantity patch) = false ->
  exists msg s1,
    let left :=
      if negb (text_ok (patch_description patch)) then objects s target
      else if negb (price_ok (patch_price patch))
      then with_description (patch_description patch) (objects s target)
      else with_price (patch_price patch)
             (with_description (patch_description patch) (objects s target)) in
    Module8.modify_item patch s
      = (Returned tt, printed ["Modification rejected: " ++ msg] s1)
    /\ Module6.modify_item patch s
      = (Returned tt, printed ["Modification rejected: " ++ msg] s1)
    /\ same_but target left s s1
    /\ item_name left = item_name (objects s target)
    /\ item_quantity left = item_quantity (objects s target).
Proof.
  intros Hfirst Hbad. apply find_target_first_match in Hfirst.
  destruct (modify_item_typed_found patch target s Hfirst) as (s1 & Hsame & Hrun).
  destruct (update_run_invalid_final None (patch_description patch) (patch_price patch)
              (patch_quantity patch) (objects s target) Hbad) as (msg & Hu).
  unfold left_by in Hu. cbn [text_ok negb with_name] in Hu.
  rewrite Hu in Hsame, Hrun. cbn [fst snd reported] in Hsame, Hrun.
  exists msg, s1. cbn zeta. rewrite modify_item_typed.
  repeat split; try assumption; try apply Hsame.
  all: destruct (text_ok (patch_description patch)); cbn [negb]; [|reflexivity].
  all: unfold with_price, with_description;
    destruct (price_ok (patch_price patch)); cbn [negb];
    destruct (patch_description patch), (patch_price patch) as [x|]; try reflexivity;
    destruct (float_of_number x); reflexivity.
Qed.

(** C3, as amended.  The patch is an object of the declared types.  When the
    cart holds an item whose name is the patch's trimmed name, case ignored,
    the first such item being the target, a patch with description "none"
    and price 0 does this: with quantity 0 it leaves the whole session as it
    is; with a positive quantity it sets the quantity of the target and
    changes no other field of it, no other object, neither the cart's list
    nor the output.  Both programs, whatever [str.strip] and [str.lower] do
    to text that is not ASCII. *)
Theorem modify_item_quantity_only (patch : ItemToPurchase) target s :
  first_match (objects s) (Str.strip (item_name patch)) (cart_items (cart s)) target ->
  item_description patch = "none" ->
  item_price patch = 0%float ->
  (item_quantity patch = 0 ->
     Module8.modify_item patch s = (Returned tt, s)
     /\ Module6.modify_item patch s = (Returned tt, s))
  /\ (0 < item_quantity patch ->
      exists s1,
        Module8.modify_item patch s = (Returned tt, s1)
        /\ Module6.modify_item patch s = (Returned tt, s1)
        /\ same_but target (set_item_quantity (item_quantity patch) (objects s target)) s s1).
Proof.
  intros Hfirst Hd Hp. apply find_target_first_match in Hfirst.
  destruct (modify_item_typed_found patch target s Hfirst) as (s1 & Hsame & Hrun).
  rewrite modify_item_typed.
  unfold patch_description, patch_price, patch_quantity in Hsame, Hrun.
  cbn [as_given given_description given_price given_quantity is_zero] in Hsame, Hrun.
  rewrite Hd, Hp in Hsame, Hrun.
  change (PrimFloat.eqb 0 0) with true in Hsame, Hrun.
  cbn [String.eqb Ascii.eqb Bool.eqb] in Hsame, Hrun.
  split.
  - intros Hq.
    assert (E : Module8.modify_item patch s = (Returned tt, s)); [|now split].
    unfold Module8.modify_item.
    cbn [as_given given_name given_description given_price given_quantity is_zero].
    unfold bind at 1, get at 1. cbn iota beta. rewrite Hfirst, Hd, Hp, Hq. reflexivity.
  - intros Hq. exists s1.
    assert (E0 : (item_quantity patch =? 0) = false) by (apply Z.eqb_neq; lia).
    assert (E1 : (item_quantity patch <? 0) = false) by (apply Z.ltb_ge; lia).
    rewrite E0 in Hsame, Hrun. unfold update_run, update_quantity in Hsame, Hrun.
    cbn [text_ok price_ok negb with_name with_description with_price] in Hsame, Hrun.
    rewrite E1 in Hsame, Hrun. cbn [fst snd reported] in Hsame, Hrun. auto.
Qed.

(** X3.  When no item of the cart has the patch's trimmed name, case
    ignored, [modify_item] prints that nothing was modified, returns, and
    leaves the items, the cart and the references as they were, whatever the
    types of the patch's price and quantity.  Both programs. *)
Theorem modify_item_not_found_is_noop (patch : Given) s :
  no_match (objects s) (Str.strip (given_name patch)) (cart_items (cart s)) ->
  Module8.modify_item patch s
  = (Returned tt, printed ["Item not found in cart. Nothing modified."] s)
  /\ Module6.modify_item patch s
  = (Returned tt, printed ["Item not found in cart. Nothing modified."] s).
Proof. apply modify_item_absent. Qed.

(** X4.  The price and the quantity of the patch are of either kind, [int]
    or float.  When the name is found, [int] converts the quantity the patch
    passes on, and every field passed on is valid, the price being one that
    [float] converts to a float not below zero, [modify_item] returns
    without printing and the first match holds the patch's non-sentinel
    description, its price as a float and its quantity as an [int], its name
    kept; no other object, the cart and the output are untouched.  Both
    programs. *)
Theorem modify_item_applies_patch (patch : Given) quantity target s :
  first_match (objects s) (Str.strip (given_name patch)) (cart_items (cart s)) target ->
  as_int (patch_quantity patch) = Returned quantity ->
  text_ok (patch_description patch) && price_ok (patch_price patch)
    && quantity_ok quantity = true ->
  exists s1,
    Module8.modify_item patch s = (Returned tt, s1)
    /\ Module6.modify_item patch s = (Returned tt, s1)
    /\ same_but target
         (with_quantity quantity
            (with_price (patch_price patch)
               (with_description (patch_description patch) (objects s target))))
         s s1.
Proof.
  intros Hfirst Hq Hok. apply find_target_first_match in Hfirst.
  destruct (modify_item_found_int patch quantity target s Hfirst Hq) as (s1 & Hsame & Hrun).
  rewrite (update_run_valid _ None _ _ _ _ Hok) in Hsame, Hrun.
  cbn [fst snd with_name reported] in *.
  exists s1. rewrite modify_item_converts; [auto|].
  apply price_ok_converts.
  destruct (text_ok (patch_description patch)), (price_ok (patch_price patch));
    try discriminate; reflexivity.
Qed.

(** X5.  What [modify_item] can raise.  With a patch of the declared types,
    a float price and an [int] quantity, it returns: a rejected field is
    reported by a printed line.  With a price or a quantity of another kind
    the final program still returns unless the quantity is an infinite
    float, whose [int] raises [OverflowError] past the handler; the first
    program raises that too, and [OverflowError] for an [int] price beyond
    the floats.  Either way, in both programs, the call hands out no
    reference, leaves the cart's list, name and date alone, and touches no
    object outside the cart. *)
Theorem modify_item_raises_only_overflow :
  (forall (patch : ItemToPurchase) s,
     fst (Module8.modify_item patch s) = Returned tt
     /\ fst (Module6.modify_item patch s) = Returned tt)
  /\ forall (patch : Given) s,
       (fst (Module8.modify_item patch s) = Returned tt
        \/ fst (Module8.modify_item patch s) = Raised infinite_int)
       /\ (fst (Module6.modify_item patch s) = Returned tt
           \/ fst (Module6.modify_item patch s) = Raised infinite_int
           \/ fst (Module6.modify_item patch s) = Raised too_large)
       /\ next_ref (snd (Module8.modify_item patch s)) = next_ref s
       /\ cart (snd (Module8.modify_item patch s)) = cart s
       /\ next_ref (snd (Module6.modify_item patch s)) = next_ref s
       /\ cart (snd (Module6.modify_item patch s)) = cart s
       /\ forall r, ~ In r (cart_items (cart s)) ->
                    objects (snd (Module8.modify_item patch s)) r = objects s r
                    /\ objects (snd (Module6.modify_item patch s)) r = objects s r.
Proof.
  split.
  - intros patch s. rewrite modify_item_typed. split; apply modify_item_returns.
  - intros patch s.
    destruct (modify_item_frame patch s) as (N8 & C8 & O8).
    destruct (modify_item_first_frame patch s) as (N6 & C6 & O6).
    split; [apply modify_item_outcome|]. split; [apply modify_item_first_outcome|].
    repeat split; auto.
Qed.

End Modify.

Lemma modify_item_rejection_witness :
  first_match (objects pencil_and_pen) (Str.strip "PEN ")
    (cart_items (cart pencil_and_pen)) 1%nat
  /\ text_ok (patch_description (mkItem "PEN " (-1)%float 0 "green"))
      && price_ok (patch_price (mkItem "PEN " (-1)%float 0 "green"))
      && quantity_ok (patch_quantity (mkItem "PEN " (-1)%float 0 "green")) = false
  /\ exists msg s1,
       Module8.modify_item (mkItem "PEN " (-1)%float 0 "green") pencil_and_pen
         = (Returned tt, printed ["Modification rejected: " ++ msg] s1)
       /\ Module6.modify_item (mkItem "PEN " (-1)%float 0 "green") pencil_and_pen
         = (Returned tt, printed ["Modification rejected: " ++ msg] s1)
       /\ same_but 1%nat (mkItem "Pen" 2.5%float 4 "green") pencil_and_pen s1
       /\ item_name (mkItem "Pen" 2.5%float 4 "green") = "Pen"
       /\ item_quantity (mkItem "Pen" 2.5%float 4 "green") = 4.
Proof.
  assert (H1 : first_match (objects pencil_and_pen) (Str.strip "PEN ")
                 (cart_items (cart pencil_and_pen)) 1%nat).
  { exists [0%nat], []. repeat split. repeat constructor. }
  split; [exact H1|]. split; [reflexivity|].
  exact (modify_item_rejection (mkItem "PEN " (-1)%float 0 "green") 1%nat
           pencil_and_pen H1 eq_refl).
Defined.

(** C2 as stated fails: a patch for the pen with the description "green" and
    the price -1 is rejected for its price after the description of the pen
    was replaced. *)
Lemma modify_item_not_atomic :
  let patch := mkItem "pen" (-1)%float 0 "green" in
  let after := snd (Module8.modify_item patch pencil_and_pen) in
  name_is (objects pencil_and_pen) (item_name patch) 1%nat = true
  /\ price_ok (patch_price patch) = false
  /\ fst (Module8.modify_item patch pencil_and_pen) = Returned tt
  /\ stdout after = ["Modification rejected: Item price cannot be negative."]
  /\ objects pencil_and_pen 1%nat = mkItem "Pen" 2.5%float 4 "blue"
  /\ objects after 1%nat = mkItem "Pen" 2.5%float 4 "green"
  /\ Module6.modify_item patch pencil_and_pen = Module8.modify_item patch pencil_and_pen.
Proof.
  cbv zeta. repeat split; reflexivity.
Qed.

(** A patch with quantity 0 and a patch with quantity 7, both for the
    pencil. *)
Lemma modify_item_quantity_only_witness :
  first_match (objects pencil_and_pen) (Str.strip " PENCIL")
    (cart_items (cart pencil_and_pen)) 0%nat
  /\ (Module8.modify_item (mkItem " PENCIL" 0%float 0 "none") pencil_and_pen
        = (Returned tt, pencil_and_pen)
      /\ Module6.modify_item (mkItem " PENCIL" 0%float 0 "none") pencil_and_pen
        = (Returned tt, pencil_and_pen))
  /\ exists s1,
       Module8.modify_item (mkItem " PENCIL" 0%float 7 "none") pencil_and_pen
         = (Returned tt, s1)
       /\ Module6.modify_item (mkItem " PENCIL" 0%float 7 "none") pencil_and_pen
         = (Returned tt, s1)
       /\ same_but 0%nat (mkItem "Pencil" 1%float 7 "wooden") pencil_and_pen s1.
Proof.
  assert (H1 : first_match (objects pencil_and_pen) (Str.strip " PENCIL")
                 (cart_items (cart pencil_and_pen)) 0%nat).
  { exists [], [1%nat]. repeat split. constructor. }
  split; [exact H1|]. split.
  - exact (proj1 (modify_item_quantity_only (mkItem " PENCIL" 0%float 0 "none") 0%nat
                    pencil_and_pen H1 eq_refl eq_refl) eq_refl).
  - exact (proj2 (modify_item_quantity_only (mkItem " PENCIL" 0%float 7 "none") 0%nat
                    pencil_and_pen H1 eq_refl eq_refl) eq_refl).
Defined.

(** C3 as stated fails: the cart holds an item named " a", the patch carries
    that very name and the quantity 5, and [modify_item] reports that the
    item is not in the cart, since it searches for the trimmed name "a". *)
Lemma modify_item_misses_untrimmed_name :
  let patch := mkItem " a" 0%float 5 "none" in
  let after := snd (Module8.modify_item patch spaced_name) in
  cart_items (cart spaced_name) = [0%nat]
  /\ item_name (objects spaced_name 0%nat) = item_name patch
  /\ name_is (objects spaced_name) (item_name patch) 0%nat = true
  /\ fst (Module8.modify_item patch spaced_name) = Returned tt
  /\ stdout after = ["Item not found in cart. Nothing modified."]
  /\ item_quantity (objects after 0%nat) = 2
  /\ Module6.modify_item patch spaced_name = Module8.modify_item patch spaced_name.
Proof.
  cbv zeta. repeat split; reflexivity.
Qed.

Lemma modify_item_not_found_is_noop_witness :
  no_match (objects pencil_and_pen)
    (Str.strip (given_name (mkGiven "Ink" (Int 0) (Float infinity) "none")))
    (cart_items (cart pencil_and_pen))
  /\ Module8.modify_item (mkGiven "Ink" (Int 0) (Float infinity) "none") pencil_and_pen
     = (Returned tt, printed ["Item not found in cart. Nothing modified."] pencil_and_pen).
Proof.
  assert (H : no_match (objects pencil_and_pen)
                (Str.strip (given_name (mkGiven "Ink" (Int 0) (Float infinity) "none")))
                (cart_items (cart pencil_and_pen))).
  { repeat constructor. }
  split; [exact H|].
  exact (proj1 (modify_item_not_found_is_noop
                  (mkGiven "Ink" (Int 0) (Float infinity) "none") pencil_and_pen H)).
Defined.

(** A patch with the [int] price 3 and the float quantity 5.0. *)
Lemma modify_item_applies_patch_witness :
  first_match (objects pencil_and_pen)
    (Str.strip (given_name (mkGiven " PEN" (Int 3) (Float 5) "green")))
    (cart_items (cart pencil_and_pen)) 1%nat
  /\ as_int (patch_quantity (mkGiven " PEN" (Int 3) (Float 5) "green"))
     = Returned (Some (Int 5))
  /\ text_ok (patch_description (mkGiven " PEN" (Int 3) (Float 5) "green"))
      && price_ok (patch_price (mkGiven " PEN" (Int 3) (Float 5) "green"))
      && quantity_ok (Some (Int 5)) = true
  /\ exists s1,
       Module8.modify_item (mkGiven " PEN" (Int 3) (Float 5) "green") pencil_and_pen
         = (Returned tt, s1)
       /\ Module6.modify_item (mkGiven " PEN" (Int 3) (Float 5) "green") pencil_and_pen
         = (Returned tt, s1)
       /\ same_but 1%nat (mkItem "Pen" 3%float 5 "green") pencil_and_pen s1.
Proof.
  assert (H : first_match (objects pencil_and_pen)
                (Str.strip (given_name (mkGiven " PEN" (Int 3) (Float 5) "green")))
                (cart_items (cart pencil_and_pen)) 1%nat).
  { exists [0%nat], []. repeat split. repeat constructor. }
  split; [exact H|]. split; [reflexivity|]. split; [reflexivity|].
  exact (modify_item_applies_patch (mkGiven " PEN" (Int 3) (Float 5) "green")
           (Some (Int 5)) 1%nat pencil_and_pen H eq_refl eq_refl).
Defined.

(** The exceptions of X5 do occur: an infinite quantity in both programs, an
    [int] price of 400 digits in the first program, which the final program
    reports as a rejection. *)
Example modify_item_overflow_samples :
  fst (Module8.modify_item (mkGiven "pen" (Int 0) (Float infinity) "none") pencil_and_pen)
  = Raised infinite_int
  /\ fst (Module6.modify_item (mkGiven "pen" (Int 0) (Float infinity) "none")
            pencil_and_pen)
     = Raised infinite_int
  /\ fst (Module6.modify_item (mkGiven "pen" (Int (10 ^ 400)) (Int 0) "none")
            pencil_and_pen)
     = Raised too_large
  /\ fst (Module8.modify_item (mkGiven "pen" (Int (10 ^ 400)) (Int 0) "none")
            pencil_and_pen)
     = Returned tt
  /\ stdout (snd (Module8.modify_item (mkGiven "pen" (Int (10 ^ 400)) (Int 0) "none")
                    pencil_and_pen))
     = ["Modification rejected: Item price must be a number."].
Proof.
  repeat split; vm_compute; reflexivity.
Qed.

(** ** ShoppingCart.get_num_items_in_cart *)

Lemma fold_left_clamped objs items acc :
  fold_left (fun a it => a + Z.max 0 (item_quantity (objs it))) items acc
  = acc + sum_clamped_quantities objs items.
Proof.
  revert acc. induction items as [|r items IH]; intros acc; cbn [fold_left sum_clamped_quantities].
  - lia.
  - rewrite IH. lia.
Qed.

Lemma get_num_items_in_cart_closed s :
  get_num_items_in_cart s = sum_clamped_quantities (objects s) (cart_items (cart s)).
Proof. unfold get_num_items_in_cart. now rewrite fold_left_clamped. Qed.

(** C6.  [get_num_items_in_cart] is the sum over the cart's entries of the
    quantity clamped below at zero; a cart of two entries with quantities 5
    and 3 reports 8, not 2. *)
Theorem get_num_items_in_cart_sum :
  (forall s, get_num_items_in_cart s
             = sum_clamped_quantities (objects s) (cart_items (cart s)))
  /\ get_num_items_in_cart five_and_three = 8
  /\ List.length (cart_items (cart five_and_three)) = 2%nat
  /\ get_num_items_in_cart nothing_to_buy = 0.
Proof.
  split; [exact get_num_items_in_cart_closed | repeat split; reflexivity].
Qed.

Lemma sum_clamped_nonneg objs items : 0 <= sum_clamped_quantities objs items.
Proof. induction items as [|r items IH]; cbn [sum_clamped_quantities]; lia. Qed.

Lemma sum_clamped_app objs l1 l2 :
  sum_clamped_quantities objs (l1 ++ l2)
  = sum_clamped_quantities objs l1 + sum_clamped_quantities objs l2.
Proof. induction l1 as [|r l1 IH]; simpl; rewrite ?IH; lia. Qed.

(** X6.  The item count is never negative, and [add_item] raises it by the
    added item's quantity clamped below at zero: adding an item with a
    negative quantity leaves the count as it was. *)
Theorem item_count_after_add_item r s :
  0 <= get_num_items_in_cart s
  /\ get_num_items_in_cart (snd (add_item r s))
     = get_num_items_in_cart s + Z.max 0 (item_quantity (objects s r)).
Proof.
  rewrite !get_num_items_in_cart_closed. split; [apply sum_clamped_nonneg|].
  unfold add_item, modify, set_cart_items. cbn [snd cart cart_items objects].
  rewrite sum_clamped_app. cbn [sum_clamped_quantities]. lia.
Qed.

(** ** ShoppingCart.remove_item *)

Lemma del_index_app {A} (done : list A) x rest :
  del_index (List.length done) (done ++ x :: rest) = (done ++ rest)%list.
Proof.
  unfold del_index.
  rewrite firstn_app, firstn_all, Nat.sub_diag. cbn [firstn].
  rewrite app_nil_r.
  replace (S (List.length done)) with (List.length (done ++ [x])%list)
    by (rewrite length_app; cbn; lia).
  replace (done ++ x :: rest)%list with ((done ++ [x]) ++ rest)%list
    by (now rewrite <- app_assoc).
  rewrite skipn_app, skipn_all, Nat.sub_diag. reflexivity.
Qed.

Section Remove.

Context {text : Str.Methods}.

Lemma remove_item_loop_step key i r rest s :
  remove_item_loop key i (r :: rest) s =
    if String.eqb (Str.lower (item_name (objects s r))) key
    then (Returned tt, set_cart_items (del_index i (cart_items (cart s))) s)
    else remove_item_loop key (S i) rest s.
Proof.
  cbn [remove_item_loop]. unfold bind, get.
  now destruct (String.eqb (Str.lower (item_name (objects s r))) key).
Qed.

(** The loop, started at index [length done] with [rest] still to visit. *)
Lemma remove_item_loop_run key s rest :
  forall done, cart_items (cart s) = (done ++ rest)%list ->
  (exists before target after,
      rest = (before ++ target :: after)%list
      /\ String.eqb (Str.lower (item_name (objects s target))) key = true
      /\ Forall (fun r => String.eqb (Str.lower (item_name (objects s r))) key = false)
           before
      /\ remove_item_loop key (List.length done) rest s
         = (Returned tt, set_cart_items (done ++ before ++ after) s))
  \/ (Forall (fun r => String.eqb (Str.lower (item_name (objects s r))) key = false) rest
      /\ remove_item_loop key (List.length done) rest s
         = (Returned tt, printed ["Item not found in cart. Nothing removed."] s)).
Proof.
  induction rest as [|r rest IH]; intros done Hitems.
  - right. split; [constructor | reflexivity].
  - rewrite !remove_item_loop_step.
    destruct (String.eqb (Str.lower (item_name (objects s r))) key) eqn:E.
    + left. exists [], r, rest. repeat split; auto.
      rewrite Hitems, del_index_app. reflexivity.
    + assert (Hitems' : cart_items (cart s) = ((done ++ [r]) ++ rest)%list)
        by (now rewrite <- app_assoc).
      destruct (IH (done ++ [r])%list Hitems')
        as [(before & target & after & -> & Hm & Hb & Hrun) | (Hnone & Hrun)];
        rewrite length_app, Nat.add_comm in Hrun; cbn [List.length Nat.add] in Hrun.
      * left. exists (r :: before), target, after. repeat split; auto.
        rewrite Hrun, <- app_assoc. reflexivity.
      * right. split; auto.
Qed.

(** C5, as amended.  [remove_item] trims the given name and compares it with
    the stored names, case ignored.  Either the cart holds a first item with
    that name, and exactly this entry leaves the list, the entries before and
    after it staying in order; or no item has that name, and the session is
    as before but for one line of output that says so.  It returns in both
    cases, whatever [str.strip] and [str.lower] do to text that is not
    ASCII. *)
Theorem remove_item_first_match name s :
  (exists before target after,
      cart_items (cart s) = (before ++ target :: after)%list
      /\ name_is (objects s) (Str.strip name) target = true
      /\ no_match (objects s) (Str.strip name) before
      /\ remove_item name s = (Returned tt, set_cart_items (before ++ after) s))
  \/ (no_match (objects s) (Str.strip name) (cart_items (cart s))
      /\ remove_item name s
         = (Returned tt, printed ["Item not found in cart. Nothing removed."] s)).
Proof.
  unfold remove_item, no_match, name_is, Str.ci_equal. unfold bind at 1 2, get.
  destruct (remove_item_loop_run (Str.lower (Str.strip name)) s (cart_items (cart s)) []
              eq_refl)
    as [(before & target & after & Hitems & Hm & Hb & Hrun) | (Hnone & Hrun)].
  - left. exists before, target, after. auto.
  - right. auto.
Qed.

(** X7.  [remove_item] either removes one entry that has the trimmed name,
    case ignored, and lowers the item count by that entry's clamped quantity,
    the list being one shorter; or there is no such entry and the list and
    the count are as before.  This for any [str.strip] and [str.lower] of
    the class. *)
Theorem item_count_after_remove_item name s :
  (exists target,
      In target (cart_items (cart s))
      /\ name_is (objects s) (Str.strip name) target = true
      /\ get_num_items_in_cart (snd (remove_item name s))
         = get_num_items_in_cart s - Z.max 0 (item_quantity (objects s target))
      /\ S (List.length (cart_items (cart (snd (remove_item name s)))))
         = List.length (cart_items (cart s)))
  \/ (no_match (objects s) (Str.strip name) (cart_items (cart s))
      /\ get_num_items_in_cart (snd (remove_item name s)) = get_num_items_in_cart s
      /\ cart_items (cart (snd (remove_item name s))) = cart_items (cart s)).
Proof.
  rewrite !get_num_items_in_cart_closed.
  change (remove_item name s)
    with (remove_item_loop (Str.lower (Str.strip name)) 0 (cart_items (cart s)) s).
  destruct (remove_item_loop_run (Str.lower (Str.strip name)) s (cart_items (cart s)) []
              eq_refl)
    as [(before & target & after & Hitems & Hm & _ & Hrun) | (Hnone & Hrun)];
    cbn [List.length app] in Hrun; rewrite Hrun; cbn [snd].
  - left. exists target. rewrite Hitems. split; [apply in_elt|]. split; [exact Hm|].
    unfold set_cart_items. cbn [cart cart_items objects].
    rewrite !sum_clamped_app, !length_app. cbn [sum_clamped_quantities List.length].
    split; lia.
  - right. split; [exact Hnone|]. split; reflexivity.
Qed.

Lemma remove_item_loop_last key s before r :
  forall done,
  cart_items (cart s) = (done ++ before ++ [r])%list ->
  Forall (fun x => String.eqb (Str.lower (item_name (objects s x))) key = false) before ->
  String.eqb (Str.lower (item_name (objects s r))) key = true ->
  remove_item_loop key (List.length done) (before ++ [r]) s
  = (Returned tt, set_cart_items (done ++ before) s).
Proof.
  induction before as [|x before IH]; intros done Hitems Hb Hr; cbn [List.app].
  - rewrite remove_item_loop_step, Hr. cbn [List.app] in Hitems.
    rewrite Hitems, del_index_app, app_nil_r. reflexivity.
  - inversion Hb as [|? ? Hx Hb']; subst.
    rewrite remove_item_loop_step, Hx.
    specialize (IH (done ++ [x])%list).
    rewrite length_app, Nat.add_comm in IH. cbn [List.length Nat.add] in IH.
    rewrite IH; auto.
    + now rewrite <- app_assoc.
    + rewrite Hitems, <- app_assoc. reflexivity.
Qed.

(** X8.  [add_item] followed by [remove_item] of the added item's name is
    the identity on the session, output included, when no entry of the cart
    already has that name and the name is its own trimming, case ignored.
    Without the first condition an earlier entry would be the one
    removed.  This for any [str.strip] and [str.lower] of the class. *)
Theorem add_item_then_remove_item r s :
  no_match (objects s) (Str.strip (item_name (objects s r))) (cart_items (cart s)) ->
  Str.ci_equal (item_name (objects s r)) (Str.strip (item_name (objects s r))) = true ->
  (add_item r ;; remove_item (item_name (objects s r))) s = (Returned tt, s).
Proof.
  intros Hnone Hself. unfold bind. unfold add_item at 1, modify at 1.
  set (s1 := set_cart_items _ s).
  change (remove_item (item_name (objects s r)) s1)
    with (remove_item_loop (Str.lower (Str.strip (item_name (objects s r)))) 0
            (cart_items (cart s) ++ [r]) s1).
  rewrite (remove_item_loop_last _ s1 (cart_items (cart s)) r []); auto.
  subst s1. unfold set_cart_items. cbn. destruct s as [o n [cn cd items] out]. reflexivity.
Qed.

End Remove.

(** C5 as stated fails: no stored name equals " pencil" when only case is
    ignored, yet [remove_item(" pencil")] removes the pencil and prints
    nothing. *)
Lemma remove_item_trims_name :
  let after := snd (remove_item " pencil" pencil_and_pen) in
  forallb (fun r => negb (name_is (objects pencil_and_pen) " pencil" r))
    (cart_items (cart pencil_and_pen)) = true
  /\ cart_items (cart pencil_and_pen) = [0%nat; 1%nat]
  /\ fst (remove_item " pencil" pencil_and_pen) = Returned tt
  /\ cart_items (cart after) = [1%nat]
  /\ stdout after = [].
Proof.
  cbv zeta. repeat split; reflexivity.
Qed.

Lemma add_item_then_remove_item_witness :
  no_match (objects pencil_and_pen) (Str.strip (item_name (objects pencil_and_pen 2%nat)))
    (cart_items (cart pencil_and_pen))
  /\ Str.ci_equal (item_name (objects pencil_and_pen 2%nat))
       (Str.strip (item_name (objects pencil_and_pen 2%nat))) = true
  /\ (add_item 2%nat ;; remove_item "none") pencil_and_pen = (Returned tt, pencil_and_pen).
Proof.
  assert (H : no_match (objects pencil_and_pen)
                (Str.strip (item_name (objects pencil_and_pen 2%nat)))
                (cart_items (cart pencil_and_pen))).
  { repeat constructor. }
  split; [exact H|]. split; [reflexivity|].
  exact (add_item_then_remove_item 2%nat pencil_and_pen H eq_refl).
Defined.

(** ** ShoppingCart.print_total on a cart that counts no item *)

Lemma printed_printed a b s : printed b (printed a s) = printed (a ++ b)%list s.
Proof. unfold printed. cbn. now rewrite <- app_assoc. Qed.

(** C9.  When the clamped quantities sum to zero, [print_total] prints the
    header, the count and SHOPPING CART IS EMPTY, and nothing more, whatever
    the cart holds.  Both programs. *)
Theorem print_total_empty repr_float s :
  get_num_items_in_cart s = 0 ->
  let lines :=
    [customer_name (cart s) ++ "'s Shopping Cart - " ++ current_date (cart s);
     "Number of Items: 0";
     "SHOPPING CART IS EMPTY"] in
  Module8.print_total repr_float s = (Returned tt, printed lines s)
  /\ Module6.print_total s = (Returned tt, printed lines s).
Proof.
  intros Hzero. cbn zeta.
  unfold Module8.print_total, Module6.print_total, bind, get, pure_outcome.
  rewrite !print_run, Hzero. change (format_int 0) with (Returned (A := string) "0").
  cbn [Z.eqb]. rewrite !print_run, !printed_printed.
  split; reflexivity.
Qed.

Lemma print_total_empty_witness :
  get_num_items_in_cart nothing_to_buy = 0
  /\ cart_items (cart nothing_to_buy) = [0%nat; 1%nat]
  /\ Module8.print_total (fun _ => EmptyString) nothing_to_buy
     = (Returned tt,
        printed ["Ann's Shopping Cart - February 1, 2020"; "Number of Items: 0";
                 "SHOPPING CART IS EMPTY"] nothing_to_buy)
  /\ Module6.print_total nothing_to_buy
     = (Returned tt,
        printed ["Ann's Shopping Cart - February 1, 2020"; "Number of Items: 0";
                 "SHOPPING CART IS EMPTY"] nothing_to_buy).
Proof.
  split; [reflexivity|]. split; [reflexivity|].
  exact (print_total_empty (fun _ => EmptyString) nothing_to_buy eq_refl).
Defined.

(** ** The constructor and ShoppingCart.add_item *)

Section Constructor.

Context {text : Str.Methods}.

(** C10.  The constructor checks nothing: whatever the four values, the new
    object holds them as given.  [add_item] returns with the reference
    appended as the last entry and leaves every object and the output alone;
    constructing an item and adding it leaves the objects of the earlier
    entries as they were.  The range of price and quantity is checked by
    [update] only, which refuses the values the constructor took. *)
Theorem constructed_as_given_and_appended name price quantity description s :
  Forall (fun r => (r < next_ref s)%nat) (cart_items (cart s)) ->
  (forall item,
      add_item item s = (Returned tt, set_cart_items (cart_items (cart s) ++ [item])%list s))
  /\ (exists s1,
        (item <- new_ItemToPurchase name price quantity description ;; add_item item) s
          = (Returned tt, s1)
        /\ cart_items (cart s1) = (cart_items (cart s) ++ [next_ref s])%list
        /\ objects s1 (next_ref s) = mkItem name price quantity description
        /\ Forall (fun r => objects s1 r = objects s r) (cart_items (cart s))
        /\ stdout s1 = stdout s)
  /\ (price_ok (Some (Float price)) && quantity_ok (Some (Int quantity)) = false ->
      forall it, exists msg,
        fst (Module8.update None None (Some (Float price)) (Some (Int quantity)) it)
          = Raised (ValueError msg)
        /\ fst (Module6.update None None (Some (Float price)) (Some (Int quantity)) it)
          = Raised (ValueError msg)).
Proof.
  intros Hwf. split; [reflexivity|]. split.
  - eexists. split; [reflexivity|]. cbn. repeat split; auto using assign_same.
    eapply Forall_impl; [|exact Hwf]. cbn. intros r Hr.
    apply assign_other. lia.
  - intros Hbad it.
    destruct (update_run_invalid_final None None (Some (Float price))
                (Some (Int quantity)) it Hbad) as (msg & H8).
    exists msg.
    rewrite (update_converts None None (Some (Float price))) by reflexivity.
    rewrite update_closed_form, H8. now split.
Qed.

End Constructor.

Lemma constructed_as_given_and_appended_witness :
  Forall (fun r => (r < next_ref pencil_and_pen)%nat) (cart_items (cart pencil_and_pen))
  /\ exists s1,
       (item <- new_ItemToPurchase "Ink" (-1)%float (-2) "black" ;; add_item item)
         pencil_and_pen = (Returned tt, s1)
       /\ cart_items (cart s1) = [0%nat; 1%nat; 2%nat]
       /\ objects s1 2%nat = mkItem "Ink" (-1)%float (-2) "black"
       /\ Forall (fun r => objects s1 r = objects pencil_and_pen r) [0%nat; 1%nat]
       /\ stdout s1 = [].
Proof.
  assert (H : Forall (fun r => (r < next_ref pencil_and_pen)%nat)
                (cart_items (cart pencil_and_pen))).
  { repeat constructor. }
  split; [exact H|].
  exact (proj1 (proj2 (constructed_as_given_and_appended "Ink" (-1)%float (-2) "black"
                         pencil_and_pen H))).
Defined.

(** ** The range of price and quantity *)

(** C4 at a NaN price.  The pen has a price and a quantity in range.
    [update(price=nan)] returns, since [nan < 0] is false, and stores the
    NaN, for which [0 <= price] is false as well; so does [modify_item] with a
    patch whose price is NaN, and it prints nothing. *)
Lemma update_accepts_nan :
  let pen := mkItem "Pen" 2.5%float 4 "blue" in
  let patch := mkItem "pen" nan 0 "none" in
  item_in_range pen = true
  /\ Module8.update None None (Some (Float nan)) None pen
     = (Returned tt, set_item_price nan pen)
  /\ Module6.update None None (Some (Float nan)) None pen
     = (Returned tt, set_item_price nan pen)
  /\ item_in_range (set_item_price nan pen) = false
  /\ cart_in_range pencil_and_pen = true
  /\ fst (Module8.modify_item patch pencil_and_pen) = Returned tt
  /\ stdout (snd (Module8.modify_item patch pencil_and_pen)) = []
  /\ cart_in_range (snd (Module8.modify_item patch pencil_and_pen)) = false.
Proof.
  cbv zeta. repeat split; reflexivity.
Qed.

(** A converted [int] is not a NaN. *)
Lemma float_of_int_not_nan z f : float_of_int z = Returned f -> PrimFloat.eqb f f = true.
Proof.
  intros Hf. rewrite FloatAxioms.eqb_spec. destruct (Z.eq_dec z 0) as [->|Hz].
  - rewrite float_of_int_zero in Hf. now replace f with 0%float by congruence.
  - destruct (float_of_int_finite z f Hz Hf) as (m & e & ->).
    unfold SFeqb, SFcompare. rewrite Z.compare_refl, Pos.compare_cont_refl.
    now destruct (z <? 0).
Qed.

(** The range itself, with [0 <= price], is the weaker form together with a
    price that is not a NaN. *)
Lemma item_in_range_split it :
  item_in_range it
  = item_not_negative it && PrimFloat.eqb (item_price it) (item_price it).
Proof.
  unfold item_in_range, item_not_negative.
  rewrite leb_spec, ltb_spec, FloatAxioms.eqb_spec, Prim2SF_zero.
  destruct (0 <=? item_quantity it); rewrite ?andb_false_r; cbn [andb]; [|reflexivity].
  destruct (Prim2SF (item_price it)) as [s|[]| |[] m e]; try reflexivity.
  all: unfold SFeqb, SFcompare; rewrite Z.compare_refl, Pos.compare_cont_refl; reflexivity.
Qed.

Section Range.

Context {text : Str.Methods}.

(** In general the range is kept in this weaker form: no call of [update],
    returning or raising, leaves a price or a quantity below zero. *)
Lemma update_run_keeps_not_negative price_error name description price quantity it :
  item_not_negative it = true ->
  item_not_negative (snd (update_run price_error name description price quantity it))
  = true.
Proof.
  intros H. unfold update_run.
  assert (Hn : item_not_negative (with_name name it) = true)
    by (destruct name; exact H).
  assert (Hd : item_not_negative (with_description description (with_name name it)) = true)
    by (destruct description; exact Hn).
  destruct (text_ok name); cbn [negb snd]; [|exact H].
  destruct (text_ok description); cbn [negb snd]; [|exact Hn].
  cbn zeta. set (it2 := with_description description (with_name name it)) in *.
  assert (Hq : forall it3, item_not_negative it3 = true ->
                 item_not_negative (snd (update_quantity quantity it3)) = true).
  { intros it3 H3. unfold update_quantity.
    destruct quantity as [[q|f]|]; cbn [snd]; try exact H3.
    destruct (Z.ltb_spec q 0); cbn [snd]; [exact H3|].
    unfold item_not_negative in *. cbn [set_item_quantity item_price item_quantity].
    apply andb_true_iff in H3 as [Hp3 _]. rewrite Hp3. apply Z.leb_le. lia. }
  destruct price as [x|]; [|now apply Hq].
  destruct (price_ok (Some x)) eqn:Hp; [|exact Hd].
  apply Hq. unfold price_ok, with_price in *.
  destruct (float_of_number x) as [f|e]; [|discriminate].
  unfold item_not_negative in *. cbn [set_item_price item_price item_quantity].
  apply andb_true_iff in Hd as [_ Hq']. now rewrite Hp, Hq'.
Qed.

Lemma update_keeps_not_negative name description price quantity it :
  item_not_negative it = true ->
  item_not_negative (snd (Module8.update name description price quantity it)) = true
  /\ item_not_negative (snd (Module6.update name description price quantity it)) = true.
Proof.
  intros H. rewrite update_closed_form, update_first_closed_form.
  split; now apply update_run_keeps_not_negative.
Qed.

(** The object [modify_item] leaves behind its target is the one some call
    of [update] leaves. *)
Lemma patch_run_snd price_error patch it :
  exists quantity,
    snd (patch_run price_error patch it)
    = snd (update_run price_error None (patch_description patch) (patch_price patch)
             quantity it).
Proof.
  unfold patch_run. destruct (as_int (patch_quantity patch)) as [q|e]; [eauto|].
  exists None. now destruct (update_run _ _ _ _ _ _) as [[[]|e'] it'].
Qed.

(** What holds of every item of the cart and is kept by [update] is kept by
    [modify_item]. *)
Lemma modify_item_keeps (P : ItemToPurchase -> bool) patch s :
  (forall quantity it,
     P it = true ->
     P (snd (update_run price_error8 None (patch_description patch) (patch_price patch)
               quantity it)) = true) ->
  forallb (fun r => P (objects s r)) (cart_items (cart s)) = true ->
  forallb (fun r => P (objects (snd (Module8.modify_item patch s)) r))
    (cart_items (cart (snd (Module8.modify_item patch s)))) = true.
Proof.
  intros Hu H. rewrite forallb_forall in H.
  destruct (find_target (objects s) (patch_key patch) (cart_items (cart s)))
    as [target|] eqn:Hfind.
  - destruct (modify_item_found patch target s Hfind)
      as (s1 & (_ & Hc & _ & Ht & Hr) & Hrun).
    rewrite Hrun.
    destruct (reported_frame (fst (patch_run price_error8 patch (objects s target))) s1)
      as (-> & _ & ->).
    rewrite forallb_forall, Hc. intros r Hin.
    destruct (Nat.eq_dec r target) as [->|Hne].
    + rewrite Ht. destruct (patch_run_snd price_error8 patch (objects s target))
        as (q & ->).
      apply Hu, H. eapply find_target_In, Hfind.
    + rewrite Hr by exact Hne. auto.
  - rewrite (proj1 (modify_item_not_found patch s Hfind)). cbn. now apply forallb_forall.
Qed.

Lemma modify_item_first_keeps (P : ItemToPurchase -> bool) patch s :
  (forall quantity it,
     P it = true ->
     P (snd (update_run price_error6 None (patch_description patch) (patch_price patch)
               quantity it)) = true) ->
  forallb (fun r => P (objects s r)) (cart_items (cart s)) = true ->
  forallb (fun r => P (objects (snd (Module6.modify_item patch s)) r))
    (cart_items (cart (snd (Module6.modify_item patch s)))) = true.
Proof.
  intros Hu H. rewrite forallb_forall in H.
  destruct (find_target (objects s) (patch_key patch) (cart_items (cart s)))
    as [target|] eqn:Hfind.
  - destruct (modify_item_first_found patch target s Hfind)
      as (s1 & (_ & Hc & _ & Ht & Hr) & Hrun).
    rewrite Hrun.
    destruct (reported_frame (fst (patch_run price_error6 patch (objects s target))) s1)
      as (-> & _ & ->).
    rewrite forallb_forall, Hc. intros r Hin.
    destruct (Nat.eq_dec r target) as [->|Hne].
    + rewrite Ht. destruct (patch_run_snd price_error6 patch (objects s target))
        as (q & ->).
      apply Hu, H. eapply find_target_In, Hfind.
    + rewrite Hr by exact Hne. auto.
  - rewrite (proj2 (modify_item_not_found patch s Hfind)). cbn. now apply forallb_forall.
Qed.

(** [remove_item] and [add_item] keep whatever holds of every item of the
    cart, [add_item] when it holds of the added item too. *)
Lemma remove_item_keeps (P : ItemToPurchase -> bool) name s :
  forallb (fun r => P (objects s r)) (cart_items (cart s)) = true ->
  forallb (fun r => P (objects (snd (remove_item name s)) r))
    (cart_items (cart (snd (remove_item name s)))) = true.
Proof.
  intros H. rewrite forallb_forall in H.
  change (remove_item name s)
    with (remove_item_loop (Str.lower (Str.strip name)) 0 (cart_items (cart s)) s).
  destruct (remove_item_loop_run (Str.lower (Str.strip name)) s (cart_items (cart s)) []
              eq_refl)
    as [(before & target & after & Hitems & _ & _ & Hrun) | (_ & Hrun)];
    cbn [List.length app] in Hrun; rewrite Hrun; cbn; apply forallb_forall.
  - intros r Hin. apply H. rewrite Hitems.
    apply in_app_or in Hin as [Hin | Hin]; apply in_or_app; [now left | right; now right].
  - exact H.
Qed.

Lemma add_item_keeps (P : ItemToPurchase -> bool) r s :
  forallb (fun r => P (objects s r)) (cart_items (cart s)) = true ->
  P (objects s r) = true ->
  forallb (fun r => P (objects (snd (add_item r s)) r))
    (cart_items (cart (snd (add_item r s)))) = true.
Proof.
  intros H Hr. rewrite forallb_forall in H. cbn. apply forallb_forall.
  intros r' Hin. apply in_app_or in Hin as [Hin | [<- | []]]; auto.
Qed.

(** No cart operation leaves a price or a quantity below zero in the cart:
    [modify_item] and [remove_item] on a cart without one, [add_item] of an
    item without one.  The patch of [modify_item] is any object, its price
    and quantity of either kind. *)
Lemma cart_not_negative_preserved s :
  cart_not_negative s = true ->
  (forall patch : Given,
     cart_not_negative (snd (Module8.modify_item patch s)) = true
     /\ cart_not_negative (snd (Module6.modify_item patch s)) = true)
  /\ (forall name, cart_not_negative (snd (remove_item name s)) = true)
  /\ (forall r, item_not_negative (objects s r) = true ->
                cart_not_negative (snd (add_item r s)) = true).
Proof.
  unfold cart_not_negative. intros H.
  split; [|split].
  - intros patch. split.
    + apply modify_item_keeps; [|exact H].
      intros q it. apply update_run_keeps_not_negative.
    + apply modify_item_first_keeps; [|exact H].
      intros q it. apply update_run_keeps_not_negative.
  - intros name. now apply remove_item_keeps.
  - intros r Hr. now apply add_item_keeps.
Qed.

(** [update] and [modify_item] keep the range whenever the price they are
    given is not a NaN. *)
Lemma update_run_price_cases price_error name description price quantity it :
  item_price (snd (update_run price_error name description price quantity it))
  = item_price it
  \/ exists x,
       price = Some x
       /\ float_of_number x
          = Returned (item_price
                        (snd (update_run price_error name description price quantity it))).
Proof.
  unfold update_run.
  assert (H2 : item_price (with_description description (with_name name it)) = item_price it)
    by (destruct name, description; reflexivity).
  destruct (text_ok name); cbn [negb snd]; [|now left].
  destruct (text_ok description); cbn [negb snd];
    [|left; destruct name; reflexivity].
  cbn zeta. set (it2 := with_description description (with_name name it)) in *.
  assert (Hq : forall it3,
            item_price (snd (update_quantity quantity it3)) = item_price it3).
  { intros it3. unfold update_quantity.
    destruct quantity as [[q|f]|]; try reflexivity. now destruct (q <? 0). }
  destruct price as [x|]; [|left; now rewrite Hq].
  destruct (price_ok (Some x)) eqn:Hp; [|now left].
  rewrite Hq. unfold price_ok, with_price in *.
  destruct (float_of_number x) as [f|e] eqn:Ef; [|discriminate].
  right. exists x. split; [reflexivity|]. now rewrite Ef.
Qed.

Lemma update_run_keeps_in_range price_error name description price quantity it :
  item_in_range it = true ->
  (forall p, price = Some (Float p) -> PrimFloat.eqb p p = true) ->
  item_in_range (snd (update_run price_error name description price quantity it)) = true.
Proof.
  rewrite !item_in_range_split. intros H Hp. apply andb_true_iff in H as [Hn He].
  rewrite (update_run_keeps_not_negative _ _ _ _ _ _ Hn). cbn [andb].
  destruct (update_run_price_cases price_error name description price quantity it)
    as [E | (x & -> & E)].
  - now rewrite E.
  - destruct x as [z|p]; cbn [float_of_number] in E.
    + now apply (float_of_int_not_nan z).
    + replace (item_price _) with p by congruence. now apply Hp.
Qed.

Lemma update_keeps_in_range name description price quantity it :
  item_in_range it = true ->
  (forall p, price = Some (Float p) -> PrimFloat.eqb p p = true) ->
  item_in_range (snd (Module8.update name description price quantity it)) = true
  /\ item_in_range (snd (Module6.update name description price quantity it)) = true.
Proof.
  intros H Hp. rewrite update_closed_form, update_first_closed_form.
  split; now apply update_run_keeps_in_range.
Qed.

Lemma modify_item_keeps_in_range (patch : Given) s :
  cart_in_range s = true ->
  (forall p, given_price patch = Float p -> PrimFloat.eqb p p = true) ->
  cart_in_range (snd (Module8.modify_item patch s)) = true
  /\ cart_in_range (snd (Module6.modify_item patch s)) = true.
Proof.
  unfold cart_in_range. intros H Hp.
  assert (Hp' : forall p, patch_price patch = Some (Float p) -> PrimFloat.eqb p p = true).
  { unfold patch_price. intros p. destruct (is_zero (given_price patch)); [discriminate|].
    intros [= E]. now apply Hp. }
  split.
  - apply modify_item_keeps; [|exact H].
    intros q it Hit. now apply update_run_keeps_in_range.
  - apply modify_item_first_keeps; [|exact H].
    intros q it Hit. now apply update_run_keeps_in_range.
Qed.

End Range.

(** ** ItemToPurchase.total_cost *)

Lemma eqb_infinity p :
  PrimFloat.eqb p infinity = true -> Prim2SF p = S754_infinity false.
Proof.
  rewrite FloatAxioms.eqb_spec. change (Prim2SF infinity) with (S754_infinity false).
  destruct (Prim2SF p) as [s|[]| |s m e]; cbn; try discriminate; reflexivity.
Qed.

(** The product of a price that is zero, positive or +infinity and a
    converted quantity that is zero or positive, the price being finite when
    the quantity is zero, is at least zero. *)
Lemma mul_not_below_zero p fq :
  match Prim2SF p, Prim2SF fq with
  | (S754_zero _ | S754_finite false _ _), (S754_zero false | S754_finite false _ _) => True
  | S754_infinity false, S754_finite false _ _ => True
  | _, _ => False
  end ->
  PrimFloat.leb 0 (p * fq) = true.
Proof.
  intros C. rewrite leb_spec, mul_spec, Prim2SF_zero.
  destruct (Prim2SF p) as [s|[]| |[] m e]; try contradiction;
    destruct (Prim2SF fq) as [[]|[]| |[] m' e']; try contradiction; try reflexivity.
  unfold SF64mul, SFmul. cbn [xorb].
  pose proof (binary_round_aux_signed false (Z.pos (m * m')) (e + e') loc_Exact
                (Pos2Z.is_nonneg _)) as Hs.
  destruct (binary_round_aux prec emax false (Z.pos (m * m')) (e + e') loc_Exact)
    as [s|s| |s m2 e2]; cbn [sf_signed] in Hs; try contradiction; subst; reflexivity.
Qed.

(** The clamped price and the converted clamped quantity of an item whose
    price is +infinity only with a positive quantity. *)
Lemma total_cost_factors it fq :
  (PrimFloat.eqb (item_price it) infinity = true -> 0 < item_quantity it) ->
  float_of_int (Z.max 0 (item_quantity it)) = Returned fq ->
  match Prim2SF (if PrimFloat.leb 0 (item_price it) then item_price it else 0%float),
        Prim2SF fq with
  | (S754_zero _ | S754_finite false _ _), (S754_zero false | S754_finite false _ _) => True
  | S754_infinity false, S754_finite false _ _ => True
  | _, _ => False
  end.
Proof.
  intros Hinf Hfq.
  pose proof (float_of_int_class _ fq (Z.le_max_l 0 _) Hfq) as Cq.
  destruct (PrimFloat.leb 0 (item_price it)) eqn:E.
  - pose proof (leb_zero_class _ E) as C.
    destruct (PrimFloat.eqb (item_price it) infinity) eqn:Ei.
    + rewrite (eqb_infinity _ Ei). specialize (Hinf eq_refl).
      rewrite Z.max_r in Hfq by lia.
      destruct (float_of_int_positive _ _ Hinf Hfq) as (m & e & ->). exact I.
    + pose proof (Prim2SF_not_infinity _ Ei) as N.
      destruct (Prim2SF (item_price it)) as [s|[]| |[] m e]; try contradiction;
        try congruence;
        destruct (Prim2SF fq) as [[]|[]| |[] m' e']; try contradiction; exact I.
  - rewrite Prim2SF_zero.
    destruct (Prim2SF fq) as [[]|[]| |[] m' e']; try contradiction; exact I.
Qed.

(** C7, as amended.  For a price that is +infinity only with a positive
    quantity, and a quantity whose clamped value converts to a float [fq],
    [total_cost] returns the float product of the price and [fq], a price
    that is negative or NaN counting as 0.  When price and quantity are both
    non-negative this is price times quantity; when either is negative it is
    zero; it is never below zero. *)
Theorem total_cost_product it fq :
  (PrimFloat.eqb (item_price it) infinity = true -> 0 < item_quantity it) ->
  float_of_int (Z.max 0 (item_quantity it)) = Returned fq ->
  let price := if PrimFloat.leb 0 (item_price it) then item_price it else 0%float in
  total_cost it = Returned (PrimFloat.mul price fq)
  /\ (PrimFloat.leb 0 (item_price it) = true -> 0 <= item_quantity it ->
      total_cost it = mul_float_int (item_price it) (item_quantity it))
  /\ (PrimFloat.ltb (item_price it) 0 = true \/ item_quantity it < 0 ->
      PrimFloat.eqb (PrimFloat.mul price fq) 0 = true)
  /\ PrimFloat.leb 0 (PrimFloat.mul price fq) = true.
Proof.
  intros Hinf Hfq price.
  assert (Hrun : total_cost it = Returned (PrimFloat.mul price fq)).
  { unfold total_cost, mul_float_int. rewrite clamp_max, Hfq. reflexivity. }
  pose proof (total_cost_factors it fq Hinf Hfq) as C. fold price in C.
  split; [exact Hrun|]. split; [|split].
  - intros Hp Hq. unfold total_cost. rewrite Hp.
    destruct (Z.leb_spec 0 (item_quantity it)); [reflexivity | lia].
  - intros Hneg. rewrite FloatAxioms.eqb_spec, mul_spec, Prim2SF_zero.
    assert (Z0 : (exists s, Prim2SF price = S754_zero s) \/ Prim2SF fq = S754_zero false).
    { destruct Hneg as [Hp | Hq].
      - left. subst price. rewrite (ltb_zero_not_leb _ Hp). exists false. apply Prim2SF_zero.
      - right. rewrite Z.max_l in Hfq by lia. rewrite float_of_int_zero in Hfq.
        injection Hfq as <-. apply Prim2SF_zero. }
    destruct Z0 as [[s E] | E]; rewrite E in *.
    + destruct (Prim2SF fq) as [[]|[]| |[] m e]; try contradiction; reflexivity.
    + destruct (Prim2SF price) as [s|[]| |[] m e]; try contradiction; reflexivity.
  - now apply mul_not_below_zero.
Qed.

(** A pen at 2.5 in 4 pieces, and an item at +infinity in 3 pieces. *)
Lemma total_cost_product_witness :
  (PrimFloat.eqb (item_price (mkItem "Pen" 2.5%float 4 "blue")) infinity = false
   /\ float_of_int (Z.max 0 (item_quantity (mkItem "Pen" 2.5%float 4 "blue")))
      = Returned 4%float
   /\ total_cost (mkItem "Pen" 2.5%float 4 "blue") = Returned (2.5 * 4)%float
   /\ (2.5 * 4)%float = 10%float)
  /\ (PrimFloat.eqb (item_price (mkItem "Gold" infinity 3 "bar")) infinity = true
      /\ 0 < item_quantity (mkItem "Gold" infinity 3 "bar")
      /\ float_of_int (Z.max 0 (item_quantity (mkItem "Gold" infinity 3 "bar")))
         = Returned 3%float
      /\ total_cost (mkItem "Gold" infinity 3 "bar") = Returned (infinity * 3)%float
      /\ (infinity * 3)%float = infinity
      /\ PrimFloat.leb 0 (infinity * 3)%float = true).
Proof.
  split.
  - split; [reflexivity|]. split; [reflexivity|]. split; [|reflexivity].
    exact (proj1 (total_cost_product (mkItem "Pen" 2.5%float 4 "blue") 4%float
                    (fun _ => eq_refl) eq_refl)).
  - split; [reflexivity|]. split; [reflexivity|]. split; [reflexivity|].
    split; [|split; [reflexivity|]].
    + exact (proj1 (total_cost_product (mkItem "Gold" infinity 3 "bar") 3%float
                      (fun _ => eq_refl) eq_refl)).
    + exact (proj2 (proj2 (proj2 (total_cost_product (mkItem "Gold" infinity 3 "bar")
                                    3%float (fun _ => eq_refl) eq_refl)))).
Defined.

(** C7 as stated fails at an infinite price and at a quantity too large for a
    float: with price +infinity and quantity 0, both non-negative, the result
    is NaN, which is not at least 0; with price +infinity and quantity -1 the
    result is NaN, not 0; with quantity 10^400 the call raises
    [OverflowError] and has no result. *)
Lemma total_cost_not_always_a_product :
  PrimFloat.leb 0 infinity = true
  /\ total_cost (mkItem "x" infinity 0 "none") = Returned nan
  /\ PrimFloat.leb 0 nan = false
  /\ total_cost (mkItem "x" infinity (-1) "none") = Returned nan
  /\ PrimFloat.eqb nan 0 = false
  /\ total_cost (mkItem "x" 1%float (10 ^ 400) "none")
     = Raised (OverflowError "int too large to convert to float").
Proof.
  repeat split; vm_compute; reflexivity.
Qed.

(** ** ShoppingCart.get_cost_of_cart *)

Lemma total_cost_raises it e :
  total_cost it = Raised e -> e = too_large.
Proof.
  unfold total_cost, mul_float_int, float_of_int.
  destruct (Prim2SF _); intros [=]; auto.
Qed.

Lemma add_number_float_raises acc c e :
  add_number_float acc c = Raised e -> e = too_large.
Proof.
  unfold add_number_float, float_of_int. destruct acc as [z|f]; [|discriminate].
  destruct (Prim2SF _); intros [=]; auto.
Qed.

Lemma sum_costs_raises objs items :
  forall acc e, sum_costs objs acc items = Raised e ->
                e = too_large.
Proof.
  induction items as [|r items IH]; intros acc e; cbn [sum_costs]; [discriminate|].
  destruct (total_cost (objs r)) as [t|e'] eqn:Et.
  - destruct (add_number_float acc t) as [a|e''] eqn:Ea.
    + apply IH.
    + intros [= <-]. eapply add_number_float_raises, Ea.
  - intros [= <-]. eapply total_cost_raises, Et.
Qed.

Lemma add_number_float_returns acc t :
  acc = Int 0 \/ (exists f, acc = Float f) ->
  exists f, add_number_float acc t = Returned f.
Proof.
  intros [-> | [f ->]]; cbn [add_number_float]; [|eauto].
  rewrite float_of_int_zero. eauto.
Qed.

Lemma sum_costs_returns objs items :
  forall acc c, sum_costs objs acc items = Returned c ->
  Forall (fun r => exists t, total_cost (objs r) = Returned t) items
  /\ (items <> [] -> exists f, c = Float f).
Proof.
  induction items as [|r items IH]; intros acc c; cbn [sum_costs].
  - intros _. split; [constructor | congruence].
  - destruct (total_cost (objs r)) as [t|e] eqn:Et; [|discriminate].
    destruct (add_number_float acc t) as [acc'|e]; [|discriminate].
    intros H. destruct (IH _ _ H) as [Hall Hf]. split; [constructor; eauto|].
    intros _. destruct items as [|r' items'].
    + injection H as <-. eauto.
    + apply Hf. discriminate.
Qed.

Lemma sum_costs_cases objs items :
  forall acc, acc = Int 0 \/ (exists f, acc = Float f) ->
  (exists cost, sum_costs objs acc items = Returned cost)
  \/ (exists r e, In r items /\ total_cost (objs r) = Raised e
                  /\ sum_costs objs acc items = Raised e).
Proof.
  induction items as [|r items IH]; intros acc Hacc; cbn [sum_costs]; [eauto|].
  destruct (total_cost (objs r)) as [t|e] eqn:Et.
  - destruct (add_number_float_returns acc t Hacc) as [f ->].
    destruct (IH (Float f)) as [H | (r' & e & Hin & Hr & Hs)]; eauto.
    right. exists r', e. split; [now right | auto].
  - right. exists r, e. split; [now left | auto].
Qed.

(** X9.  [get_cost_of_cart] is the [int] 0 for a cart with no entry; it
    returns exactly when [total_cost] returns for every entry; and when it
    raises, the exception is the [OverflowError] of converting an [int] too
    large for a float, raised by [total_cost] of one of the entries. *)
Theorem get_cost_of_cart_outcome s :
  (cart_items (cart s) = [] -> get_cost_of_cart s = Returned (Int 0))
  /\ (Forall (fun r => exists t, total_cost (objects s r) = Returned t) (cart_items (cart s))
      <-> exists cost, get_cost_of_cart s = Returned cost)
  /\ (forall e, get_cost_of_cart s = Raised e ->
        e = OverflowError "int too large to convert to float"
        /\ exists r, In r (cart_items (cart s)) /\ total_cost (objects s r) = Raised e).
Proof.
  unfold get_cost_of_cart. split; [now intros ->|].
  destruct (sum_costs_cases (objects s) (cart_items (cart s)) (Int 0) (or_introl eq_refl))
    as [[cost Hc] | (r & e & Hin & Hr & Hs)].
  - rewrite Hc. split; [split; [eauto|]|discriminate].
    intros _. eapply sum_costs_returns, Hc.
  - rewrite Hs. split; [split|].
    + intros Hall. rewrite Forall_forall in Hall. destruct (Hall r Hin) as [t Ht]. congruence.
    + intros [cost Hc]. discriminate Hc.
    + intros e' [= <-]. split; [eapply total_cost_raises, Hr | eauto].
Qed.

Lemma leb_zero_iff x : PrimFloat.leb 0 x = true <-> sf_not_below_zero (Prim2SF x).
Proof.
  rewrite leb_spec, Prim2SF_zero. unfold sf_not_below_zero.
  destruct (Prim2SF x) as [s|[]| |[] m e]; cbn; intuition discriminate.
Qed.

Lemma SFadd_not_below_zero x y :
  sf_not_below_zero x -> sf_not_below_zero y -> sf_not_below_zero (SFadd prec emax x y).
Proof.
  destruct x as [sx|[]| |[] mx ex]; destruct y as [sy|[]| |[] my ey]; cbn; try tauto.
  - destruct sx, sy; tauto.
  - intros _ _.
    match goal with
    | |- sf_not_below_zero (binary_round _ _ false ?m ?e) =>
        pose proof (binary_round_signed false m e) as H;
        destruct (binary_round prec emax false m e) as [s|s| |s m2 e2]
    end; cbn [sf_signed] in H; try contradiction; subst; exact I.
Qed.

Lemma add_not_below_zero a b :
  PrimFloat.leb 0 a = true -> PrimFloat.leb 0 b = true -> PrimFloat.leb 0 (a + b) = true.
Proof.
  rewrite !leb_zero_iff, add_spec. apply SFadd_not_below_zero.
Qed.

Lemma sum_costs_not_below_zero objs items :
  forall acc,
  (acc = Int 0 \/ exists f, acc = Float f /\ PrimFloat.leb 0 f = true) ->
  Forall (fun r => exists t, total_cost (objs r) = Returned t /\ PrimFloat.leb 0 t = true)
    items ->
  exists cost, sum_costs objs acc items = Returned cost
               /\ (cost = Int 0 \/ exists f, cost = Float f /\ PrimFloat.leb 0 f = true).
Proof.
  induction items as [|r items IH]; intros acc Hacc Hall; cbn [sum_costs]; [eauto|].
  inversion Hall as [|? ? (t & Ht & Hpos) Hrest]; subst. rewrite Ht.
  destruct Hacc as [-> | (f & -> & Hf)]; cbn [add_number_float].
  - rewrite float_of_int_zero. apply IH; auto. right. eexists. split; [reflexivity|].
    now apply add_not_below_zero.
  - apply IH; auto. right. eexists. split; [reflexivity|]. now apply add_not_below_zero.
Qed.

Lemma total_cost_not_below_zero it fq :
  (PrimFloat.eqb (item_price it) infinity = true -> 0 < item_quantity it) ->
  float_of_int (Z.max 0 (item_quantity it)) = Returned fq ->
  exists t, total_cost it = Returned t /\ PrimFloat.leb 0 t = true.
Proof.
  intros Hinf Hfq. unfold total_cost, mul_float_int. rewrite clamp_max, Hfq.
  eexists. split; [reflexivity|]. apply mul_not_below_zero.
  now apply total_cost_factors.
Qed.

(** X10.  When no price in the cart is +infinity and every clamped quantity
    converts to a float, [get_cost_of_cart] returns, and the cost is the
    [int] 0 or a float that is at least zero (+infinity when the sum
    overflows), never NaN and never negative. *)
Theorem get_cost_of_cart_not_below_zero s :
  Forall (fun r =>
            PrimFloat.eqb (item_price (objects s r)) infinity = false
            /\ exists fq, float_of_int (Z.max 0 (item_quantity (objects s r))) = Returned fq)
    (cart_items (cart s)) ->
  exists cost,
    get_cost_of_cart s = Returned cost
    /\ (cost = Int 0 \/ exists f, cost = Float f /\ PrimFloat.leb 0 f = true).
Proof.
  intros Hall. apply sum_costs_not_below_zero; [now left|].
  eapply Forall_impl; [|exact Hall]. cbn. intros r (Hinf & fq & Hfq).
  apply (total_cost_not_below_zero (objects s r) fq); [|exact Hfq].
  intros Hi. congruence.
Qed.

Lemma get_cost_of_cart_not_below_zero_witness :
  Forall (fun r =>
            PrimFloat.eqb (item_price (objects pencil_and_pen r)) infinity = false
            /\ exists fq, float_of_int (Z.max 0 (item_quantity (objects pencil_and_pen r)))
                          = Returned fq)
    (cart_items (cart pencil_and_pen))
  /\ exists cost,
       get_cost_of_cart pencil_and_pen = Returned cost
       /\ (cost = Int 0 \/ exists f, cost = Float f /\ PrimFloat.leb 0 f = true).
Proof.
  assert (H : Forall (fun r =>
            PrimFloat.eqb (item_price (objects pencil_and_pen r)) infinity = false
            /\ exists fq, float_of_int (Z.max 0 (item_quantity (objects pencil_and_pen r)))
                          = Returned fq)
    (cart_items (cart pencil_and_pen))).
  { repeat constructor; eexists; reflexivity. }
  split; [exact H|].
  exact (get_cost_of_cart_not_below_zero pencil_and_pen H).
Defined.

(** ** Rendering of amounts *)

Lemma all_digits_string_of_uint d : all_digits (NilEmpty.string_of_uint d) = true.
Proof. induction d; cbn [NilEmpty.string_of_uint all_digits]; auto. Qed.

Lemma digits_string_of_uint d : digits (NilZero.string_of_uint d) = true.
Proof.
  destruct d; try reflexivity; cbn [NilZero.string_of_uint NilEmpty.string_of_uint digits];
    apply all_digits_string_of_uint.
Qed.

Lemma digits_of_int k : 0 <= k -> digits (Str.of_int k) = true.
Proof.
  intros H. unfold Str.of_int. destruct k as [|p|p]; try lia.
  - reflexivity.
  - cbn [Z.to_int NilZero.string_of_int]. apply digits_string_of_uint.
Qed.

Lemma unsigned_part_digit c r : is_digit c = true -> unsigned_part (String c r) = String c r.
Proof.
  destruct c as [[] [] [] [] [] [] [] []]; try discriminate; reflexivity.
Qed.

Lemma bare_integer_of_int n : bare_integer (Str.of_int n) = true.
Proof.
  unfold bare_integer. destruct n as [|p|p].
  - reflexivity.
  - pose proof (digits_of_int (Z.pos p) (Pos2Z.is_nonneg p)) as H.
    destruct (Str.of_int (Z.pos p)) as [|c r]; [discriminate|].
    cbn [digits] in H. apply andb_true_iff in H as [Hc Hr].
    rewrite unsigned_part_digit by exact Hc. cbn [digits]. now rewrite Hc, Hr.
  - unfold Str.of_int. cbn [Z.to_int NilZero.string_of_int unsigned_part].
    apply digits_string_of_uint.
Qed.

Lemma skip_digits_point a b :
  all_digits a = true -> skip_digits (a ++ String "." b) = String "." b.
Proof.
  induction a as [|c a IH]; cbn [all_digits append skip_digits]; [reflexivity|].
  intros H. apply andb_true_iff in H as [Hc Ha]. rewrite Hc. auto.
Qed.

Lemma two_digits_shape k : 0 <= k < 100 -> two_digit_text (two_digits k) = true.
Proof.
  intros H.
  assert (A : forallb (fun n => two_digit_text (two_digits (Z.of_nat n))) (seq 0 100) = true)
    by (vm_compute; reflexivity).
  rewrite forallb_forall in A. specialize (A (Z.to_nat k)).
  rewrite Z2Nat.id in A by lia. apply A. apply in_seq. lia.
Qed.

Lemma two_decimals_shape (s : bool) i k :
  0 <= i -> 0 <= k < 100 ->
  two_decimals ((if s then "-" else EmptyString) ++ Str.of_int i ++ "." ++ two_digits k) = true.
Proof.
  intros Hi Hk.
  pose proof (digits_of_int i Hi) as Hd. pose proof (two_digits_shape k Hk) as Ht.
  destruct (Str.of_int i) as [|c r]; [discriminate|].
  cbn [digits] in Hd. apply andb_true_iff in Hd as [Hc Hr].
  assert (E : unsigned_part ((if s then "-" else EmptyString) ++ String c r ++ "." ++ two_digits k)
              = String c (r ++ "." ++ two_digits k)).
  { destruct s; cbn [append unsigned_part]; [reflexivity|].
    now apply unsigned_part_digit. }
  unfold two_decimals. rewrite E. rewrite Hc. cbn [andb skip_digits]. rewrite Hc.
  change (r ++ "." ++ two_digits k) with (r ++ String "." (two_digits k)).
  rewrite skip_digits_point by exact Hr.
  destruct (two_digits k) as [|a [|b [|]]]; try discriminate. exact Ht.
Qed.

Lemma format_2f_two_decimals x : is_finite x = true -> two_decimals (format_2f x) = true.
Proof.
  unfold is_finite, format_2f. destruct (Prim2SF x) as [[]|s| |s m e]; try discriminate; try reflexivity.
  intros _.
  set (n := if 0 <=? e then _ else _).
  assert (Hn : 0 <= n).
  { subst n. destruct (Z.leb_spec 0 e).
    - pose proof (Z.pow_nonneg 2 e). lia.
    - apply round_half_even_div_nonneg; [lia|]. apply Z.pow_pos_nonneg; lia. }
  apply two_decimals_shape.
  - apply Z.div_pos; lia.
  - apply Z.mod_pos_bound. lia.
Qed.

(** [money_str] of a float returns, with the rounded [int] of a whole
    number and two decimals otherwise. *)
Lemma is_integer_round x : is_integer x = true -> exists n, round x = Returned n.
Proof.
  unfold is_integer, round. destruct (Prim2SF x) as [s|s| |s m e]; try discriminate; eauto.
Qed.

Lemma money_str_float rf x : Module8.money_str rf (Float x) = Returned (amount_text x).
Proof.
  unfold Module8.money_str, Module8.money_str_try, amount_text.
  cbn [float_of_number round_number].
  destruct (is_integer x) eqn:Hi; [|reflexivity].
  destruct (is_integer_round x Hi) as [n Hn]. rewrite Hn.
  now rewrite (round_renders x n Hn).
Qed.

Lemma money_str_shape rf x :
  is_finite x = true ->
  if is_integer x
  then exists n, round x = Returned n
                 /\ Module8.money_str rf (Float x) = Returned (Str.of_int n)
                 /\ bare_integer (Str.of_int n) = true
  else Module8.money_str rf (Float x) = Returned (format_2f x)
       /\ two_decimals (format_2f x) = true.
Proof.
  intros Hf. rewrite money_str_float. unfold amount_text.
  destruct (is_integer x) eqn:Hi.
  - destruct (is_integer_round x Hi) as [n Hn]. exists n. rewrite Hn.
    repeat split. apply bare_integer_of_int.
  - split; [reflexivity|]. now apply format_2f_two_decimals.
Qed.

(** [money_str] raises nothing but the [ValueError] of an [int] of more than
    4300 digits, and that for an [int] only. *)
Lemma money_str_raises rf x e : Module8.money_str rf x = Raised e -> e = too_many_digits.
Proof.
  destruct x as [z|f]; [|now rewrite money_str_float].
  unfold Module8.money_str, Module8.money_str_try. cbn [float_of_number round_number].
  destruct (float_of_int z) as [fz|e']; [destruct (is_integer fz)|];
    destruct (format_int z) eqn:E; try discriminate; intros [= <-];
    eapply format_int_raises, E.
Qed.

Lemma print_item_cost_run rf r s total :
  total_cost (objects s r) = Returned total ->
  renders (item_quantity (objects s r)) = true ->
  Module8.print_item_cost rf r s
  = (Returned tt, printed [cost_line (objects s r) total] s).
Proof.
  intros H Hq. unfold Module8.print_item_cost, bind, get, pure_outcome.
  now rewrite H, (format_int_renders _ Hq), !money_str_float.
Qed.

Lemma print_item_cost_truncated_run r s total p t :
  total_cost (objects s r) = Returned total ->
  renders (item_quantity (objects s r)) = true ->
  int_of_float (item_price (objects s r)) = Returned p ->
  int_of_float total = Returned t ->
  Module6.print_item_cost r s
  = (Returned tt, printed [cost_line_truncated (objects s r) p t] s).
Proof.
  intros H Hq Hp Ht. unfold Module6.print_item_cost, bind, get, pure_outcome.
  now rewrite H, (format_int_renders _ Hq), Hp, (int_of_float_renders _ _ Hp), Ht,
    (int_of_float_renders _ _ Ht).
Qed.

Lemma for_each_print_item_cost rf items :
  forall s,
  Forall (fun r => exists t, total_cost (objects s r) = Returned t) items ->
  Forall (fun r => renders (item_quantity (objects s r)) = true) items ->
  exists lines,
    for_each items (Module8.print_item_cost rf) s = (Returned tt, printed lines s)
    /\ Forall2 (fun r line => exists t, total_cost (objects s r) = Returned t
                                       /\ line = cost_line (objects s r) t)
         items lines.
Proof.
  induction items as [|r items IH]; intros s Hall Hren.
  - exists []. split; [|constructor]. unfold printed. cbn. rewrite app_nil_r.
    now destruct s.
  - inversion Hall as [|? ? [t Ht] Hrest]; subst.
    inversion Hren as [|? ? Hq Hren']; subst.
    destruct (IH (printed [cost_line (objects s r) t] s) Hrest Hren')
      as (lines & Hrun & Hl).
    exists (cost_line (objects s r) t :: lines). split.
    + cbn [for_each]. unfold bind. rewrite (print_item_cost_run rf r s t Ht Hq), Hrun.
      now rewrite printed_printed.
    + constructor; eauto.
Qed.

Lemma sum_clamped_nil_zero objs items :
  items = [] -> sum_clamped_quantities objs items = 0.
Proof. now intros ->. Qed.

Lemma print_total_run rf s cost :
  get_num_items_in_cart s <> 0 ->
  get_cost_of_cart s = Returned cost ->
  renders (get_num_items_in_cart s) = true ->
  Forall (fun r => renders (item_quantity (objects s r)) = true) (cart_items (cart s)) ->
  exists c lines,
    cost = Float c
    /\ Module8.print_total rf s
       = (Returned tt,
          printed ([(customer_name (cart s) ++ "'s Shopping Cart - "
                       ++ current_date (cart s))%string;
                    ("Number of Items: "
                       ++ Str.of_int (get_num_items_in_cart s))%string]
                   ++ lines
                   ++ [("Total: $" ++ amount_text c)%string])%list s)
    /\ Forall2 (fun r line => exists t, total_cost (objects s r) = Returned t
                                       /\ line = cost_line (objects s r) t)
         (cart_items (cart s)) lines.
Proof.
  intros Hnum Hcost Hn Hren. unfold get_cost_of_cart in Hcost.
  destruct (sum_costs_returns _ _ _ _ Hcost) as [Hall Hf].
  destruct Hf as [c ->].
  { intros Hnil. apply Hnum. rewrite get_num_items_in_cart_closed.
    now apply sum_clamped_nil_zero. }
  destruct (for_each_print_item_cost rf _
              (printed ["Number of Items: " ++ Str.of_int (get_num_items_in_cart s)]
                 (printed [customer_name (cart s) ++ "'s Shopping Cart - "
                             ++ current_date (cart s)] s)) Hall Hren)
    as (lines & Hrun & Hl).
  exists c, lines. split; [reflexivity|]. split; [|exact Hl].
  unfold Module8.print_total. unfold bind at 1. unfold get at 1. cbn iota beta.
  unfold bind at 1. rewrite print_run. unfold bind at 1. unfold pure_outcome at 1.
  rewrite (format_int_renders _ Hn). unfold bind at 1. rewrite print_run.
  apply Z.eqb_neq in Hnum. rewrite Hnum.
  unfold bind at 1. cbn [cart printed] in Hrun |- *. rewrite Hrun.
  unfold bind, pure_outcome. unfold get_cost_of_cart. rewrite Hcost, money_str_float, print_run.
  rewrite !printed_printed. reflexivity.
Qed.

(** C8, as amended.  In the final program a finite amount is rendered as a
    bare integer when it is whole and with exactly two decimals otherwise; an
    infinity or a NaN is rendered as inf, -inf or nan; [money_str] of a
    float returns in each case.  The price and the total of the item-cost
    line and the total of the cart are rendered so, the line being printed
    when the quantity is an [int] that Python renders, one of at most 4300
    digits, and the total when the item count is one too.  In the first
    program the amounts of the item-cost line are rendered as integers,
    truncated toward zero.  10.0 gives 10 and 2.55 gives 2.55 in the final
    program. *)
Theorem amounts_rendered rf :
  (forall x, is_finite x = true ->
     if is_integer x
     then exists n, round x = Returned n
                    /\ Module8.money_str rf (Float x) = Returned (Str.of_int n)
                    /\ bare_integer (Str.of_int n) = true
     else Module8.money_str rf (Float x) = Returned (format_2f x)
          /\ two_decimals (format_2f x) = true)
  /\ (forall x, is_finite x = false ->
        Module8.money_str rf (Float x) = Returned (format_2f x)
        /\ In (format_2f x) ["nan"; "inf"; "-inf"])
  /\ (forall s r total, total_cost (objects s r) = Returned total ->
        renders (item_quantity (objects s r)) = true ->
        Module8.print_item_cost rf r s
        = (Returned tt, printed [cost_line (objects s r) total] s))
  /\ (forall s cost, get_num_items_in_cart s <> 0 ->
        get_cost_of_cart s = Returned cost ->
        renders (get_num_items_in_cart s) = true ->
        Forall (fun r => renders (item_quantity (objects s r)) = true)
          (cart_items (cart s)) ->
        exists c lines,
          cost = Float c
          /\ Module8.print_total rf s
             = (Returned tt,
                printed ([(customer_name (cart s) ++ "'s Shopping Cart - "
                             ++ current_date (cart s))%string;
                          ("Number of Items: "
                             ++ Str.of_int (get_num_items_in_cart s))%string]
                         ++ lines
                         ++ [("Total: $" ++ amount_text c)%string])%list s)
          /\ Forall2 (fun r line => exists t, total_cost (objects s r) = Returned t
                                             /\ line = cost_line (objects s r) t)
               (cart_items (cart s)) lines)
  /\ (forall s r total p t, total_cost (objects s r) = Returned total ->
        renders (item_quantity (objects s r)) = true ->
        int_of_float (item_price (objects s r)) = Returned p ->
        int_of_float total = Returned t ->
        Module6.print_item_cost r s
        = (Returned tt, printed [cost_line_truncated (objects s r) p t] s))
  /\ Module8.money_str rf (Float (2.5 * 4)%float) = Returned "10"
  /\ Module8.money_str rf (Float 0x1.4666666666666p+1%float) = Returned "2.55"
  /\ Module8.print_total rf gum
     = (Returned tt,
        printed ["Ann's Shopping Cart - February 1, 2020"; "Number of Items: 1";
                 "Gum 1 @ $2.55 = $2.55"; "Total: $2.55"] gum).
Proof.
  split; [exact (money_str_shape rf)|]. split; [|split; [|split; [|split]]].
  - intros x Hx. rewrite money_str_float. unfold amount_text, is_integer, format_2f.
    unfold is_finite in Hx.
    destruct (Prim2SF x) as [s|[]| |s m e]; try discriminate; cbn; auto.
  - intros s r total. apply print_item_cost_run.
  - intros s cost. apply print_total_run.
  - intros s r total p t. apply print_item_cost_truncated_run.
  - repeat split; vm_compute; reflexivity.
Qed.

(** C8 as stated fails in the first program: the pack of gum costs 2.55, not
    a whole number, and its line and the total of the cart show 2.  In the
    final program an infinite amount is rendered as inf. *)
Lemma first_program_truncates_amounts :
  item_price (objects gum 0%nat) = 0x1.4666666666666p+1%float
  /\ is_integer 0x1.4666666666666p+1%float = false
  /\ format_2f 0x1.4666666666666p+1%float = "2.55"
  /\ Module6.print_total gum
     = (Returned tt,
        printed ["Ann's Shopping Cart - February 1, 2020"; "Number of Items: 1";
                 "Gum 1 @ $2 = $2"; "Total: $2"] gum)
  /\ two_decimals "2" = false
  /\ Module8.money_str (fun _ => EmptyString) (Float infinity) = Returned "inf"
  /\ bare_integer "inf" = false
  /\ two_decimals "inf" = false.
Proof.
  repeat split; vm_compute; reflexivity.
Qed.

(** ** The printing methods

    A method built from [print], reads of the session and pure computations
    does nothing to the session but print; the two predicates are carried
    through [bind] and [for_each]. *)

Lemma printed_nil s : printed [] s = s.
Proof. unfold printed. rewrite app_nil_r. now destruct s. Qed.

Lemma only_prints_ret {A} (a : A) : only_prints (ret a).
Proof. intros s. exists []. cbn. now rewrite printed_nil. Qed.

Lemma only_prints_get : only_prints get.
Proof. intros s. exists []. cbn. now rewrite printed_nil. Qed.

Lemma only_prints_print line : only_prints (print line).
Proof. intros s. exists [line]. reflexivity. Qed.

Lemma only_prints_pure {A} (o : outcome A) : only_prints (pure_outcome o).
Proof. intros s. exists []. cbn. now rewrite printed_nil. Qed.

Lemma only_prints_bind {A B} (m : M Session A) (k : A -> M Session B) :
  only_prints m -> (forall a, only_prints (k a)) -> only_prints (bind m k).
Proof.
  intros Hm Hk s. unfold bind. destruct (Hm s) as [l1 H1].
  destruct (m s) as [[a|e] s1]; cbn [snd] in H1; subst s1.
  - destruct (Hk a (printed l1 s)) as [l2 H2]. rewrite H2, printed_printed. eauto.
  - cbn. eauto.
Qed.

Lemma only_prints_for_each {A} (body : A -> M Session unit) xs :
  (forall x, only_prints (body x)) -> only_prints (for_each xs body).
Proof.
  intros Hb. induction xs as [|x xs IH]; cbn [for_each].
  - apply only_prints_ret.
  - apply only_prints_bind; auto.
Qed.

Lemma raises_ret {A} errors (a : A) : raises_among errors (ret a).
Proof. intros s e H. discriminate H. Qed.

Lemma raises_get errors : raises_among errors get.
Proof. intros s e H. discriminate H. Qed.

Lemma raises_print errors line : raises_among errors (print line).
Proof. intros s e H. discriminate H. Qed.

Lemma raises_bind {A B} errors (m : M Session A) (k : A -> M Session B) :
  raises_among errors m -> (forall a, raises_among errors (k a)) ->
  raises_among errors (bind m k).
Proof.
  intros Hm Hk s e. unfold bind. specialize (Hm s).
  destruct (m s) as [[a|e'] s1]; cbn [fst] in *.
  - apply Hk.
  - intros [= <-]. now apply Hm.
Qed.

Lemma raises_for_each {A} errors (body : A -> M Session unit) xs :
  (forall x, raises_among errors (body x)) -> raises_among errors (for_each xs body).
Proof.
  intros Hb. induction xs as [|x xs IH]; cbn [for_each].
  - apply raises_ret.
  - apply raises_bind; auto.
Qed.

Lemma raises_pure {A} errors (o : outcome A) :
  (forall e, o = Raised e -> In e errors) -> raises_among errors (pure_outcome o).
Proof. intros H s e He. apply H, He. Qed.

Lemma int_of_float_raises x e :
  int_of_float x = Raised e ->
  e = infinite_int \/ e = ValueError "cannot convert float NaN to integer".
Proof. unfold int_of_float. destruct (Prim2SF x); intros [= <-]; auto. Qed.

Lemma int_of_number_raises x e :
  int_of_number x = Raised e ->
  e = infinite_int \/ e = ValueError "cannot convert float NaN to integer".
Proof. destruct x as [z|f]; [discriminate | apply int_of_float_raises]. Qed.

Lemma for_each_print_item_description items :
  forall s,
  for_each items print_item_description s
  = (Returned tt, printed (map (fun r => description_line (objects s r)) items) s).
Proof.
  induction items as [|r items IH]; intros s.
  - cbn. now rewrite printed_nil.
  - cbn [for_each map]. unfold bind. unfold print_item_description at 1.
    unfold bind, get. rewrite print_run, IH, printed_printed. reflexivity.
Qed.

(** X11.  [print_descriptions] returns after printing the header with the
    customer's name and the date, the line Item Descriptions, and one line
    name: description per entry of the cart, in the cart's order, an object
    entered twice being printed twice; it changes nothing else. *)
Theorem print_descriptions_lines s :
  print_descriptions s
  = (Returned tt,
     printed ((customer_name (cart s) ++ "'s Shopping Cart - "
                 ++ current_date (cart s))%string
              :: "Item Descriptions"
              :: map (fun r => description_line (objects s r)) (cart_items (cart s)))
       s).
Proof.
  unfold print_descriptions, bind, get. rewrite !print_run.
  rewrite for_each_print_item_description, !printed_printed. reflexivity.
Qed.

Ltac only_prints_tac :=
  repeat first [ match goal with |- only_prints (if ?c then _ else _) => destruct c end
               | apply only_prints_bind | apply only_prints_get | apply only_prints_print
               | apply only_prints_for_each | apply only_prints_pure | apply only_prints_ret
               | match goal with |- forall _, only_prints _ => intro end
               | progress unfold Module8.print_item_cost, Module6.print_item_cost
               | progress cbv zeta ].

(** The exception a pure step raises is one of the list. *)
Ltac raised_tac :=
  let e := fresh "e" in
  let He := fresh "He" in
  intros e He;
  first [ apply total_cost_raises in He
        | apply sum_costs_raises in He
        | apply format_int_raises in He
        | apply money_str_raises in He
        | apply int_of_float_raises in He; destruct He as [He | He]
        | apply int_of_number_raises in He; destruct He as [He | He] ];
  rewrite He; cbn [In]; tauto.

Ltac raises_tac :=
  repeat first [ match goal with
                 | |- raises_among _ (if ?c then _ else _) => destruct c
                 end
               | apply raises_bind | apply raises_get | apply raises_print
               | apply raises_for_each | apply raises_ret
               | apply raises_pure; raised_tac
               | match goal with |- forall _, raises_among _ _ => intro end
               | progress unfold Module8.print_item_cost, Module6.print_item_cost
               | progress cbv zeta ].

Lemma print_total_only_prints rf : only_prints (Module8.print_total rf).
Proof. unfold Module8.print_total. only_prints_tac. Qed.

Lemma print_total_truncated_only_prints : only_prints Module6.print_total.
Proof. unfold Module6.print_total. only_prints_tac. Qed.

Lemma print_total_raises rf :
  raises_among [too_large; too_many_digits] (Module8.print_total rf).
Proof. unfold Module8.print_total. raises_tac. Qed.

Lemma print_total_truncated_raises :
  raises_among
    [too_large; too_many_digits; infinite_int;
     ValueError "cannot convert float NaN to integer"]
    Module6.print_total.
Proof. unfold Module6.print_total, get_cost_of_cart. raises_tac. Qed.

(** X12.  [print_total] and [print_item_cost], in both programs, leave the
    items, the cart and the references as they were whether they return or
    raise: the session after the call is the session before with lines
    printed.  In the final program [print_total] raises nothing but the
    [OverflowError] of an [int] too large for a float and the [ValueError]
    of rendering an [int] of more than 4300 digits; in the first program it
    can raise, besides these two, what [int] raises for an infinite amount
    and for a NaN. *)
Theorem printing_methods_only_print rf s :
  (exists lines, snd (Module8.print_total rf s) = printed lines s)
  /\ (exists lines, snd (Module6.print_total s) = printed lines s)
  /\ (forall r, exists lines, snd (Module8.print_item_cost rf r s) = printed lines s)
  /\ (forall r, exists lines, snd (Module6.print_item_cost r s) = printed lines s)
  /\ (forall e, fst (Module8.print_total rf s) = Raised e ->
                e = too_large \/ e = too_many_digits)
  /\ (forall e, fst (Module6.print_total s) = Raised e ->
                e = too_large \/ e = too_many_digits \/ e = infinite_int
                \/ e = ValueError "cannot convert float NaN to integer").
Proof.
  split; [apply print_total_only_prints|]. split; [apply print_total_truncated_only_prints|].
  split; [|split; [|split]].
  - intros r. assert (H : only_prints (Module8.print_item_cost rf r)) by only_prints_tac.
    apply H.
  - intros r. assert (H : only_prints (Module6.print_item_cost r)) by only_prints_tac.
    apply H.
  - intros e He. pose proof (print_total_raises rf s e He) as H. cbn [In] in H.
    intuition congruence.
  - intros e He. pose proof (print_total_truncated_raises s e He) as H. cbn [In] in H.
    intuition congruence.
Qed.

(** The exceptions of X12 do occur: an item count of 4301 digits stops
    [print_total] of both programs after the header. *)
Example print_total_count_too_long :
  let s := mkSession (fun _ => mkItem "Sand" 0%float (10 ^ 4300) "grain") 1%nat
             (mkCart "Ann" "February 1, 2020" [0%nat]) [] in
  Module8.print_total (fun _ => EmptyString) s
  = (Raised too_many_digits, printed ["Ann's Shopping Cart - February 1, 2020"] s)
  /\ Module6.print_total s
     = (Raised too_many_digits, printed ["Ann's Shopping Cart - February 1, 2020"] s).
Proof.
  cbv zeta. split; vm_compute; reflexivity.
Qed.

(** X13.  On an item whose quantity is an [int] that Python renders, one of
    at most 4300 digits: in the first program [print_item_cost] raises when
    the price is NaN ([ValueError]) or infinite ([OverflowError]), from
    [int(self.item_price)], and prints nothing; in the final program the
    same call prints its line, whatever the price. *)
Theorem print_item_cost_truncation_raises r s total :
  total_cost (objects s r) = Returned total ->
  renders (item_quantity (objects s r)) = true ->
  (Prim2SF (item_price (objects s r)) = S754_nan ->
   Module6.print_item_cost r s
   = (Raised (ValueError "cannot convert float NaN to integer"), s))
  /\ (forall sign, Prim2SF (item_price (objects s r)) = S754_infinity sign ->
      Module6.print_item_cost r s
      = (Raised (OverflowError "cannot convert float infinity to integer"), s))
  /\ (forall rf,
        Module8.print_item_cost rf r s
        = (Returned tt, printed [cost_line (objects s r) total] s)).
Proof.
  intros Ht Hq. split; [|split].
  - intros Hp. unfold Module6.print_item_cost, bind, get, pure_outcome, int_of_float.
    now rewrite Ht, (format_int_renders _ Hq), Hp.
  - intros sign Hp. unfold Module6.print_item_cost, bind, get, pure_outcome, int_of_float.
    now rewrite Ht, (format_int_renders _ Hq), Hp.
  - intros rf. now apply print_item_cost_run.
Qed.

Lemma print_item_cost_truncation_raises_witness :
  total_cost (objects nan_priced 0%nat) = Returned 0%float
  /\ renders (item_quantity (objects nan_priced 0%nat)) = true
  /\ Prim2SF (item_price (objects nan_priced 0%nat)) = S754_nan
  /\ Module6.print_item_cost 0%nat nan_priced
     = (Raised (ValueError "cannot convert float NaN to integer"), nan_priced)
  /\ Module8.print_item_cost (fun _ => EmptyString) 0%nat nan_priced
     = (Returned tt, printed ["Gold 1 @ $nan = $0"] nan_priced).
Proof.
  split; [reflexivity|]. split; [reflexivity|]. split; [reflexivity|]. split.
  - exact (proj1 (print_item_cost_truncation_raises 0%nat nan_priced 0%float
                    eq_refl eq_refl) eq_refl).
  - exact (proj2 (proj2 (print_item_cost_truncation_raises 0%nat nan_priced 0%float
                           eq_refl eq_refl)) (fun _ => EmptyString)).
Defined.

(** ** ItemToPurchase.update when every supplied field is valid

    [strip] leaves nothing to strip: the text [update] stores is a text it
    would store again unchanged. *)

Section Valid.

Context {text : Str.Methods}.

Lemma text_kept_strip line : blank line = false -> text_kept (Str.strip line) = true.
Proof.
  unfold blank, text_kept. intros ->. cbn [negb andb].
  rewrite Str.strip_strip. apply String.eqb_refl.
Qed.

Lemma text_ok_kept t : text_ok (Some t) = true -> text_kept (Str.strip t) = true.
Proof.
  cbn [text_ok]. intros H. apply text_kept_strip. unfold blank.
  now destruct (Str.is_empty (Str.strip t)).
Qed.

Lemma text_ok_strip t : text_ok (Some (Str.strip t)) = text_ok (Some t).
Proof. cbn [text_ok]. now rewrite Str.strip_strip. Qed.

(** X1.  The price is of either kind, an [int] or a float.  When every
    supplied field is valid, the price being one that [float] converts to a
    float not below zero, [update] returns and the item holds each supplied
    field, the texts trimmed, the price converted, and the fields not
    supplied as before; a stored name or description is not empty and has no
    whitespace around it, a stored price is not below zero (it may be NaN),
    a stored quantity is at least zero.  Both programs, whatever
    [str.strip] does to text that is not ASCII. *)
Theorem update_assigns_supplied_fields name description price quantity it :
  text_ok name && text_ok description && price_ok price && quantity_ok quantity = true ->
  let it' := with_quantity quantity
               (with_price price (with_description description (with_name name it))) in
  Module8.update name description price quantity it = (Returned tt, it')
  /\ Module6.update name description price quantity it = (Returned tt, it')
  /\ (name <> None -> text_kept (item_name it') = true)
  /\ (description <> None -> text_kept (item_description it') = true)
  /\ (forall x, price = Some x ->
        float_of_number x = Returned (item_price it')
        /\ PrimFloat.ltb (item_price it') 0 = false)
  /\ (quantity <> None -> 0 <= item_quantity it').
Proof.
  intros Hok. cbn zeta.
  rewrite (update_first_valid_run _ _ _ _ _ Hok), (update_valid_run _ _ _ _ _ Hok).
  apply andb_true_iff in Hok as [Hok Hq]. apply andb_true_iff in Hok as [Hok Hp].
  apply andb_true_iff in Hok as [Hn Hd].
  split; [reflexivity|]. split; [reflexivity|].
  assert (Eq : forall x, item_name (with_quantity quantity x) = item_name x
                         /\ item_description (with_quantity quantity x) = item_description x
                         /\ item_price (with_quantity quantity x) = item_price x)
    by (intros x; destruct quantity as [[q|f]|]; repeat split).
  assert (Ep : forall x, item_name (with_price price x) = item_name x
                         /\ item_description (with_price price x) = item_description x).
  { intros x. unfold with_price. destruct price as [p|]; [|now split].
    destruct (float_of_number p); now split. }
  split; [|split; [|split]].
  - intros Hsome. destruct name as [n|]; [|congruence].
    rewrite (proj1 (Eq _)), (proj1 (Ep _)). destruct description; cbn; now apply text_ok_kept.
  - intros Hsome. destruct description as [d|]; [|congruence].
    rewrite (proj1 (proj2 (Eq _))), (proj2 (Ep _)). cbn. now apply text_ok_kept.
  - intros x ->. rewrite (proj2 (proj2 (Eq _))). unfold price_ok, with_price in *.
    destruct (float_of_number x) as [f|e]; [|discriminate]. cbn [set_item_price item_price].
    split; [reflexivity|]. now destruct (PrimFloat.ltb f 0).
  - intros Hsome. destruct quantity as [[q|f]|]; try congruence; try discriminate.
    cbn in *. destruct (Z.ltb_spec q 0); [discriminate | lia].
Qed.

(** X2.  A valid [update] made twice is the [update] made once: what it
    stores it accepts again and stores the same. *)
Theorem update_twice name description price quantity it :
  text_ok name && text_ok description && price_ok price && quantity_ok quantity = true ->
  (Module8.update name description price quantity ;;
   Module8.update name description price quantity) it
  = Module8.update name description price quantity it.
Proof.
  intros Hok. unfold bind. rewrite !(update_valid_run _ _ _ _ _ Hok).
  destruct it as [n p q d]. unfold with_price.
  destruct name as [nm|], description as [ds|], price as [pr|], quantity as [[qq|qf]|];
    try destruct (float_of_number pr); reflexivity.
Qed.

End Valid.

(** The name trimmed, the [int] price 3 stored as the float 3.0. *)
Lemma update_assigns_supplied_fields_witness :
  text_ok (Some " Ink ") && text_ok (Some "black") && price_ok (Some (Int 3))
    && quantity_ok (Some (Int 2)) = true
  /\ Module8.update (Some " Ink ") (Some "black") (Some (Int 3)) (Some (Int 2)) default_item
     = (Returned tt, mkItem "Ink" 3%float 2 "black")
  /\ Module6.update (Some " Ink ") (Some "black") (Some (Int 3)) (Some (Int 2)) default_item
     = (Returned tt, mkItem "Ink" 3%float 2 "black").
Proof.
  split; [reflexivity|]. split.
  - exact (proj1 (update_assigns_supplied_fields (Some " Ink ") (Some "black")
                    (Some (Int 3)) (Some (Int 2)) default_item eq_refl)).
  - exact (proj1 (proj2 (update_assigns_supplied_fields (Some " Ink ") (Some "black")
                           (Some (Int 3)) (Some (Int 2)) default_item eq_refl))).
Defined.

Lemma update_twice_witness :
  text_ok (Some " Ink ") && text_ok None && price_ok (Some (Float 3))
    && quantity_ok (Some (Int 2)) = true
  /\ (Module8.update (Some " Ink ") None (Some (Float 3)) (Some (Int 2)) ;;
      Module8.update (Some " Ink ") None (Some (Float 3)) (Some (Int 2))) default_item
     = Module8.update (Some " Ink ") None (Some (Float 3)) (Some (Int 2)) default_item.
Proof.
  split; [reflexivity|].
  exact (update_twice (Some " Ink ") None (Some (Float 3)) (Some (Int 2)) default_item
           eq_refl).
Defined.

(** ** The prompt helpers *)

Lemma same_cart_refl s : same_cart s s.
Proof. repeat split. Qed.

Lemma same_cart_trans s1 s2 s3 : same_cart s1 s2 -> same_cart s2 s3 -> same_cart s1 s3.
Proof. intros (a & b & c) (a' & b' & c'). repeat split; congruence. Qed.

Lemma same_cart_printed lines s : same_cart s (printed lines s).
Proof. repeat split. Qed.

Lemma say_session line c : session (say line c) = printed [line] (session c).
Proof. reflexivity. Qed.

Lemma say_stdin line c : stdin (say line c) = stdin c.
Proof. reflexivity. Qed.

(** Whatever is typed, a prompt helper leaves the cart alone, reads no more
    than the keyboard holds, and returns the default or a value it
    accepted. *)

Section PromptsFrame.

Context {text : Str.Methods}.

Variable int_of_str : string -> option Z.
Variable float_of_str : string -> option float.

Lemma prompt_nonempty_string_loop_frame message default keys :
  forall c,
  let r := prompt_nonempty_string_loop message default keys c in
  same_cart (session c) (session (snd r))
  /\ (List.length (stdin (snd r)) <= List.length keys)%nat
  /\ (fst r = default \/ text_kept (fst r) = true).
Proof.
  induction keys as [|[line|] rest IH]; intros c; cbn [prompt_nonempty_string_loop].
  - cbn. repeat split; auto.
  - destruct (Str.is_empty (Str.strip line)) eqn:E; cbn [negb].
    + destruct (IH (say "Input cannot be empty. Please try again."
                      (key_taken rest message c))) as (H1 & H2 & H3).
      cbn zeta in *. repeat split; try apply H1; auto. cbn [List.length]. lia.
    + cbn. repeat split; auto. right. now apply text_kept_strip.
  - cbn. repeat split; auto.
Qed.

Lemma prompt_nonnegative_int_loop_frame message default keys :
  forall c,
  let r := prompt_nonnegative_int_loop int_of_str message default keys c in
  same_cart (session c) (session (snd r))
  /\ (List.length (stdin (snd r)) <= List.length keys)%nat
  /\ (fst r = default
      \/ (0 <= fst r
          /\ exists line, In (Typed line) keys
                          /\ contains "." (Str.strip line) = false
                          /\ int_of_str (Str.strip line) = Some (fst r))).
Proof.
  induction keys as [|[line|] rest IH]; intros c; cbn [prompt_nonnegative_int_loop].
  - cbn. repeat split; auto.
  - assert (step : forall msg,
      let r := prompt_nonnegative_int_loop int_of_str message default rest
                 (say msg (key_taken rest message c)) in
      same_cart (session c) (session (snd r))
      /\ (List.length (stdin (snd r)) <= List.length (Typed line :: rest))%nat
      /\ (fst r = default
          \/ (0 <= fst r
              /\ exists l, In (Typed l) (Typed line :: rest)
                           /\ contains "." (Str.strip l) = false
                           /\ int_of_str (Str.strip l) = Some (fst r)))).
    { intros msg. destruct (IH (say msg (key_taken rest message c))) as (H1 & H2 & H3).
      cbn zeta in *. repeat split; try apply H1; auto; [cbn [List.length]; lia|].
      destruct H3 as [H3 | (H3 & l & Hin & Hl)]; [now left | right].
      split; [exact H3|]. exists l. split; [now right | exact Hl]. }
    cbn zeta. destruct (String.eqb (Str.strip line) EmptyString); [apply step|].
    destruct (contains "." (Str.strip line)) eqn:Edot; [apply step|].
    destruct (int_of_str (Str.strip line)) as [n|] eqn:En; [|apply step].
    destruct (Z.ltb_spec n 0); [apply step|].
    cbn. repeat split; auto. right. split; [lia|]. exists line. repeat split; auto.
  - cbn. repeat split; auto.
Qed.

Lemma prompt_nonnegative_float_loop_frame message default keys :
  forall c,
  let r := prompt_nonnegative_float_loop float_of_str message default keys c in
  same_cart (session c) (session (snd r))
  /\ (List.length (stdin (snd r)) <= List.length keys)%nat
  /\ (fst r = default
      \/ (PrimFloat.ltb (fst r) 0 = false
          /\ exists line, In (Typed line) keys
                          /\ float_of_str (Str.strip line) = Some (fst r))).
Proof.
  induction keys as [|[line|] rest IH]; intros c; cbn [prompt_nonnegative_float_loop].
  - cbn. repeat split; auto.
  - assert (step : forall msg,
      let r := prompt_nonnegative_float_loop float_of_str message default rest
                 (say msg (key_taken rest message c)) in
      same_cart (session c) (session (snd r))
      /\ (List.length (stdin (snd r)) <= List.length (Typed line :: rest))%nat
      /\ (fst r = default
          \/ (PrimFloat.ltb (fst r) 0 = false
              /\ exists l, In (Typed l) (Typed line :: rest)
                           /\ float_of_str (Str.strip l) = Some (fst r)))).
    { intros msg. destruct (IH (say msg (key_taken rest message c))) as (H1 & H2 & H3).
      cbn zeta in *. repeat split; try apply H1; auto; [cbn [List.length]; lia|].
      destruct H3 as [H3 | (H3 & l & Hin & Hl)]; [now left | right].
      split; [exact H3|]. exists l. split; [now right | exact Hl]. }
    cbn zeta. destruct (float_of_str (Str.strip line)) as [x|] eqn:Ex; [|apply step].
    destruct (PrimFloat.ltb x 0) eqn:E; [apply step|].
    cbn. repeat split; auto. right. split; [exact E|]. exists line. split; auto.
  - cbn. repeat split; auto.
Qed.

End PromptsFrame.

Section PromptsAnswers.

Context {text : Str.Methods}.

Variable int_of_str : string -> option Z.
Variable float_of_str : string -> option float.

Lemma turned_down_none c : turned_down 0 [] c c.
Proof. repeat split; [now rewrite printed_nil | cbn; lia]. Qed.

Lemma turned_down_more n lines rest message line c c1 :
  turned_down n lines (say line (key_taken rest message c)) c1 ->
  turned_down (S n) (line :: lines) c c1.
Proof.
  intros (Hs & Hl & Hp). repeat split.
  - rewrite Hs, say_session. cbn [key_taken session]. now rewrite printed_printed.
  - cbn [List.length]. now rewrite Hl.
  - rewrite Hp. cbn. rewrite length_app. cbn. lia.
Qed.

Lemma prompt_nonempty_string_loop_skips message default blanks tail :
  forall c,
  Forall (fun l => accepted_text l = None) blanks ->
  exists c1,
    prompt_nonempty_string_loop message default (map Typed blanks ++ tail)%list c
    = prompt_nonempty_string_loop message default tail c1
    /\ turned_down (List.length blanks)
         (map (fun _ => "Input cannot be empty. Please try again.") blanks) c c1.
Proof.
  induction blanks as [|l blanks IH]; intros c Hb.
  - exists c. split; [reflexivity | apply turned_down_none].
  - inversion Hb as [|? ? Hl Hb']; subst. unfold accepted_text, blank in Hl.
    cbn [map List.app prompt_nonempty_string_loop].
    destruct (Str.is_empty (Str.strip l)); [|discriminate]. cbn [negb].
    destruct (IH (say "Input cannot be empty. Please try again."
                    (key_taken (map Typed blanks ++ tail)%list message c)) Hb')
      as (c1 & Hrun & Hdown).
    exists c1. split; [exact Hrun|]. cbn [map List.length].
    eapply turned_down_more, Hdown.
Qed.

Lemma prompt_nonnegative_int_loop_skips message default refused tail :
  forall c,
  Forall (fun l => accepted_int int_of_str l = None) refused ->
  exists c1 lines,
    prompt_nonnegative_int_loop int_of_str message default (map Typed refused ++ tail)%list c
    = prompt_nonnegative_int_loop int_of_str message default tail c1
    /\ turned_down (List.length refused) lines c c1
    /\ incl lines int_complaints.
Proof.
  induction refused as [|l refused IH]; intros c Hb.
  - exists c, []. split; [reflexivity|]. split; [apply turned_down_none | easy].
  - inversion Hb as [|? ? Hl Hb']; subst. unfold accepted_int in Hl. cbn zeta in Hl.
    cbn [map List.app prompt_nonnegative_int_loop]. cbn zeta.
    set (c0 := key_taken _ message c).
    assert (step : forall msg, In msg int_complaints ->
      exists c1 lines,
        prompt_nonnegative_int_loop int_of_str message default
          (map Typed refused ++ tail)%list (say msg c0)
        = prompt_nonnegative_int_loop int_of_str message default tail c1
        /\ turned_down (S (List.length refused)) lines c c1
        /\ incl lines int_complaints).
    { intros msg Hmsg. destruct (IH (say msg c0) Hb') as (c1 & lines & Hrun & Hdown & Hin).
      exists c1, (msg :: lines). split; [exact Hrun|].
      split; [eapply turned_down_more, Hdown|].
      intros x [<- | Hx]; auto. }
    cbn [List.length].
    destruct (String.eqb (Str.strip l) EmptyString); [apply step; cbn; auto|].
    destruct (contains "." (Str.strip l)); [apply step; cbn; auto|].
    destruct (int_of_str (Str.strip l)) as [n|]; [|apply step; cbn; auto].
    destruct (n <? 0); [apply step; cbn; auto | discriminate].
Qed.

Lemma prompt_nonnegative_float_loop_skips message default refused tail :
  forall c,
  Forall (fun l => accepted_float float_of_str l = None) refused ->
  exists c1 lines,
    prompt_nonnegative_float_loop float_of_str message default
      (map Typed refused ++ tail)%list c
    = prompt_nonnegative_float_loop float_of_str message default tail c1
    /\ turned_down (List.length refused) lines c c1
    /\ incl lines float_complaints.
Proof.
  induction refused as [|l refused IH]; intros c Hb.
  - exists c, []. split; [reflexivity|]. split; [apply turned_down_none | easy].
  - inversion Hb as [|? ? Hl Hb']; subst. unfold accepted_float in Hl.
    cbn [map List.app prompt_nonnegative_float_loop]. cbn zeta.
    set (c0 := key_taken _ message c).
    assert (step : forall msg, In msg float_complaints ->
      exists c1 lines,
        prompt_nonnegative_float_loop float_of_str message default
          (map Typed refused ++ tail)%list (say msg c0)
        = prompt_nonnegative_float_loop float_of_str message default tail c1
        /\ turned_down (S (List.length refused)) lines c c1
        /\ incl lines float_complaints).
    { intros msg Hmsg. destruct (IH (say msg c0) Hb') as (c1 & lines & Hrun & Hdown & Hin).
      exists c1, (msg :: lines). split; [exact Hrun|].
      split; [eapply turned_down_more, Hdown|].
      intros x [<- | Hx]; auto. }
    cbn [List.length].
    destruct (float_of_str (Str.strip l)) as [x|]; [|apply step; cbn; auto].
    destruct (PrimFloat.ltb x 0); [apply step; cbn; auto | discriminate].
Qed.

(** X14.  [prompt_nonempty_string] returns the first typed line that is not
    blank, trimmed, after printing Input cannot be empty once for every
    blank line before it; it has then read exactly those lines and shown
    its prompt once per line read, and the items and the cart are
    untouched.  This for any [str.strip] of the class. *)
Theorem prompt_nonempty_string_first_answer message default blanks line rest c :
  stdin c = (map Typed blanks ++ Typed line :: rest)%list ->
  Forall (fun l => accepted_text l = None) blanks ->
  forall answer, accepted_text line = Some answer ->
  let r := prompt_nonempty_string message default c in
  fst r = answer
  /\ answer = Str.strip line
  /\ stdin (snd r) = rest
  /\ session (snd r)
     = printed (map (fun _ => "Input cannot be empty. Please try again.") blanks)
         (session c)
  /\ List.length (prompted (snd r)) = S (List.length (prompted c) + List.length blanks).
Proof.
  intros Hkeys Hblanks answer Hline. cbn zeta. unfold prompt_nonempty_string. rewrite Hkeys.
  destruct (prompt_nonempty_string_loop_skips message default blanks (Typed line :: rest)
              c Hblanks) as (c1 & -> & Hs & _ & Hp).
  unfold accepted_text, blank in Hline. cbn [prompt_nonempty_string_loop].
  destruct (Str.is_empty (Str.strip line)); [discriminate|]. injection Hline as <-.
  cbn. rewrite length_app, Hp. cbn. repeat split; auto. lia.
Qed.

(** X15.  [prompt_nonnegative_int] returns the number of the first typed
    line that, trimmed, is not empty, has no dot, is read by [int] and is
    not negative; the number is at least zero; every line before it was
    answered by one of the three complaints, and the prompt was shown once
    per line read. *)
Theorem prompt_nonnegative_int_first_answer message default refused line rest c :
  stdin c = (map Typed refused ++ Typed line :: rest)%list ->
  Forall (fun l => accepted_int int_of_str l = None) refused ->
  forall answer, accepted_int int_of_str line = Some answer ->
  let r := prompt_nonnegative_int int_of_str message default c in
  fst r = answer
  /\ 0 <= answer
  /\ stdin (snd r) = rest
  /\ (exists lines, session (snd r) = printed lines (session c)
                    /\ List.length lines = List.length refused
                    /\ incl lines int_complaints)
  /\ List.length (prompted (snd r)) = S (List.length (prompted c) + List.length refused).
Proof.
  intros Hkeys Hrefused answer Hline. cbn zeta. unfold prompt_nonnegative_int. rewrite Hkeys.
  destruct (prompt_nonnegative_int_loop_skips message default refused (Typed line :: rest)
              c Hrefused) as (c1 & lines & -> & (Hs & Hl & Hp) & Hin).
  unfold accepted_int in Hline. cbn zeta in Hline. cbn [prompt_nonnegative_int_loop]. cbn zeta.
  destruct (String.eqb (Str.strip line) EmptyString); [discriminate|].
  destruct (contains "." (Str.strip line)); [discriminate|].
  destruct (int_of_str (Str.strip line)) as [n|]; [|discriminate].
  destruct (Z.ltb_spec n 0); [discriminate|]. injection Hline as <-.
  cbn. rewrite length_app, Hp. cbn. repeat split; eauto. lia.
Qed.

(** X16.  [prompt_nonnegative_float] returns the number of the first typed
    line that [float] reads, trimmed, as a number not below zero; every
    line before it was answered by one of the two complaints, and the prompt
    was shown once per line read. *)
Theorem prompt_nonnegative_float_first_answer message default refused line rest c :
  stdin c = (map Typed refused ++ Typed line :: rest)%list ->
  Forall (fun l => accepted_float float_of_str l = None) refused ->
  forall answer, accepted_float float_of_str line = Some answer ->
  let r := prompt_nonnegative_float float_of_str message default c in
  fst r = answer
  /\ PrimFloat.ltb answer 0 = false
  /\ stdin (snd r) = rest
  /\ (exists lines, session (snd r) = printed lines (session c)
                    /\ List.length lines = List.length refused
                    /\ incl lines float_complaints)
  /\ List.length (prompted (snd r)) = S (List.length (prompted c) + List.length refused).
Proof.
  intros Hkeys Hrefused answer Hline. cbn zeta. unfold prompt_nonnegative_float.
  rewrite Hkeys.
  destruct (prompt_nonnegative_float_loop_skips message default refused (Typed line :: rest)
              c Hrefused) as (c1 & lines & -> & (Hs & Hl & Hp) & Hin).
  unfold accepted_float in Hline. cbn [prompt_nonnegative_float_loop]. cbn zeta.
  destruct (float_of_str (Str.strip line)) as [x|]; [|discriminate].
  destruct (PrimFloat.ltb x 0) eqn:E; [discriminate|]. injection Hline as <-.
  cbn. rewrite length_app, Hp. cbn. repeat split; eauto. lia.
Qed.

(** X17.  When the lines turned down are followed by Ctrl+C or by the end of
    the input, each of the three prompt helpers prints Input cancelled after
    its complaints and returns its default; Ctrl+C is consumed and what was
    typed after it is left for the next [input]. *)
Theorem prompts_cancelled message refused tail c :
  stdin c = (map Typed refused ++ tail)%list ->
  cancelled tail ->
  (forall default,
      Forall (fun l => accepted_text l = None) refused ->
      let r := prompt_nonempty_string message default c in
      fst r = default /\ stdin (snd r) = tl tail
      /\ session (snd r)
         = printed (map (fun _ => "Input cannot be empty. Please try again.") refused
                    ++ [cancel_line])%list (session c))
  /\ (forall default,
      Forall (fun l => accepted_int int_of_str l = None) refused ->
      let r := prompt_nonnegative_int int_of_str message default c in
      fst r = default /\ stdin (snd r) = tl tail
      /\ exists lines, session (snd r) = printed (lines ++ [cancel_line])%list (session c)
                       /\ List.length lines = List.length refused
                       /\ incl lines int_complaints)
  /\ (forall default,
      Forall (fun l => accepted_float float_of_str l = None) refused ->
      let r := prompt_nonnegative_float float_of_str message default c in
      fst r = default /\ stdin (snd r) = tl tail
      /\ exists lines, session (snd r) = printed (lines ++ [cancel_line])%list (session c)
                       /\ List.length lines = List.length refused
                       /\ incl lines float_complaints).
Proof.
  intros Hkeys Htail. split; [|split]; intros default Hrefused; cbn zeta.
  - unfold prompt_nonempty_string. rewrite Hkeys.
    destruct (prompt_nonempty_string_loop_skips message default refused tail c Hrefused)
      as (c1 & -> & Hs & _ & _).
    destruct tail as [|[l|] rest]; try contradiction;
      cbn [prompt_nonempty_string_loop fst snd tl];
      rewrite say_session, say_stdin; cbn [key_taken session stdin];
      rewrite Hs, printed_printed; auto.
  - unfold prompt_nonnegative_int. rewrite Hkeys.
    destruct (prompt_nonnegative_int_loop_skips message default refused tail c Hrefused)
      as (c1 & lines & -> & (Hs & Hl & _) & Hin).
    destruct tail as [|[l|] rest]; try contradiction;
      cbn [prompt_nonnegative_int_loop prompt_nonnegative_float_loop fst snd tl];
      rewrite say_session, say_stdin; cbn [key_taken session stdin];
      rewrite Hs, printed_printed; eauto 7.
  - unfold prompt_nonnegative_float. rewrite Hkeys.
    destruct (prompt_nonnegative_float_loop_skips message default refused tail c Hrefused)
      as (c1 & lines & -> & (Hs & Hl & _) & Hin).
    destruct tail as [|[l|] rest]; try contradiction;
      cbn [prompt_nonnegative_int_loop prompt_nonnegative_float_loop fst snd tl];
      rewrite say_session, say_stdin; cbn [key_taken session stdin];
      rewrite Hs, printed_printed; eauto 7.
Qed.

End PromptsAnswers.

Lemma prompt_nonempty_string_first_answer_witness :
  stdin (fresh_console [Typed "  "; Typed " Ann "; Typed "x"])
  = (map Typed ["  "] ++ Typed " Ann " :: [Typed "x"])%list
  /\ Forall (fun l => accepted_text l = None) ["  "]
  /\ accepted_text " Ann " = Some "Ann"
  /\ fst (prompt_nonempty_string "Enter customer's name: " "none"
            (fresh_console [Typed "  "; Typed " Ann "; Typed "x"])) = "Ann".
Proof.
  assert (H : Forall (fun l => accepted_text l = None) ["  "]) by (repeat constructor).
  split; [reflexivity|]. split; [exact H|]. split; [reflexivity|].
  exact (proj1 (prompt_nonempty_string_first_answer "Enter customer's name: " "none"
                  ["  "] " Ann " [Typed "x"]
                  (fresh_console [Typed "  "; Typed " Ann "; Typed "x"])
                  eq_refl H "Ann" eq_refl)).
Defined.

Lemma prompt_nonnegative_int_first_answer_witness :
  stdin (fresh_console [Typed " "; Typed "1.5"; Typed "-2"; Typed "two"; Typed " 7 "])
  = (map Typed [" "; "1.5"; "-2"; "two"] ++ Typed " 7 " :: [])%list
  /\ Forall (fun l => accepted_int plain_int_of_str l = None) [" "; "1.5"; "-2"; "two"]
  /\ accepted_int plain_int_of_str " 7 " = Some 7
  /\ fst (prompt_nonnegative_int plain_int_of_str "Enter the item quantity: " 0
            (fresh_console [Typed " "; Typed "1.5"; Typed "-2"; Typed "two"; Typed " 7 "]))
     = 7.
Proof.
  assert (H : Forall (fun l => accepted_int plain_int_of_str l = None)
                [" "; "1.5"; "-2"; "two"]) by (repeat constructor).
  split; [reflexivity|]. split; [exact H|]. split; [reflexivity|].
  exact (proj1 (prompt_nonnegative_int_first_answer plain_int_of_str
                  "Enter the item quantity: " 0 [" "; "1.5"; "-2"; "two"] " 7 " []
                  (fresh_console
                     [Typed " "; Typed "1.5"; Typed "-2"; Typed "two"; Typed " 7 "])
                  eq_refl H 7 eq_refl)).
Defined.

Lemma prompt_nonnegative_float_first_answer_witness :
  stdin (fresh_console [Typed "two"; Typed "-1"; Typed " 3"])
  = (map Typed ["two"; "-1"] ++ Typed " 3" :: [])%list
  /\ Forall (fun l => accepted_float plain_float_of_str l = None) ["two"; "-1"]
  /\ accepted_float plain_float_of_str " 3" = Some 3%float
  /\ fst (prompt_nonnegative_float plain_float_of_str "Enter the item price: " 0%float
            (fresh_console [Typed "two"; Typed "-1"; Typed " 3"]))
     = 3%float.
Proof.
  assert (H : Forall (fun l => accepted_float plain_float_of_str l = None) ["two"; "-1"])
    by (repeat constructor).
  split; [reflexivity|]. split; [exact H|]. split; [reflexivity|].
  exact (proj1 (prompt_nonnegative_float_first_answer plain_float_of_str
                  "Enter the item price: " 0%float ["two"; "-1"] " 3" []
                  (fresh_console [Typed "two"; Typed "-1"; Typed " 3"])
                  eq_refl H 3%float eq_refl)).
Defined.

Lemma prompts_cancelled_witness :
  stdin (fresh_console [Typed " "; CtrlC; Typed "x"])
  = (map Typed [" "] ++ [CtrlC; Typed "x"])%list
  /\ cancelled [CtrlC; Typed "x"]
  /\ Forall (fun l => accepted_text l = None) [" "]
  /\ Forall (fun l => accepted_int plain_int_of_str l = None) [" "]
  /\ Forall (fun l => accepted_float plain_float_of_str l = None) [" "]
  /\ fst (prompt_nonempty_string "Enter the item name: " "none"
            (fresh_console [Typed " "; CtrlC; Typed "x"])) = "none"
  /\ fst (prompt_nonnegative_int plain_int_of_str "Enter the item quantity: " 0
            (fresh_console [Typed " "; CtrlC; Typed "x"])) = 0
  /\ fst (prompt_nonnegative_float plain_float_of_str "Enter the item price: " 0%float
            (fresh_console [Typed " "; CtrlC; Typed "x"])) = 0%float.
Proof.
  assert (H1 : Forall (fun l => accepted_text l = None) [" "]) by (repeat constructor).
  assert (H2 : Forall (fun l => accepted_int plain_int_of_str l = None) [" "])
    by (repeat constructor).
  assert (H3 : Forall (fun l => accepted_float plain_float_of_str l = None) [" "])
    by (repeat constructor).
  split; [reflexivity|]. split; [exact I|]. split; [exact H1|]. split; [exact H2|].
  split; [exact H3|].
  pose proof (prompts_cancelled plain_int_of_str plain_float_of_str "Enter the item name: "
                [" "] [CtrlC; Typed "x"] (fresh_console [Typed " "; CtrlC; Typed "x"])
                eq_refl I) as (A & _ & _).
  pose proof (prompts_cancelled plain_int_of_str plain_float_of_str
                "Enter the item quantity: "
                [" "] [CtrlC; Typed "x"] (fresh_console [Typed " "; CtrlC; Typed "x"])
                eq_refl I) as (_ & B & _).
  pose proof (prompts_cancelled plain_int_of_str plain_float_of_str "Enter the item price: "
                [" "] [CtrlC; Typed "x"] (fresh_console [Typed " "; CtrlC; Typed "x"])
                eq_refl I) as (_ & _ & C).
  split; [exact (proj1 (A "none" H1))|]. split; [exact (proj1 (B 0 H2))|].
  exact (proj1 (C 0%float H3)).
Defined.

(** ** The menu

    What the menu keeps: every entry of the cart is a reference that was
    handed out, to an item with a trimmed name and description that are not
    empty and with no price and no quantity below zero ([console_ok]). *)

Section MenuKeeps.

Context {text : Str.Methods}.

(** No call of [update], returning or raising, spoils an item as the menu
    enters them. *)
Lemma update_run_keeps_entered price_error name description price quantity it :
  item_entered it = true ->
  item_entered (snd (update_run price_error name description price quantity it)) = true.
Proof.
  unfold item_entered. intros H.
  apply andb_true_iff in H as [H Hd]. apply andb_true_iff in H as [Hneg Hn].
  rewrite (update_run_keeps_not_negative _ _ _ _ _ _ Hneg). cbn [andb].
  assert (T : text_kept (item_name
                (snd (update_run price_error name description price quantity it))) = true
              /\ text_kept (item_description
                   (snd (update_run price_error name description price quantity it)))
                 = true); [|now rewrite (proj1 T), (proj2 T)].
  unfold update_run.
  destruct (text_ok name) eqn:En; cbn [negb snd]; [|now split].
  assert (Hn1 : text_kept (item_name (with_name name it)) = true).
  { destruct name as [n|]; [|exact Hn]. cbn. now apply text_ok_kept. }
  assert (Hd1 : item_description (with_name name it) = item_description it)
    by (destruct name; reflexivity).
  destruct (text_ok description) eqn:Ed; cbn [negb snd]; [|now rewrite Hd1].
  cbn zeta. set (it2 := with_description description (with_name name it)).
  assert (H2 : text_kept (item_name it2) = true /\ text_kept (item_description it2) = true).
  { subst it2. destruct description as [d|]; cbn [with_description]; [|now rewrite Hd1].
    cbn [set_item_description item_name item_description]. split; [exact Hn1|].
    now apply text_ok_kept. }
  assert (Hq : forall it3,
            item_name (snd (update_quantity quantity it3)) = item_name it3
            /\ item_description (snd (update_quantity quantity it3)) = item_description it3).
  { intros it3. unfold update_quantity.
    destruct quantity as [[q|f]|]; try (now split). now destruct (q <? 0). }
  assert (Hp : item_name (with_price price it2) = item_name it2
               /\ item_description (with_price price it2) = item_description it2).
  { unfold with_price. destruct price as [x|]; [|now split].
    now destruct (float_of_number x). }
  destruct price as [x|].
  - destruct (price_ok (Some x)); cbn [snd]; [|exact H2].
    rewrite (proj1 (Hq _)), (proj2 (Hq _)), (proj1 Hp), (proj2 Hp). exact H2.
  - rewrite (proj1 (Hq _)), (proj2 (Hq _)). exact H2.
Qed.

(** Nor does [modify_item], whatever the patch. *)
Lemma modify_item_keeps_entered (patch : Given) s :
  cart_entered s = true ->
  cart_entered (snd (Module8.modify_item patch s)) = true
  /\ cart_entered (snd (Module6.modify_item patch s)) = true.
Proof.
  unfold cart_entered. intros H. split.
  - apply modify_item_keeps; [|exact H]. intros q it. apply update_run_keeps_entered.
  - apply modify_item_first_keeps; [|exact H]. intros q it. apply update_run_keeps_entered.
Qed.

Lemma remove_item_result name s :
  exists items,
    remove_item name s = (Returned tt, set_cart_items items s)
    /\ incl items (cart_items (cart s))
    \/ remove_item name s
       = (Returned tt, printed ["Item not found in cart. Nothing removed."] s).
Proof.
  change (remove_item name s)
    with (remove_item_loop (Str.lower (Str.strip name)) 0 (cart_items (cart s)) s).
  destruct (remove_item_loop_run (Str.lower (Str.strip name)) s (cart_items (cart s)) []
              eq_refl)
    as [(before & target & after & Hitems & _ & _ & Hrun) | (_ & Hrun)];
    cbn [List.length app] in Hrun; rewrite Hrun.
  - exists (before ++ after)%list. left. split; [reflexivity|].
    rewrite Hitems. intros r Hin.
    apply in_app_or in Hin as [Hin | Hin]; apply in_or_app; [now left | right; now right].
  - exists []. now right.
Qed.

Lemma console_ok_same_cart c c' :
  same_cart (session c) (session c') -> console_ok c -> console_ok c'.
Proof.
  intros (Ho & Hn & Hc) (Hr & He). unfold console_ok, refs_allocated, cart_entered in *.
  now rewrite Ho, Hn, Hc.
Qed.

Lemma in_session_only_prints {A} (m : M Session A) c :
  only_prints m ->
  same_cart (session c) (session (snd (in_session m c)))
  /\ stdin (snd (in_session m c)) = stdin c.
Proof.
  intros Hm. unfold in_session. destruct (Hm (session c)) as [lines H].
  destruct (m (session c)) as [o s']. cbn [snd] in *. subst s'. cbn. split; auto.
  apply same_cart_printed.
Qed.

Lemma add_new_item_ok name price quantity description c :
  console_ok c ->
  item_entered (mkItem name price quantity description) = true ->
  let r := in_session (item <- new_ItemToPurchase name price quantity description ;;
                       add_item item) c in
  fst r = Returned tt /\ console_ok (snd r) /\ stdin (snd r) = stdin c.
Proof.
  intros (Hr & He) Hit. cbn. split; [reflexivity|]. split; [|reflexivity].
  unfold console_ok, refs_allocated, cart_entered in *. cbn. split.
  - apply Forall_app. split.
    + eapply Forall_impl; [|exact Hr]. cbn. lia.
    + repeat constructor.
  - rewrite forallb_app. cbn. rewrite assign_same, Hit, andb_true_r.
    rewrite forallb_forall in *. intros r Hin. rewrite assign_other; auto.
    rewrite Forall_forall in Hr. specialize (Hr r Hin). lia.
Qed.

Lemma remove_item_ok name c :
  console_ok c ->
  let r := in_session (remove_item name) c in
  fst r = Returned tt /\ console_ok (snd r) /\ stdin (snd r) = stdin c.
Proof.
  intros (Hr & He). cbn zeta. unfold in_session.
  destruct (remove_item_result name (session c)) as (items & [(Hrun & Hincl) | Hrun]);
    rewrite Hrun; cbn; repeat split; auto.
  - unfold refs_allocated in *. cbn. rewrite Forall_forall in *. auto.
  - unfold cart_entered in *. cbn. rewrite forallb_forall in *. auto.
Qed.

Lemma modify_stub_ok name quantity c :
  console_ok c ->
  let r := in_session (stub <- new_ItemToPurchase name 0%float quantity "none" ;;
                       s <- get ;;
                       Module8.modify_item (objects s stub)) c in
  fst r = Returned tt /\ console_ok (snd r) /\ stdin (snd r) = stdin c.
Proof.
  intros (Hr & He). cbn zeta. unfold in_session, bind, new_ItemToPurchase, get.
  set (s1 := mkSession _ _ _ _).
  assert (E : objects s1 (next_ref (session c)) = mkItem name 0%float quantity "none")
    by apply assign_same.
  rewrite E.
  pose proof (modify_item_returns (mkItem name 0%float quantity "none") s1) as H1.
  pose proof (modify_item_frame (mkItem name 0%float quantity "none") s1) as (H2 & H3 & _).
  assert (He1 : cart_entered s1 = true).
  { unfold cart_entered in *. subst s1. cbn. rewrite forallb_forall in *.
    intros r Hin. rewrite assign_other; auto.
    unfold refs_allocated in Hr. rewrite Forall_forall in Hr. specialize (Hr r Hin). lia. }
  pose proof (proj1 (modify_item_keeps_entered (mkItem name 0%float quantity "none") s1
                       He1)) as H4.
  destruct (Module8.modify_item (mkItem name 0%float quantity "none") s1) as [o s2].
  cbn [fst snd] in *. subst o. split; [reflexivity|]. split; [|reflexivity].
  split; [|exact H4]. unfold refs_allocated in *. cbn [session]. rewrite H2, H3.
  subst s1. cbn. eapply Forall_impl; [|exact Hr]. cbn. lia.
Qed.

Lemma modify_stub_first name quantity c :
  in_session (stub <- new_ItemToPurchase name 0%float quantity "none" ;;
              s <- get ;;
              Module6.modify_item (objects s stub)) c
  = in_session (stub <- new_ItemToPurchase name 0%float quantity "none" ;;
                s <- get ;;
                Module8.modify_item (objects s stub)) c.
Proof.
  unfold in_session, bind, new_ItemToPurchase, get. now rewrite modify_item_typed.
Qed.

Lemma text_kept_none : text_kept "none" = true.
Proof. unfold text_kept. now rewrite Str.strip_ascii by reflexivity. Qed.

End MenuKeeps.

Section FinalMenu.

Context {text : Str.Methods}.

Variable repr_float : float -> string.
Variable int_of_str : string -> option Z.
Variable float_of_str : string -> option float.

Lemma prompt_nonempty_string_frame message c :
  let r := prompt_nonempty_string message "none" c in
  console_ok c -> 
  console_ok (snd r) /\ (List.length (stdin (snd r)) <= List.length (stdin c))%nat
  /\ text_kept (fst r) = true.
Proof.
  cbn zeta. intros Hok. unfold prompt_nonempty_string.
  destruct (prompt_nonempty_string_loop_frame message "none" (stdin c) c) as (H1 & H2 & H3).
  cbn zeta in *. split; [eapply console_ok_same_cart; eauto|]. split; [exact H2|].
  destruct H3 as [-> | H3]; [apply text_kept_none | exact H3].
Qed.

Lemma prompt_nonnegative_int_frame message c :
  let r := prompt_nonnegative_int int_of_str message 0 c in
  console_ok c ->
  console_ok (snd r) /\ (List.length (stdin (snd r)) <= List.length (stdin c))%nat
  /\ 0 <= fst r.
Proof.
  cbn zeta. intros Hok. unfold prompt_nonnegative_int.
  destruct (prompt_nonnegative_int_loop_frame int_of_str message 0 (stdin c) c)
    as (H1 & H2 & H3).
  cbn zeta in *. split; [eapply console_ok_same_cart; eauto|]. split; [exact H2|].
  destruct H3 as [-> | [H3 _]]; [lia | exact H3].
Qed.

Lemma prompt_nonnegative_float_frame message c :
  let r := prompt_nonnegative_float float_of_str message 0%float c in
  console_ok c ->
  console_ok (snd r) /\ (List.length (stdin (snd r)) <= List.length (stdin c))%nat
  /\ PrimFloat.ltb (fst r) 0 = false.
Proof.
  cbn zeta. intros Hok. unfold prompt_nonnegative_float.
  destruct (prompt_nonnegative_float_loop_frame float_of_str message 0%float (stdin c) c)
    as (H1 & H2 & H3).
  cbn zeta in *. split; [eapply console_ok_same_cart; eauto|]. split; [exact H2|].
  destruct H3 as [-> | [H3 _]]; [reflexivity | exact H3].
Qed.

Lemma say_ok line c : console_ok c -> console_ok (say line c).
Proof. apply console_ok_same_cart. apply same_cart_printed. Qed.

Lemma item_entered_made name price qty desc :
  text_kept name = true -> text_kept desc = true ->
  PrimFloat.ltb price 0 = false -> 0 <= qty ->
  item_entered (mkItem name price qty desc) = true.
Proof.
  intros Hn Hd Hp Hq. unfold item_entered, item_not_negative. cbn.
  rewrite Hn, Hd, Hp. apply Z.leb_le in Hq. now rewrite Hq.
Qed.

Ltac take_string v c' :=
  match goal with
  | H : console_ok ?c |- context [prompt_nonempty_string ?m "none" ?c] =>
      let Hok := fresh "Hok" in let Hlen := fresh "Hlen" in let Hv := fresh "Hv" in
      destruct (prompt_nonempty_string_frame m c H) as (Hok & Hlen & Hv);
      destruct (prompt_nonempty_string m "none" c) as [v c'];
      cbn [fst snd] in Hok, Hlen, Hv
  end.

Ltac take_int v c' :=
  match goal with
  | H : console_ok ?c |- context [prompt_nonnegative_int int_of_str ?m 0 ?c] =>
      let Hok := fresh "Hok" in let Hlen := fresh "Hlen" in let Hv := fresh "Hv" in
      destruct (prompt_nonnegative_int_frame m c H) as (Hok & Hlen & Hv);
      destruct (prompt_nonnegative_int int_of_str m 0 c) as [v c'];
      cbn [fst snd] in Hok, Hlen, Hv
  end.

Ltac take_float v c' :=
  match goal with
  | H : console_ok ?c |- context [prompt_nonnegative_float float_of_str ?m 0%float ?c] =>
      let Hok := fresh "Hok" in let Hlen := fresh "Hlen" in let Hv := fresh "Hv" in
      destruct (prompt_nonnegative_float_frame m c H) as (Hok & Hlen & Hv);
      destruct (prompt_nonnegative_float float_of_str m 0%float c) as [v c'];
      cbn [fst snd] in Hok, Hlen, Hv
  end.

Lemma print_menu_branch_ok choice c :
  console_ok c ->
  let r := Module8.print_menu_branch repr_float int_of_str float_of_str choice c in
  console_ok (snd r)
  /\ (List.length (stdin (snd r)) <= List.length (stdin c))%nat
  /\ (fst r = Returned tt \/ fst r = Raised too_large \/ fst r = Raised too_many_digits).
Proof.
  intros Hok. cbn zeta. unfold Module8.print_menu_branch.
  destruct (String.eqb choice "a").
  { pose proof (say_ok (newline ++ "ADD ITEM TO CART") c Hok) as Hok0.
    change (stdin c) with (stdin (say (newline ++ "ADD ITEM TO CART") c)).
    take_string name c1. take_string desc c2. take_float price c3. take_int qty c4.
    edestruct (add_new_item_ok name price qty desc c4) as (H1 & H2 & H3);
      [eassumption | apply item_entered_made; assumption |].
    rewrite H1, H3. split; [exact H2|]. split; [lia | now left]. }
  destruct (String.eqb choice "r").
  { pose proof (say_ok (newline ++ "REMOVE ITEM FROM CART") c Hok) as Hok0.
    change (stdin c) with (stdin (say (newline ++ "REMOVE ITEM FROM CART") c)).
    take_string name c1.
    edestruct (remove_item_ok name c1) as (H1 & H2 & H3); [eassumption|].
    rewrite H1, H3. split; [exact H2|]. split; [lia | now left]. }
  destruct (String.eqb choice "c").
  { pose proof (say_ok (newline ++ "CHANGE ITEM QUANTITY") c Hok) as Hok0.
    change (stdin c) with (stdin (say (newline ++ "CHANGE ITEM QUANTITY") c)).
    take_string name c1. take_int qty c2.
    edestruct (modify_stub_ok name qty c2) as (H1 & H2 & H3); [eassumption|].
    rewrite H1, H3. split; [exact H2|]. split; [lia | now left]. }
  destruct (String.eqb choice "i").
  { set (m := (print _ ;; print_descriptions ;; print EmptyString)).
    assert (Hm : only_prints m).
    { subst m. only_prints_tac. }
    destruct (in_session_only_prints m c Hm) as (H1 & H2).
    split; [eapply console_ok_same_cart; eauto|]. split; [rewrite H2; lia|].
    left. subst m. unfold in_session, print_descriptions, bind, get.
    rewrite !print_run, for_each_print_item_description. reflexivity. }
  destruct (String.eqb choice "o").
  { set (m := (print _ ;; Module8.print_total repr_float ;; print EmptyString)).
    assert (Hm : only_prints m).
    { subst m. unfold Module8.print_total. only_prints_tac. }
    assert (Hr : raises_among [too_large; too_many_digits] m).
    { subst m. unfold Module8.print_total. raises_tac. }
    destruct (in_session_only_prints m c Hm) as (H1 & H2).
    split; [eapply console_ok_same_cart; eauto|]. split; [rewrite H2; lia|].
    specialize (Hr (session c)). unfold in_session.
    destruct (m (session c)) as [[[]|e] s']; cbn [fst] in *; [now left | right].
    destruct (Hr e eq_refl) as [<- | [<- | []]]; auto. }
  cbn. split; [now apply say_ok|]. split; [lia | now left].
Qed.

Lemma key_taken_ok rest message c : console_ok c -> console_ok (key_taken rest message c).
Proof. apply console_ok_same_cart. apply same_cart_refl. Qed.

Lemma print_menu_ok fuel :
  forall c,
  (List.length (stdin c) < fuel)%nat -> console_ok c ->
  exists o c',
    Module8.print_menu repr_float int_of_str float_of_str fuel c = Some (o, c')
    /\ console_ok c'
    /\ (o = Returned tt \/ o = Raised too_large \/ o = Raised too_many_digits).
Proof.
  induction fuel as [|fuel IH]; intros c Hlen Hok; [lia|].
  cbn [Module8.print_menu]. unfold input. rewrite say_stdin.
  pose proof (say_ok (Module8.MENU_TEXT) c Hok) as Hok1.
  destruct (stdin c) as [|[line|] rest] eqn:Ekeys.
  - eexists _, _. split; [reflexivity|]. split; [|now left].
    now apply say_ok, key_taken_ok.
  - set (c1 := key_taken rest "Choose an option: " (say Module8.MENU_TEXT c)).
    assert (Hok2 : console_ok c1) by now apply key_taken_ok.
    destruct (String.eqb (Str.lower (Str.strip line)) "q").
    + eexists _, _. split; [reflexivity|]. split; [exact Hok2 | now left].
    + destruct (print_menu_branch_ok (Str.lower (Str.strip line)) c1 Hok2) as (H1 & H2 & H3).
      destruct (Module8.print_menu_branch repr_float int_of_str float_of_str
                  (Str.lower (Str.strip line)) c1) as [[[]|e] c2];
        cbn [fst snd and_then] in *.
      * apply IH; [|exact H1]. cbn [List.length] in Hlen.
        change (stdin c1) with rest in H2. lia.
      * eexists _, _. split; [reflexivity|]. split; [exact H1|].
        destruct H3 as [H3 | [H3 | H3]]; [discriminate H3 | |];
          injection H3 as ->; auto.
  - eexists _, _. split; [reflexivity|]. split; [|now left].
    now apply say_ok, key_taken_ok.
Qed.

Lemma new_ShoppingCart_ok name date c : console_ok (new_ShoppingCart name date c).
Proof. split; [constructor | reflexivity]. Qed.

(** X20.  [main] of the final program always returns: whatever is typed,
    and however the input ends, the menu loop ends, no exception leaves
    [main], and the cart it leaves holds only items as the menu enters
    them. *)
Theorem main_returns c :
  exists c',
    Module8.main repr_float int_of_str float_of_str c = Some (Returned tt, c')
    /\ console_ok c'.
Proof.
  unfold Module8.main.
  destruct (prompt_nonempty_string "Enter customer's name: " "none" _) as [name c1].
  destruct (prompt_nonempty_string "Enter today's date: " "none" c1) as [date c2].
  set (c3 := new_ShoppingCart name date _).
  destruct (print_menu_ok (S (List.length (stdin c3))) c3 (Nat.lt_succ_diag_r _)
              (new_ShoppingCart_ok _ _ _)) as (o & c4 & Hrun & Hok & Ho).
  rewrite Hrun. destruct Ho as [-> | [-> | ->]].
  - eauto.
  - eexists. split; [reflexivity|]. now apply say_ok.
  - eexists. split; [reflexivity|]. now apply say_ok.
Qed.

End FinalMenu.

Section FirstMenu.

Context {text : Str.Methods}.

Variable int_of_str : string -> option Z.
Variable float_of_str : string -> option float.

Ltac take_string v c' :=
  match goal with
  | H : console_ok ?c |- context [prompt_nonempty_string ?m "none" ?c] =>
      let Hok := fresh "Hok" in let Hlen := fresh "Hlen" in let Hv := fresh "Hv" in
      destruct (prompt_nonempty_string_frame m c H) as (Hok & Hlen & Hv);
      destruct (prompt_nonempty_string m "none" c) as [v c'];
      cbn [fst snd] in Hok, Hlen, Hv
  end.

Ltac take_int v c' :=
  match goal with
  | H : console_ok ?c |- context [prompt_nonnegative_int int_of_str ?m 0 ?c] =>
      let Hok := fresh "Hok" in let Hlen := fresh "Hlen" in let Hv := fresh "Hv" in
      destruct (prompt_nonnegative_int_frame int_of_str m c H) as (Hok & Hlen & Hv);
      destruct (prompt_nonnegative_int int_of_str m 0 c) as [v c'];
      cbn [fst snd] in Hok, Hlen, Hv
  end.

Ltac take_float v c' :=
  match goal with
  | H : console_ok ?c |- context [prompt_nonnegative_float float_of_str ?m 0%float ?c] =>
      let Hok := fresh "Hok" in let Hlen := fresh "Hlen" in let Hv := fresh "Hv" in
      destruct (prompt_nonnegative_float_frame float_of_str m c H) as (Hok & Hlen & Hv);
      destruct (prompt_nonnegative_float float_of_str m 0%float c) as [v c'];
      cbn [fst snd] in Hok, Hlen, Hv
  end.

Lemma print_menu_branch_first_ok choice c :
  console_ok c ->
  let r := Module6.print_menu_branch int_of_str float_of_str choice c in
  console_ok (snd r)
  /\ (List.length (stdin (snd r)) <= List.length (stdin c))%nat.
Proof.
  intros Hok. cbn zeta. unfold Module6.print_menu_branch.
  destruct (String.eqb choice "a").
  { take_string name c1. take_string desc c2. take_float price c3. take_int qty c4.
    edestruct (add_new_item_ok name price qty desc c4) as (H1 & H2 & H3);
      [eassumption | apply item_entered_made; assumption |].
    rewrite H3. split; [exact H2 | lia]. }
  destruct (String.eqb choice "r").
  { take_string name c1.
    edestruct (remove_item_ok name c1) as (H1 & H2 & H3); [eassumption|].
    rewrite H3. split; [exact H2 | lia]. }
  destruct (String.eqb choice "c").
  { take_string name c1. take_int qty c2. rewrite modify_stub_first.
    edestruct (modify_stub_ok name qty c2) as (H1 & H2 & H3); [eassumption|].
    rewrite H3. split; [exact H2 | lia]. }
  destruct (String.eqb choice "i").
  { set (m := (print _ ;; print_descriptions ;; print EmptyString)).
    assert (Hm : only_prints m) by (subst m; only_prints_tac).
    destruct (in_session_only_prints m c Hm) as (H1 & H2).
    split; [eapply console_ok_same_cart; eauto | rewrite H2; lia]. }
  destruct (String.eqb choice "o").
  { set (m := (print _ ;; Module6.print_total ;; print EmptyString)).
    assert (Hm : only_prints m) by (subst m; unfold Module6.print_total; only_prints_tac).
    destruct (in_session_only_prints m c Hm) as (H1 & H2).
    split; [eapply console_ok_same_cart; eauto | rewrite H2; lia]. }
  cbn. split; [now apply say_ok | lia].
Qed.

Lemma print_menu_first_ok fuel :
  forall c,
  (List.length (stdin c) < fuel)%nat -> console_ok c ->
  exists o c',
    Module6.print_menu int_of_str float_of_str fuel c = Some (o, c') /\ console_ok c'.
Proof.
  induction fuel as [|fuel IH]; intros c Hlen Hok; [lia|].
  cbn [Module6.print_menu]. unfold input. rewrite say_stdin.
  pose proof (say_ok (Module6.MENU_TEXT) c Hok) as Hok1.
  destruct (stdin c) as [|[line|] rest] eqn:Ekeys.
  - eexists _, _. split; [reflexivity|]. now apply say_ok, key_taken_ok.
  - set (c1 := key_taken rest "Choose an option: " (say Module6.MENU_TEXT c)).
    assert (Hok2 : console_ok c1) by now apply key_taken_ok.
    destruct (String.eqb (Str.lower (Str.strip line)) "q").
    + eexists _, _. split; [reflexivity | exact Hok2].
    + destruct (print_menu_branch_first_ok (Str.lower (Str.strip line)) c1 Hok2) as (H1 & H2).
      destruct (Module6.print_menu_branch int_of_str float_of_str
                  (Str.lower (Str.strip line)) c1) as [[[]|e] c2];
        cbn [fst snd and_then] in *.
      * apply IH; [|exact H1]. cbn [List.length] in Hlen.
        change (stdin c1) with rest in H2. lia.
      * eexists _, _. split; [reflexivity | exact H1].
  - eexists _, _. split; [reflexivity|]. now apply say_ok, key_taken_ok.
Qed.

End FirstMenu.

Section MenuLoop.

Context {text : Str.Methods}.

Variable repr_float : float -> string.
Variable int_of_str : string -> option Z.
Variable float_of_str : string -> option float.

Lemma print_menu_step fuel c :
  Module8.print_menu repr_float int_of_str float_of_str (S fuel) c
  = match input "Choose an option: " (say Module8.MENU_TEXT c) with
    | (Line raw, c) =>
        let choice := Str.lower (Str.strip raw) in
        if String.eqb choice "q" then Some (Returned tt, c)
        else and_then (Module8.print_menu_branch repr_float int_of_str float_of_str choice c)
               (Module8.print_menu repr_float int_of_str float_of_str fuel)
    | (_, c) => Some (Returned tt, say (newline ++ "Session ended.") c)
    end.
Proof. reflexivity. Qed.

Lemma print_menu_first_step fuel c :
  Module6.print_menu int_of_str float_of_str (S fuel) c
  = match input "Choose an option: " (say Module6.MENU_TEXT c) with
    | (Line raw, c) =>
        let choice := Str.lower (Str.strip raw) in
        if String.eqb choice "q" then Some (Returned tt, c)
        else and_then (Module6.print_menu_branch int_of_str float_of_str choice c)
               (Module6.print_menu int_of_str float_of_str fuel)
    | (_, c) => Some (Returned tt, say (newline ++ "Session ended.") c)
    end.
Proof. reflexivity. Qed.

Lemma print_menu_one_more fuel :
  forall c r,
  Module8.print_menu repr_float int_of_str float_of_str fuel c = Some r ->
  Module8.print_menu repr_float int_of_str float_of_str (S fuel) c = Some r.
Proof.
  induction fuel as [|fuel IH]; intros c r H; [discriminate H|].
  rewrite (print_menu_step (S fuel) c). rewrite (print_menu_step fuel c) in H.
  destruct (input "Choose an option: " (say Module8.MENU_TEXT c)) as [[raw| |] c1]; auto.
  cbv zeta in *. destruct (String.eqb (Str.lower (Str.strip raw)) "q"); auto.
  destruct (Module8.print_menu_branch _ _ _ _ c1) as [[[]|e] c2]; cbn [and_then] in *; auto.
Qed.

Lemma print_menu_more_fuel fuel fuel' c r :
  (fuel <= fuel')%nat ->
  Module8.print_menu repr_float int_of_str float_of_str fuel c = Some r ->
  Module8.print_menu repr_float int_of_str float_of_str fuel' c = Some r.
Proof. induction 1; auto using print_menu_one_more. Qed.

Lemma print_menu_first_one_more fuel :
  forall c r,
  Module6.print_menu int_of_str float_of_str fuel c = Some r ->
  Module6.print_menu int_of_str float_of_str (S fuel) c = Some r.
Proof.
  induction fuel as [|fuel IH]; intros c r H; [discriminate H|].
  rewrite (print_menu_first_step (S fuel) c). rewrite (print_menu_first_step fuel c) in H.
  destruct (input "Choose an option: " (say Module6.MENU_TEXT c)) as [[raw| |] c1]; auto.
  cbv zeta in *. destruct (String.eqb (Str.lower (Str.strip raw)) "q"); auto.
  destruct (Module6.print_menu_branch _ _ _ c1) as [[[]|e] c2]; cbn [and_then] in *; auto.
Qed.

Lemma print_menu_first_more_fuel fuel fuel' c r :
  (fuel <= fuel')%nat ->
  Module6.print_menu int_of_str float_of_str fuel c = Some r ->
  Module6.print_menu int_of_str float_of_str fuel' c = Some r.
Proof. induction 1; auto using print_menu_first_one_more. Qed.

(** X19.  [print_menu] of the final program returns or raises, it does not
    loop for ever: every turn of the loop reads a line, so any fuel above
    the number of keyboard entries gives the same outcome.  The cart it
    leaves holds only items as the menu enters them, and the only
    exceptions that can leave it are the [OverflowError] of an [int] too
    large for a float and the [ValueError] of rendering an [int] of more
    than 4300 digits, both from the branch [o]. *)
Theorem print_menu_returns c :
  console_ok c ->
  exists o c',
    (forall fuel, (List.length (stdin c) < fuel)%nat ->
       Module8.print_menu repr_float int_of_str float_of_str fuel c = Some (o, c'))
    /\ console_ok c'
    /\ (o = Returned tt \/ o = Raised too_large \/ o = Raised too_many_digits).
Proof.
  intros Hok.
  destruct (print_menu_ok repr_float int_of_str float_of_str (S (List.length (stdin c))) c
              (Nat.lt_succ_diag_r _) Hok) as (o & c' & Hrun & Hok' & Ho).
  exists o, c'. split; [|auto]. intros fuel Hfuel.
  eapply print_menu_more_fuel; [|exact Hrun]. lia.
Qed.

(** X21.  [print_menu] of the first program ends as well, with the same
    outcome for any fuel above the number of keyboard entries, and keeps the
    cart to items as the menu enters them. *)
Theorem print_menu_first_program_returns c :
  console_ok c ->
  exists o c',
    (forall fuel, (List.length (stdin c) < fuel)%nat ->
       Module6.print_menu int_of_str float_of_str fuel c = Some (o, c'))
    /\ console_ok c'.
Proof.
  intros Hok.
  destruct (print_menu_first_ok int_of_str float_of_str (S (List.length (stdin c))) c
              (Nat.lt_succ_diag_r _) Hok) as (o & c' & Hrun & Hok').
  exists o, c'. split; [|auto]. intros fuel Hfuel.
  eapply print_menu_first_more_fuel; [|exact Hrun]. lia.
Qed.

(** X22.  [main] of the first program ends, by returning or by raising,
    whatever is typed, with a cart of items as the menu enters them. *)
Theorem main_first_program_ends c :
  exists o c',
    Module6.main int_of_str float_of_str c = Some (o, c') /\ console_ok c'.
Proof.
  unfold Module6.main.
  destruct (prompt_nonempty_string "Enter customer's name: " "none" _) as [name c1].
  destruct (prompt_nonempty_string "Enter today's date: " "none" c1) as [date c2].
  set (c3 := new_ShoppingCart name date _).
  exact (print_menu_first_ok int_of_str float_of_str (S (List.length (stdin c3))) c3
           (Nat.lt_succ_diag_r _) (new_ShoppingCart_ok _ _ _)).
Qed.

Lemma prompt_nonempty_string_takes message default line rest c answer :
  stdin c = Typed line :: rest -> accepted_text line = Some answer ->
  prompt_nonempty_string message default c = (answer, key_taken rest message c).
Proof.
  intros Hk Ha. unfold prompt_nonempty_string. rewrite Hk. cbn [prompt_nonempty_string_loop].
  unfold accepted_text, blank in Ha. destruct (Str.is_empty (Str.strip line)); [discriminate|].
  now injection Ha as <-.
Qed.

Lemma prompt_nonnegative_int_takes message default line rest c answer :
  stdin c = Typed line :: rest -> accepted_int int_of_str line = Some answer ->
  prompt_nonnegative_int int_of_str message default c = (answer, key_taken rest message c).
Proof.
  intros Hk Ha. unfold prompt_nonnegative_int. rewrite Hk. cbn [prompt_nonnegative_int_loop].
  unfold accepted_int in Ha. cbv zeta in *.
  destruct (String.eqb (Str.strip line) EmptyString); [discriminate|].
  destruct (contains "." (Str.strip line)); [discriminate|].
  destruct (int_of_str (Str.strip line)) as [n|]; [|discriminate].
  destruct (n <? 0); [discriminate|]. now injection Ha as <-.
Qed.

Lemma prompt_nonnegative_float_takes message default line rest c answer :
  stdin c = Typed line :: rest -> accepted_float float_of_str line = Some answer ->
  prompt_nonnegative_float float_of_str message default c
  = (answer, key_taken rest message c).
Proof.
  intros Hk Ha. unfold prompt_nonnegative_float. rewrite Hk.
  cbn [prompt_nonnegative_float_loop]. unfold accepted_float in Ha. cbv zeta.
  destruct (float_of_str (Str.strip line)) as [x|]; [|discriminate].
  destruct (PrimFloat.ltb x 0); [discriminate|]. now injection Ha as <-.
Qed.

(** X18.  The branch [a] of the menu, given four lines the prompts accept,
    reads those four lines and appends to the cart one new item holding the
    trimmed name and description and the numbers entered, every other object
    untouched.  The final program prints the heading ADD ITEM TO CART and
    the first program prints nothing; otherwise they leave the same
    session.  This for any [str.strip] and [str.lower] of the class. *)
Theorem add_item_flow name desc price qty rest c n d p q :
  stdin c = Typed name :: Typed desc :: Typed price :: Typed qty :: rest ->
  accepted_text name = Some n -> accepted_text desc = Some d ->
  accepted_float float_of_str price = Some p -> accepted_int int_of_str qty = Some q ->
  let r8 := Module8.print_menu_branch repr_float int_of_str float_of_str "a" c in
  let r6 := Module6.print_menu_branch int_of_str float_of_str "a" c in
  let fresh := next_ref (session c) in
  fst r8 = Returned tt /\ fst r6 = Returned tt
  /\ stdin (snd r8) = rest /\ stdin (snd r6) = rest
  /\ cart_items (cart (session (snd r8))) = (cart_items (cart (session c)) ++ [fresh])%list
  /\ objects (session (snd r8)) fresh = mkItem n p q d
  /\ (forall r, r <> fresh -> objects (session (snd r8)) r = objects (session c) r)
  /\ stdout (session (snd r8))
     = (stdout (session c) ++ [(newline ++ "ADD ITEM TO CART")%string])%list
  /\ session (snd r6)
     = mkSession (objects (session (snd r8))) (next_ref (session (snd r8)))
         (cart (session (snd r8))) (stdout (session c)).
Proof.
  intros Hk Hn Hd Hp Hq. cbn zeta.
  unfold Module8.print_menu_branch, Module6.print_menu_branch.
  cbn [String.eqb Ascii.eqb Bool.eqb].
  repeat first
    [ erewrite prompt_nonempty_string_takes;
        [| first [exact Hk | reflexivity] | first [exact Hn | exact Hd] ]
    | erewrite prompt_nonnegative_float_takes; [| reflexivity | exact Hp ]
    | erewrite prompt_nonnegative_int_takes; [| reflexivity | exact Hq ] ].
  cbn. rewrite assign_same. repeat split; auto.
  intros r Hr. now apply assign_other.
Qed.

End MenuLoop.

Lemma add_item_flow_witness :
  stdin (fresh_console ink_keys)
  = Typed "Ink" :: Typed "black" :: Typed "3" :: Typed "2" :: [Typed "q"]
  /\ accepted_text "Ink" = Some "Ink" /\ accepted_text "black" = Some "black"
  /\ accepted_float plain_float_of_str "3" = Some 3%float
  /\ accepted_int plain_int_of_str "2" = Some 2
  /\ cart_items (cart (session (snd (Module8.print_menu_branch (fun _ => EmptyString)
                                       plain_int_of_str plain_float_of_str "a"
                                       (fresh_console ink_keys)))))
     = [0%nat]
  /\ objects (session (snd (Module8.print_menu_branch (fun _ => EmptyString)
                              plain_int_of_str plain_float_of_str "a"
                              (fresh_console ink_keys)))) 0%nat
     = mkItem "Ink" 3%float 2 "black".
Proof.
  split; [reflexivity|]. split; [reflexivity|]. split; [reflexivity|].
  split; [reflexivity|]. split; [reflexivity|].
  pose proof (add_item_flow (fun _ => EmptyString) plain_int_of_str plain_float_of_str
                "Ink" "black" "3" "2" [Typed "q"] (fresh_console ink_keys)
                "Ink" "black" 3%float 2 eq_refl eq_refl eq_refl eq_refl eq_refl)
    as (_ & _ & _ & _ & A & B & _).
  split; [exact A | exact B].
Defined.

Lemma print_menu_returns_witness :
  console_ok (fresh_console (Typed "a" :: ink_keys))
  /\ exists o c',
       (forall fuel,
          (List.length (stdin (fresh_console (Typed "a" :: ink_keys))) < fuel)%nat ->
          Module8.print_menu (fun _ => EmptyString) plain_int_of_str plain_float_of_str
            fuel (fresh_console (Typed "a" :: ink_keys)) = Some (o, c'))
       /\ console_ok c'
       /\ (o = Returned tt \/ o = Raised too_large \/ o = Raised too_many_digits).
Proof.
  assert (H : console_ok (fresh_console (Typed "a" :: ink_keys))).
  { split; [constructor | reflexivity]. }
  split; [exact H|].
  exact (print_menu_returns (fun _ => EmptyString) plain_int_of_str plain_float_of_str
           (fresh_console (Typed "a" :: ink_keys)) H).
Defined.

Lemma print_menu_first_program_returns_witness :
  console_ok (fresh_console (Typed "a" :: ink_keys))
  /\ exists o c',
       (forall fuel,
          (List.length (stdin (fresh_console (Typed "a" :: ink_keys))) < fuel)%nat ->
          Module6.print_menu plain_int_of_str plain_float_of_str
            fuel (fresh_console (Typed "a" :: ink_keys)) = Some (o, c'))
       /\ console_ok c'.
Proof.
  assert (H : console_ok (fresh_console (Typed "a" :: ink_keys))).
  { split; [constructor | reflexivity]. }
  split; [exact H|].
  exact (print_menu_first_program_returns plain_int_of_str plain_float_of_str
           (fresh_console (Typed "a" :: ink_keys)) H).
Defined.

(** A session at the final program: Ann adds two bottles of ink, changes the
    quantity to five, prints the cart, removes the ink and closes the
    input.  The lines printed, the menu text left out. *)
Example final_program_sample_run :
  option_map
    (fun r => (fst r,
               filter (fun line => negb (String.eqb line Module8.MENU_TEXT))
                 (stdout (session (snd r))),
               cart_items (cart (session (snd r)))))
    (Module8.main (fun _ => EmptyString) plain_int_of_str plain_float_of_str
       (fresh_console
          [Typed " Ann "; Typed "February 1, 2020"; Typed "A"; Typed "Ink"; Typed "black";
           Typed "3"; Typed "2"; Typed "c"; Typed "ink"; Typed "5"; Typed "o";
           Typed "r"; Typed "INK"]))
  = Some (Returned tt,
          ["Shopping Cart Program"; "Customer name: Ann"; "Today's date: February 1, 2020";
           newline ++ "ADD ITEM TO CART"; newline ++ "CHANGE ITEM QUANTITY";
           newline ++ "OUTPUT SHOPPING CART"; "Ann's Shopping Cart - February 1, 2020";
           "Number of Items: 5"; "Ink 5 @ $3 = $15"; "Total: $15"; EmptyString;
           newline ++ "REMOVE ITEM FROM CART"; newline ++ "Session ended."],
          []).
Proof. vm_compute. reflexivity. Qed.
